(** * GreenCarbon: the emissions tracker, its energy integration and its
      carbon-intensity lookup

    A shallow embedding of the Node.js sources
    (the tracker class [EmissionsTracker], [Emissions], [Geography],
    [HardwareTracker] and [OutputHandler]) and the properties of the
    sampling and accumulation engine.

    Conventions of the embedding.
    - A JavaScript number is an exact rational ([Q]) in the classes;
      the energy arithmetic of a measurement is also given for any
      arithmetic ([Arithmetic]), binary64 among them, where the
      rounding of doubles matters.  A value that may be [NaN] or
      [undefined] is a [number].  [Date.now()] is an integer number of
      milliseconds ([Z]).
    - [null] / [undefined] are [None].
    - The intensity table of [Emissions] is a plain object: a finite
      map of its own properties, looked up with what it inherits from
      [Object.prototype] ([lookup_property]).
    - A session is a sequence of calls that run one at a time.
    - An awaited call into the operating system either resolves or
      rejects ([completion]); what the outside world answers is an
      explicit argument of the method that asks.
    - The console is a list of lines, each with its level.  A message is
      kept as its template, interpolations unevaluated; emoji and
      box-drawing characters are left out or written in ASCII. *)

From Stdlib Require Import ZArith QArith Qround Qabs Qminmax Lqa Lia List Ascii String.
From Stdlib Require Import Floats.
From stdpp Require Import base option gmap strings.
Import ListNotations.

Local Open Scope Q_scope.
Local Open Scope string_scope.

(** ** JavaScript preliminaries *)

Module JS.

Inductive level := LOG | WARN | ERROR.

Definition console := list (level * string).

(** The outcome of evaluating (or awaiting) something that may throw. *)
Inductive completion (A : Type) :=
| Normal (a : A)
| Thrown (e : string).
Arguments Normal {A} a.
Arguments Thrown {A} e.

(** Truthiness of a number: [0] is falsy (there is no NaN in [Q]). *)
Definition truthy (x : Q) : bool := negb (Qeq_bool x 0).

(** [x || d] where [x] is a number or undefined and [d] a number. *)
Definition num_or (x : option Q) (d : Q) : Q :=
  match x with
  | Some v => if truthy v then v else d
  | None => d
  end.

(** [x || null] where [x] is a number or undefined. *)
Definition num_or_null (x : option Q) : option Q :=
  match x with
  | Some v => if truthy v then Some v else None
  | None => None
  end.

(** Truthiness of a string: the empty string is falsy. *)
Definition truthy_str (s : string) : bool :=
  match s with EmptyString => false | _ => true end.

(** [x || d] where [x] is a string or undefined and [d] a string. *)
Definition str_or (x : option string) (d : string) : string :=
  match x with
  | Some v => if truthy_str v then v else d
  | None => d
  end.

(** [x || null] where [x] is a string or undefined. *)
Definition str_or_null (x : option string) : option string :=
  match x with
  | Some v => if truthy_str v then Some v else None
  | None => None
  end.

(** [String.prototype.toLowerCase] / [toUpperCase] on ASCII letters. *)
Definition lower_ascii (c : ascii) : ascii :=
  let n := nat_of_ascii c in
  if (65 <=? n)%nat && (n <=? 90)%nat then ascii_of_nat (n + 32) else c.

Definition upper_ascii (c : ascii) : ascii :=
  let n := nat_of_ascii c in
  if (97 <=? n)%nat && (n <=? 122)%nat then ascii_of_nat (n - 32) else c.

Fixpoint map_string (f : ascii -> ascii) (s : string) : string :=
  match s with
  | EmptyString => EmptyString
  | String c r => String (f c) (map_string f r)
  end.

Definition toLowerCase := map_string lower_ascii.
Definition toUpperCase := map_string upper_ascii.

(** [s.includes(p)] *)
Fixpoint includes (s p : string) : bool :=
  String.prefix p s ||
  match s with
  | EmptyString => false
  | String _ r => includes r p
  end.

(** [s.split('-')] *)
Fixpoint split_dash_aux (cur : string) (s : string) : list string :=
  match s with
  | EmptyString => [cur]
  | String c r =>
      if Ascii.eqb c "-"%char then cur :: split_dash_aux EmptyString r
      else split_dash_aux (cur ++ String c EmptyString) r
  end.

Definition split_dash (s : string) : list string := split_dash_aux EmptyString s.

(** The value of a numeric expression that may lack its operand: a
    number, [NaN], or [undefined] (the value of a property that is not
    there).  Arithmetic on [undefined] gives [NaN]. *)
Inductive number :=
| Finite (q : Q)
| NaN
| Undefined.
Coercion Finite : Q >-> number.

(** [x || d] where [x] is such a value and [d] a number: [NaN] and
    [undefined] are falsy, as [0] is. *)
Definition number_or (x : number) (d : Q) : Q :=
  match x with
  | Finite v => if truthy v then v else d
  | NaN | Undefined => d
  end.

(** The names every plain object inherits from [Object.prototype].  The
    inherited values are functions (an object for [__proto__]): truthy,
    and without properties of the tables' entries. *)
Definition Object_prototype_keys : list string :=
  ["constructor"; "__defineGetter__"; "__defineSetter__"; "hasOwnProperty";
   "__lookupGetter__"; "__lookupSetter__"; "isPrototypeOf";
   "propertyIsEnumerable"; "toString"; "valueOf"; "__proto__";
   "toLocaleString"].

Definition inherited_key (key : string) : bool :=
  existsb (String.eqb key) Object_prototype_keys.

(** [obj[key]] on a plain object whose own properties are [obj]: the
    own property, else what [Object.prototype] has under that name,
    else [undefined]. *)
Inductive property (A : Type) :=
| Own (a : A)
| Inherited
| Missing.
Arguments Own {A} a.
Arguments Inherited {A}.
Arguments Missing {A}.

Definition lookup_property {A} (obj : gmap string A) (key : string) : property A :=
  match obj !! key with
  | Some a => Own a
  | None => if inherited_key key then Inherited else Missing
  end.

(** [Math.round], [Math.ceil], [Math.max] *)
Definition Math_round (x : Q) : Z := Qfloor (x + (1 # 2)).
Definition Math_ceil (x : Q) : Z := Qceiling x.
Definition Math_max (a b : Z) : Z := Z.max a b.

End JS.
Import JS.

(** ** A monad for methods: object state, exceptions and console output *)

Module Eff.

Definition M (S A : Type) : Type := S -> completion A * S * console.

Definition ret {S A} (a : A) : M S A := fun s => (Normal a, s, []).

Definition bind {S A B} (m : M S A) (k : A -> M S B) : M S B :=
  fun s =>
    match m s with
    | (Normal a, s1, l1) =>
        let '(r, s2, l2) := k a s1 in (r, s2, (l1 ++ l2)%list)
    | (Thrown e, s1, l1) => (Thrown e, s1, l1)
    end.

Definition throw {S A} (e : string) : M S A := fun s => (Thrown e, s, []).

(** [try { m } catch (error) { h error }] *)
Definition try_catch {S A} (m : M S A) (h : string -> M S A) : M S A :=
  fun s =>
    match m s with
    | (Normal a, s1, l1) => (Normal a, s1, l1)
    | (Thrown e, s1, l1) =>
        let '(r, s2, l2) := h e s1 in (r, s2, (l1 ++ l2)%list)
    end.

(** [await p] for a promise whose settlement is given. *)
Definition await {S A} (p : completion A) : M S A := fun s => (p, s, []).

Definition get {S} : M S S := fun s => (Normal s, s, []).
Definition gets {S A} (f : S -> A) : M S A := fun s => (Normal (f s), s, []).
Definition modify {S} (f : S -> S) : M S unit := fun s => (Normal tt, f s, []).

Definition console_log {S} (msg : string) : M S unit :=
  fun s => (Normal tt, s, [(LOG, msg)]).
Definition console_warn {S} (msg : string) : M S unit :=
  fun s => (Normal tt, s, [(WARN, msg)]).
Definition console_error {S} (msg : string) : M S unit :=
  fun s => (Normal tt, s, [(ERROR, msg)]).

(** Run a method of a component object stored in a field. *)
Definition zoom {S T A} (proj : S -> T) (upd : T -> S -> S) (m : M T A) : M S A :=
  fun s =>
    let '(r, t1, l) := m (proj s) in (r, upd t1 s, l).

Definition when {S} (b : bool) (m : M S unit) : M S unit :=
  if b then m else ret tt.

End Eff.
Import Eff.

Declare Scope eff_scope.
Delimit Scope eff_scope with eff.
Notation "'let*' x ':=' c1 'in' c2" := (bind c1 (fun x => c2))
  (at level 10, x pattern, c1 at level 100, c2 at level 200) : eff_scope.
Notation "c1 ';;' c2" := (bind c1 (fun _ => c2))
  (at level 100, c2 at level 200, right associativity) : eff_scope.

(** ** emissions.js: [Emissions] *)

Module Emissions.

(** One entry of [global_energy_mix.json]. *)
Record entry := {
  carbon_intensity : Q;    (* g CO2 / kWh *)
  country_name : string
}.

(** [carbonIntensityData] holds the own properties of the parsed
    object. *)
Record t := {
  carbonIntensityData : gmap string entry;
  worldAverageCarbonIntensity : Q
}.

(** [loadCarbonIntensityData]: the parsed file, or the empty object with
    a warning when it cannot be read.  The file itself is not part of
    the sources, so its content is an argument. *)
Definition loadCarbonIntensityData
    (file : completion (gmap string entry)) : gmap string entry * console :=
  match file with
  | Normal data => (data, [])
  | Thrown _ =>
      (∅, [(WARN, "Could not load carbon intensity data, using defaults")])
  end.

(** [constructor] *)
Definition new (file : completion (gmap string entry)) : t * console :=
  let '(data, out) := loadCarbonIntensityData file in
  ({| carbonIntensityData := data; worldAverageCarbonIntensity := 475 |}, out).

(** [getCarbonIntensity(countryCode)].  The table is tested with
    [if (this.carbonIntensityData[countryCode])]: an inherited member
    passes the test, and its [carbon_intensity] is [undefined]. *)
Definition getCarbonIntensity (this : t) (countryCode : string)
  : number * console :=
  match lookup_property (carbonIntensityData this) countryCode with
  | Own e => (Finite (carbon_intensity e), [])
  | Inherited => (Undefined, [])
  | Missing =>
      (Finite (worldAverageCarbonIntensity this),
       [(WARN, "No carbon intensity data for ${countryCode}, using world average")])
  end.

(** [calculateEmissions(energyKWh, countryCode)]:
    [(carbonIntensity / 1000) * energyKWh], which is [NaN] when the
    intensity is [undefined]. *)
Definition calculateEmissions (this : t) (energyKWh : Q) (countryCode : string)
  : number * console :=
  let '(carbonIntensity, out) := getCarbonIntensity this countryCode in
  (match carbonIntensity with
   | Finite ci => Finite ((ci / 1000) * energyKWh)
   | NaN | Undefined => NaN
   end, out).

(** [getCountryName(countryCode)]; [None] is [undefined], the
    [country_name] of an inherited member. *)
Definition getCountryName (this : t) (countryCode : string) : option string :=
  match lookup_property (carbonIntensityData this) countryCode with
  | Own e => Some (country_name e)
  | Inherited => None
  | Missing => Some "Unknown"
  end.

End Emissions.

(** ** geography.js: [Geography] *)

Module Geography.

Record t := {
  defaultCountry : string;
  defaultRegion : option string
}.

Definition new : t := {| defaultCountry := "USA"; defaultRegion := None |}.

Record location := {
  countryCode : string;
  countryName : string;
  region : option string;
  latitude : option Q;
  longitude : option Q
}.

Definition localeMap : gmap string string :=
  list_to_map
    [("en", "USA"); ("de", "DEU"); ("fr", "FRA"); ("es", "ESP");
     ("it", "ITA"); ("ja", "JPN"); ("ko", "KOR"); ("zh", "CHN");
     ("hi", "IND"); ("pt", "BRA"); ("ru", "RUS")].

(** [extractCountryFromLocale(locale)]; the result may be the empty
    string (for a locale such as [en-]). *)
Definition extractCountryFromLocale (locale : string) : option string :=
  match split_dash locale with
  | p0 :: p1 :: _ => Some (toUpperCase p1)
  | p0 :: [] => str_or_null (localeMap !! p0)
  | [] => None
  end.

Definition countryNames : gmap string string :=
  list_to_map
    [("USA", "United States"); ("CAN", "Canada"); ("GBR", "United Kingdom");
     ("DEU", "Germany"); ("FRA", "France"); ("ESP", "Spain");
     ("ITA", "Italy"); ("JPN", "Japan"); ("KOR", "South Korea");
     ("CHN", "China"); ("IND", "India"); ("BRA", "Brazil");
     ("RUS", "Russia"); ("AUS", "Australia"); ("NLD", "Netherlands");
     ("SWE", "Sweden"); ("NOR", "Norway"); ("DNK", "Denmark");
     ("FIN", "Finland")].

(** [getCountryName(countryCode)] *)
Definition getCountryName (this : t) (countryCode : string) : string :=
  str_or (countryNames !! countryCode) "Unknown".

(** [detectLocation()]; [locale] is what
    [Intl.DateTimeFormat().resolvedOptions().locale] evaluates to. *)
Definition detectLocation (locale : completion string) : M t location :=
  (let* found :=
     try_catch
       (let* locale := await locale in
        match extractCountryFromLocale locale with
        | Some countryCode =>
            if truthy_str countryCode then
              let* this := get in
              ret (Some {| countryCode := countryCode;
                           countryName := getCountryName this countryCode;
                           region := None; latitude := None; longitude := None |})
            else ret None
        | None => ret None
        end)
       (fun _ =>
          console_warn "Could not detect location from locale:" ;; ret None) in
   match found with
   | Some loc => ret loc
   | None =>
       let* this := get in
       ret {| countryCode := defaultCountry this;
              countryName := "United States";
              region := None; latitude := None; longitude := None |}
   end)%eff.

(** [setLocation(countryCode, region = null)] *)
Definition setLocation (countryCode : string) (region : option string) : M t unit :=
  modify (fun _ => {| defaultCountry := countryCode; defaultRegion := region |}).

Definition usStates : gmap string Q :=
  list_to_map
    [("CA", 300); ("WA", 250); ("NY", 350); ("TX", 450);
     ("WV", 850); ("WY", 900); ("FL", 500)].

Definition canadianProvinces : gmap string Q :=
  list_to_map
    [("QC", 50); ("ON", 150); ("BC", 100); ("AB", 600); ("SK", 700)].

(** [countryCode === c && region && table[region]] : the value of the
    table when the whole conjunction is truthy. *)
Definition regional (table : gmap string Q) (region : option string) : option Q :=
  match region with
  | Some r => if truthy_str r then num_or_null (table !! r) else None
  | None => None
  end.

(** [getRegionalCarbonIntensity(countryCode, region)]; [None] is the
    [null] that stands for "use country-level data". *)
Definition getRegionalCarbonIntensity
    (this : t) (countryCode : string) (region : option string) : option Q :=
  match (if String.eqb countryCode "USA" then regional usStates region else None) with
  | Some v => Some v
  | None =>
      match (if String.eqb countryCode "CAN"
             then regional canadianProvinces region else None) with
      | Some v => Some v
      | None => None
      end
  end.

End Geography.

(** ** hardware.js: [HardwareTracker] *)

Module HardwareTracker.

(** What [systeminformation] and [os] report. *)
Record cpuData := { brand : string; physicalCores : Z }.
Record memData := { total : Q }.
Record controller := { vendor : option string; model : option string }.
Record graphicsData := { controllers : option (list controller) }.
Record osData := { distro : string; release : string }.

(** The answers of the operating system while one method runs. *)
Record system := {
  si_cpu : completion cpuData;
  si_mem : completion memData;
  si_graphics : completion graphicsData;
  si_currentLoad : completion Q;
  si_osInfo : completion osData;
  os_cpus_length : Z;
  os_platform : string;
  process_version : string
}.

Record t := {
  cpuInfo : option cpuData;
  memInfo : option memData;
  gpuInfo : option graphicsData;
  isInitialized : bool
}.

Definition new : t :=
  {| cpuInfo := None; memInfo := None; gpuInfo := None; isInitialized := false |}.

Definition set_cpuInfo v (h : t) : t :=
  {| cpuInfo := v; memInfo := memInfo h; gpuInfo := gpuInfo h;
     isInitialized := isInitialized h |}.
Definition set_memInfo v (h : t) : t :=
  {| cpuInfo := cpuInfo h; memInfo := v; gpuInfo := gpuInfo h;
     isInitialized := isInitialized h |}.
Definition set_gpuInfo v (h : t) : t :=
  {| cpuInfo := cpuInfo h; memInfo := memInfo h; gpuInfo := v;
     isInitialized := isInitialized h |}.
Definition set_isInitialized v (h : t) : t :=
  {| cpuInfo := cpuInfo h; memInfo := memInfo h; gpuInfo := gpuInfo h;
     isInitialized := v |}.

(** [initialize()] *)
Definition initialize (sys : system) : M t unit :=
  try_catch
    (let* c := await (si_cpu sys) in
     modify (set_cpuInfo (Some c)) ;;
     let* m := await (si_mem sys) in
     modify (set_memInfo (Some m)) ;;
     let* g := await (si_graphics sys) in
     modify (set_gpuInfo (Some g)) ;;
     modify (set_isInitialized true))%eff
    (fun _ =>
       console_error "Failed to initialize hardware detection:" ;;
       modify (set_isInitialized false))%eff.

Definition ensure_initialized (sys : system) : M t unit :=
  (let* init := gets isInitialized in
   if init then ret tt else initialize sys)%eff.

Record cpuInfoResult := {
  ci_model : string; ci_cores : Z; ci_physicalCores : Z; ci_threads : Z
}.

(** [getCPUInfo()] *)
Definition getCPUInfo (sys : system) : M t cpuInfoResult :=
  (ensure_initialized sys ;;
   let* this := get in
   let cpuCount := os_cpus_length sys in
   let cpuModel :=
     match cpuInfo this with Some c => brand c | None => "Unknown CPU" end in
   ret {| ci_model := cpuModel;
          ci_cores := cpuCount;
          ci_physicalCores :=
            match cpuInfo this with Some c => physicalCores c | None => cpuCount end;
          ci_threads := cpuCount |})%eff.

(** [getCPUUsage()] *)
Definition getCPUUsage (sys : system) : M t Q :=
  try_catch
    (let* load := await (si_currentLoad sys) in ret load)%eff
    (fun _ => console_warn "Could not get CPU usage:" ;; ret 50)%eff.

(** [estimateTDPFromModel(model)] *)
Definition estimateTDPFromModel (model : string) : Q :=
  let modelLower := toLowerCase model in
  if includes modelLower "i3" then 35 else
  if includes modelLower "i5" then 65 else
  if includes modelLower "i7" then 95 else
  if includes modelLower "i9" then 125 else
  if includes modelLower "xeon" then 150 else
  if includes modelLower "ryzen 3" then 65 else
  if includes modelLower "ryzen 5" then 95 else
  if includes modelLower "ryzen 7" then 105 else
  if includes modelLower "ryzen 9" then 125 else
  if includes modelLower "threadripper" then 280 else
  if includes modelLower "u" || includes modelLower "y" then 15 else
  if includes modelLower "h" then 45 else
  85.

Record cpuPowerResult := {
  cp_power : Q; cp_tdp : Q; cp_usage : Q; cp_model : string; cp_cores : Z
}.

(** [estimateCPUPower()] *)
Definition estimateCPUPower (sys : system) : M t cpuPowerResult :=
  (let* cpuInfo := getCPUInfo sys in
   let* cpuUsage := getCPUUsage sys in
   let tdp := estimateTDPFromModel (ci_model cpuInfo) in
   let loadFactor := cpuUsage / 100 in
   let basePowerRatio := 5 # 10 in
   let actualPower := tdp * (basePowerRatio + (loadFactor * (5 # 10))) in
   ret {| cp_power := actualPower; cp_tdp := tdp; cp_usage := cpuUsage;
          cp_model := ci_model cpuInfo; cp_cores := ci_cores cpuInfo |})%eff.

Record ramInfoResult := { ri_totalGB : Z; ri_estimatedSlots : Z; ri_power : Q }.

(** [getRAMInfo()]; reading [this.memInfo.total] throws when [memInfo]
    is still [null]. *)
Definition getRAMInfo (sys : system) : M t ramInfoResult :=
  (ensure_initialized sys ;;
   let* this := get in
   match memInfo this with
   | None => throw "TypeError: Cannot read properties of null (reading 'total')"
   | Some m =>
       let totalGB := Math_round (total m / (1024 * 1024 * 1024)) in
       let estimatedSlots := Math_max 1 (Math_ceil (inject_Z totalGB / 8)) in
       let ramPower := inject_Z estimatedSlots * 5 in
       ret {| ri_totalGB := totalGB; ri_estimatedSlots := estimatedSlots;
              ri_power := ramPower |}
   end)%eff.

(** [estimateGPUPower(model)] *)
Definition estimateGPUPower (model : string) : Q :=
  let modelLower := toLowerCase model in
  if includes modelLower "rtx 4090" then 450 else
  if includes modelLower "rtx 4080" then 320 else
  if includes modelLower "rtx 4070" then 200 else
  if includes modelLower "rtx 3090" then 350 else
  if includes modelLower "rtx 3080" then 320 else
  if includes modelLower "rtx 3070" then 220 else
  if includes modelLower "rtx 3060" then 170 else
  if includes modelLower "rx 7900" then 300 else
  if includes modelLower "rx 6900" then 300 else
  if includes modelLower "rx 6800" then 250 else
  if includes modelLower "rx 6700" then 180 else
  150.

Record gpuInfoResult := { gi_count : Z; gi_power : Q; gi_models : list string }.

Definition no_gpu : gpuInfoResult :=
  {| gi_count := 0; gi_power := 0; gi_models := [] |}.

Definition is_discrete (gpu : controller) : bool :=
  match vendor gpu with
  | Some v => truthy_str v && negb (includes (toLowerCase v) "intel")
  | None => false
  end.

(** [getGPUInfo()] *)
Definition getGPUInfo (sys : system) : M t gpuInfoResult :=
  (ensure_initialized sys ;;
   let* this := get in
   match gpuInfo this with
   | None => ret no_gpu
   | Some g =>
       match controllers g with
       | None => ret no_gpu
       | Some [] => ret no_gpu
       | Some cs =>
           let gpus := List.filter is_discrete cs in
           match gpus with
           | [] => ret no_gpu
           | _ =>
               let totalGPUPower :=
                 fold_left
                   (fun total gpu =>
                      total + estimateGPUPower (str_or (model gpu) "Unknown GPU"))
                   gpus 0 in
               ret {| gi_count := Z.of_nat (length gpus);
                      gi_power := totalGPUPower;
                      gi_models :=
                        List.map (fun gpu => str_or (model gpu) "Unknown GPU") gpus |}
           end
       end
   end)%eff.

Record systemInfo := {
  platform : string;
  os : string;
  cpu : cpuInfoResult;
  ram : ramInfoResult;
  gpu : gpuInfoResult;
  nodeVersion : string
}.

(** [getSystemInfo()] *)
Definition getSystemInfo (sys : system) : M t systemInfo :=
  (let* cpu := getCPUInfo sys in
   let* ram := getRAMInfo sys in
   let* gpu := getGPUInfo sys in
   let platform := os_platform sys in
   let* osInfo := await (si_osInfo sys) in
   ret {| platform := platform;
          os := distro osInfo ++ "-" ++ release osInfo;
          cpu := cpu; ram := ram; gpu := gpu;
          nodeVersion := process_version sys |})%eff.

End HardwareTracker.

(** ** The result object of a session *)

Record results := {
  r_emissions : number;
  r_emissionsRate : number;
  r_energyConsumed : Q;
  r_duration : Q;
  r_cpuPower : Q;
  r_ramPower : Q;
  r_gpuPower : Q;
  r_cpuEnergy : Q;
  r_ramEnergy : Q;
  r_gpuEnergy : Q;
  r_projectName : string;
  r_runId : string;
  r_experimentId : string;
  r_countryName : string;
  r_countryCode : string;
  r_region : option string;
  r_os : string;
  r_cpuModel : string;
  r_cpuCount : Z;
  r_gpuCount : Z;
  r_gpuModel : string;
  r_ramTotalSize : Z;
  r_version : string;
  r_trackingMode : string;
  r_onCloud : string;
  r_pue : Q;
  r_measurements : nat;
  r_averageCpuUsage : Q
}.

(** ** output.js: [OutputHandler] *)

Module OutputHandler.

(** [written] stands for the CSV file: the data objects whose record
    the writer has appended (the formatting of a record is not
    modelled). *)
Record t := {
  saveToFile : bool;
  filePath : string;
  projectName : string;
  csvWriter : bool;
  written : list results
}.

(** [constructor(options)] with [initializeCSVWriter()] *)
Definition new (o_saveToFile : bool) (o_filePath o_projectName : string) : t :=
  {| saveToFile := o_saveToFile;
     filePath := str_or (Some o_filePath) "emissions.csv";
     projectName := str_or (Some o_projectName) "green-carbon";
     csvWriter := o_saveToFile;
     written := [] |}.

Definition push_written (data : results) (h : t) : t :=
  {| saveToFile := saveToFile h; filePath := filePath h;
     projectName := projectName h; csvWriter := csvWriter h;
     written := (written h ++ [data])%list |}.

(** [saveData(data)]; [write] is how [csvWriter.writeRecords] settles. *)
Definition saveData (write : completion unit) (data : results) : M t unit :=
  (let* this := get in
   if negb (saveToFile this) || negb (csvWriter this) then ret tt
   else
     try_catch
       (await write ;;
        modify (push_written data) ;;
        console_log "Emissions data saved to ${this.filePath}")
       (fun _ => console_error "Failed to save emissions data:"))%eff.

(** [logData(data)] *)
Definition logData (data : results) : M t unit :=
  (console_log "Emissions Tracking Results:" ;;
   console_log "==================================================" ;;
   console_log "CO2 Emissions: ${data.emissions.toFixed(6)} kg" ;;
   console_log "Energy Consumed: ${data.energyConsumed.toFixed(6)} kWh" ;;
   console_log "Duration: ${data.duration.toFixed(2)} seconds" ;;
   console_log "Average Power: ${(...).toFixed(1)} W" ;;
   console_log "CPU Power: ${data.cpuPower.toFixed(1)} W" ;;
   console_log "RAM Power: ${data.ramPower.toFixed(1)} W" ;;
   console_log "GPU Power: ${data.gpuPower.toFixed(1)} W" ;;
   console_log "Location: ${data.countryName} (${data.countryCode})" ;;
   console_log "Carbon Intensity: ${(...).toFixed(0)} g CO2/kWh" ;;
   console_log "Real-world equivalents:" ;;
   console_log "Car driving: ${carKm.toFixed(1)} meters" ;;
   console_log "TV watching: ${tvMinutes.toFixed(1)} minutes" ;;
   console_log "==================================================")%eff.

End OutputHandler.

(** *** The CSV record of a result *)

Module CsvRecord.

(** A field of a record handed to [writeRecords]. *)
Inductive cell :=
| Str (s : string)
| Num (x : Q).

(** [n || d] where [n] is an integer count. *)
Definition count_or (n d : Z) : Z := if (n =? 0)%Z then d else n.

(** The ids of the header given to [createObjectCsvWriter] by
    [initializeCSVWriter()], in order. *)
Definition header : list string :=
  ["timestamp"; "project_name"; "run_id"; "experiment_id"; "duration";
   "emissions"; "emissions_rate"; "cpu_power"; "gpu_power"; "ram_power";
   "cpu_energy"; "gpu_energy"; "ram_energy"; "energy_consumed";
   "country_name"; "country_iso_code"; "region"; "cloud_provider";
   "cloud_region"; "os"; "python_version"; "codecarbon_version";
   "cpu_count"; "cpu_model"; "gpu_count"; "gpu_model"; "longitude";
   "latitude"; "ram_total_size"; "tracking_mode"; "on_cloud"; "pue"].

(** [formatDataForCSV(data)] on a result object of the tracker; [iso]
    is [new Date().toISOString()], [uuid1] and [uuid2] what the two
    calls of [generateUUID()] would return.  The result object has no
    [cloudProvider], [cloudRegion], [longitude] or [latitude]. *)
Definition formatDataForCSV (iso uuid1 uuid2 : string) (data : results)
    (this : OutputHandler.t) : list (string * cell) :=
  [("timestamp", Str iso);
   ("project_name",
    Str (str_or (Some (r_projectName data)) (OutputHandler.projectName this)));
   ("run_id", Str (str_or (Some (r_runId data)) uuid1));
   ("experiment_id", Str (str_or (Some (r_experimentId data)) uuid2));
   ("duration", Num (num_or (Some (r_duration data)) 0));
   ("emissions", Num (number_or (r_emissions data) 0));
   ("emissions_rate", Num (number_or (r_emissionsRate data) 0));
   ("cpu_power", Num (num_or (Some (r_cpuPower data)) 0));
   ("gpu_power", Num (num_or (Some (r_gpuPower data)) 0));
   ("ram_power", Num (num_or (Some (r_ramPower data)) 0));
   ("cpu_energy", Num (num_or (Some (r_cpuEnergy data)) 0));
   ("gpu_energy", Num (num_or (Some (r_gpuEnergy data)) 0));
   ("ram_energy", Num (num_or (Some (r_ramEnergy data)) 0));
   ("energy_consumed", Num (num_or (Some (r_energyConsumed data)) 0));
   ("country_name", Str (str_or (Some (r_countryName data)) "Unknown"));
   ("country_iso_code", Str (str_or (Some (r_countryCode data)) "USA"));
   ("region", Str (str_or (r_region data) ""));
   ("cloud_provider", Str "");
   ("cloud_region", Str "");
   ("os", Str (str_or (Some (r_os data)) "Unknown"));
   ("python_version", Str "");
   ("codecarbon_version", Str (str_or (Some (r_version data)) "1.0.0-nodejs"));
   ("cpu_count", Num (inject_Z (count_or (r_cpuCount data) 1)));
   ("cpu_model", Str (str_or (Some (r_cpuModel data)) "Unknown"));
   ("gpu_count", Num (inject_Z (count_or (r_gpuCount data) 0)));
   ("gpu_model", Str (str_or (Some (r_gpuModel data)) ""));
   ("longitude", Str "");
   ("latitude", Str "");
   ("ram_total_size", Num (inject_Z (count_or (r_ramTotalSize data) 0)));
   ("tracking_mode", Str (str_or (Some (r_trackingMode data)) "machine"));
   ("on_cloud", Str (str_or (Some (r_onCloud data)) "N"));
   ("pue", Num (num_or (Some (r_pue data)) 1))].

(** The value of a column of a record. *)
Fixpoint column (k : string) (rec : list (string * cell)) : option cell :=
  match rec with
  | [] => None
  | (k', v) :: rest => if String.eqb k k' then Some v else column k rest
  end.

End CsvRecord.

(** ** The tracker class [EmissionsTracker] *)

Module EmissionsTracker.

(** The [options] argument of the constructor; an absent key is [None]. *)
Record options := {
  o_projectName : option string;
  o_measurePowerSecs : option Q;
  o_countryCode : option string;
  o_region : option string;
  o_saveToFile : option bool;
  o_outputFile : option string;
  o_logLevel : option string;
  o_pue : option Q;
  o_forceCpuPower : option Q;
  o_forceRamPower : option Q;
  o_forceGpuPower : option Q
}.

Definition no_options : options :=
  {| o_projectName := None; o_measurePowerSecs := None; o_countryCode := None;
     o_region := None; o_saveToFile := None; o_outputFile := None;
     o_logLevel := None; o_pue := None; o_forceCpuPower := None;
     o_forceRamPower := None; o_forceGpuPower := None |}.

Record measurement := {
  timestamp : Z;
  duration : Q;
  cpuPower : Q;
  ramPower : Q;
  gpuPower : Q;
  cpuEnergy : Q;
  ramEnergy : Q;
  gpuEnergy : Q;
  m_totalEnergy : Q;
  cpuUsage : Q
}.

(** The fields assigned once, by the constructor. *)
Record config := {
  projectName : string;
  measurePowerInterval : Q;          (* milliseconds *)
  countryCode : option string;
  region : option string;
  saveToFile : bool;
  outputFile : string;
  logLevel : string;
  pue : Q;
  forceCpuPower : option Q;
  forceRamPower : option Q;
  forceGpuPower : option Q;
  runId : string;
  experimentId : string;
  emissions : Emissions.t;
  geography : Geography.t
}.

Record t := {
  cfg : config;
  isTracking : bool;
  startTime : option Z;
  endTime : option Z;
  measurementInterval : option Q;    (* the period of the live timer *)
  totalCpuEnergy : Q;
  totalRamEnergy : Q;
  totalGpuEnergy : Q;
  totalEnergy : Q;
  measurements : list measurement;
  hardwareTracker : HardwareTracker.t;
  outputHandler : OutputHandler.t;
  systemInfo : option HardwareTracker.systemInfo;
  locationInfo : option Geography.location
}.

(** [constructor(options = {})].  The two identifiers come from
    [Math.random] and the intensity table from a file, so they are
    arguments. *)
Definition new (o : options) (uuid1 uuid2 : string) (em : Emissions.t) : t :=
  let projectName := str_or (o_projectName o) "green-carbon-project" in
  let saveToFile :=
    match o_saveToFile o with Some false => false | _ => true end in
  let outputFile := str_or (o_outputFile o) "emissions.csv" in
  {| cfg :=
       {| projectName := projectName;
          measurePowerInterval := num_or (o_measurePowerSecs o) 15 * 1000;
          countryCode := str_or_null (o_countryCode o);
          region := str_or_null (o_region o);
          saveToFile := saveToFile;
          outputFile := outputFile;
          logLevel := str_or (o_logLevel o) "INFO";
          pue := num_or (o_pue o) 1;
          forceCpuPower := num_or_null (o_forceCpuPower o);
          forceRamPower := num_or_null (o_forceRamPower o);
          forceGpuPower := num_or_null (o_forceGpuPower o);
          runId := uuid1;
          experimentId := uuid2;
          emissions := em;
          geography := Geography.new |};
     isTracking := false;
     startTime := None;
     endTime := None;
     measurementInterval := None;
     totalCpuEnergy := 0;
     totalRamEnergy := 0;
     totalGpuEnergy := 0;
     totalEnergy := 0;
     measurements := [];
     hardwareTracker := HardwareTracker.new;
     outputHandler := OutputHandler.new saveToFile outputFile projectName;
     systemInfo := None;
     locationInfo := None |}.

(** Assignments to the fields of [this]. *)
Definition set_isTracking v (s : t) : t :=
  {| cfg := cfg s; isTracking := v; startTime := startTime s;
     endTime := endTime s; measurementInterval := measurementInterval s;
     totalCpuEnergy := totalCpuEnergy s;
     totalRamEnergy := totalRamEnergy s;
     totalGpuEnergy := totalGpuEnergy s; totalEnergy := totalEnergy s;
     measurements := measurements s;
     hardwareTracker := hardwareTracker s;
     outputHandler := outputHandler s; systemInfo := systemInfo s;
     locationInfo := locationInfo s |}.
Definition set_startTime v (s : t) : t :=
  {| cfg := cfg s; isTracking := isTracking s; startTime := v;
     endTime := endTime s; measurementInterval := measurementInterval s;
     totalCpuEnergy := totalCpuEnergy s;
     totalRamEnergy := totalRamEnergy s;
     totalGpuEnergy := totalGpuEnergy s; totalEnergy := totalEnergy s;
     measurements := measurements s;
     hardwareTracker := hardwareTracker s;
     outputHandler := outputHandler s; systemInfo := systemInfo s;
     locationInfo := locationInfo s |}.
Definition set_endTime v (s : t) : t :=
  {| cfg := cfg s; isTracking := isTracking s; startTime := startTime s;
     endTime := v; measurementInterval := measurementInterval s;
     totalCpuEnergy := totalCpuEnergy s;
     totalRamEnergy := totalRamEnergy s;
     totalGpuEnergy := totalGpuEnergy s; totalEnergy := totalEnergy s;
     measurements := measurements s;
     hardwareTracker := hardwareTracker s;
     outputHandler := outputHandler s; systemInfo := systemInfo s;
     locationInfo := locationInfo s |}.
Definition set_measurementInterval v (s : t) : t :=
  {| cfg := cfg s; isTracking := isTracking s; startTime := startTime s;
     endTime := endTime s; measurementInterval := v;
     totalCpuEnergy := totalCpuEnergy s;
     totalRamEnergy := totalRamEnergy s;
     totalGpuEnergy := totalGpuEnergy s; totalEnergy := totalEnergy s;
     measurements := measurements s;
     hardwareTracker := hardwareTracker s;
     outputHandler := outputHandler s; systemInfo := systemInfo s;
     locationInfo := locationInfo s |}.
Definition set_totalCpuEnergy v (s : t) : t :=
  {| cfg := cfg s; isTracking := isTracking s; startTime := startTime s;
     endTime := endTime s; measurementInterval := measurementInterval s;
     totalCpuEnergy := v; totalRamEnergy := totalRamEnergy s;
     totalGpuEnergy := totalGpuEnergy s; totalEnergy := totalEnergy s;
     measurements := measurements s;
     hardwareTracker := hardwareTracker s;
     outputHandler := outputHandler s; systemInfo := systemInfo s;
     locationInfo := locationInfo s |}.
Definition set_totalRamEnergy v (s : t) : t :=
  {| cfg := cfg s; isTracking := isTracking s; startTime := startTime s;
     endTime := endTime s; measurementInterval := measurementInterval s;
     totalCpuEnergy := totalCpuEnergy s; totalRamEnergy := v;
     totalGpuEnergy := totalGpuEnergy s; totalEnergy := totalEnergy s;
     measurements := measurements s;
     hardwareTracker := hardwareTracker s;
     outputHandler := outputHandler s; systemInfo := systemInfo s;
     locationInfo := locationInfo s |}.
Definition set_totalGpuEnergy v (s : t) : t :=
  {| cfg := cfg s; isTracking := isTracking s; startTime := startTime s;
     endTime := endTime s; measurementInterval := measurementInterval s;
     totalCpuEnergy := totalCpuEnergy s;
     totalRamEnergy := totalRamEnergy s; totalGpuEnergy := v;
     totalEnergy := totalEnergy s; measurements := measurements s;
     hardwareTracker := hardwareTracker s;
     outputHandler := outputHandler s; systemInfo := systemInfo s;
     locationInfo := locationInfo s |}.
Definition set_totalEnergy v (s : t) : t :=
  {| cfg := cfg s; isTracking := isTracking s; startTime := startTime s;
     endTime := endTime s; measurementInterval := measurementInterval s;
     totalCpuEnergy := totalCpuEnergy s;
     totalRamEnergy := totalRamEnergy s;
     totalGpuEnergy := totalGpuEnergy s; totalEnergy := v;
     measurements := measurements s;
     hardwareTracker := hardwareTracker s;
     outputHandler := outputHandler s; systemInfo := systemInfo s;
     locationInfo := locationInfo s |}.
Definition set_measurements v (s : t) : t :=
  {| cfg := cfg s; isTracking := isTracking s; startTime := startTime s;
     endTime := endTime s; measurementInterval := measurementInterval s;
     totalCpuEnergy := totalCpuEnergy s;
     totalRamEnergy := totalRamEnergy s;
     totalGpuEnergy := totalGpuEnergy s; totalEnergy := totalEnergy s;
     measurements := v; hardwareTracker := hardwareTracker s;
     outputHandler := outputHandler s; systemInfo := systemInfo s;
     locationInfo := locationInfo s |}.
Definition set_hardwareTracker v (s : t) : t :=
  {| cfg := cfg s; isTracking := isTracking s; startTime := startTime s;
     endTime := endTime s; measurementInterval := measurementInterval s;
     totalCpuEnergy := totalCpuEnergy s;
     totalRamEnergy := totalRamEnergy s;
     totalGpuEnergy := totalGpuEnergy s; totalEnergy := totalEnergy s;
     measurements := measurements s; hardwareTracker := v;
     outputHandler := outputHandler s; systemInfo := systemInfo s;
     locationInfo := locationInfo s |}.
Definition set_outputHandler v (s : t) : t :=
  {| cfg := cfg s; isTracking := isTracking s; startTime := startTime s;
     endTime := endTime s; measurementInterval := measurementInterval s;
     totalCpuEnergy := totalCpuEnergy s;
     totalRamEnergy := totalRamEnergy s;
     totalGpuEnergy := totalGpuEnergy s; totalEnergy := totalEnergy s;
     measurements := measurements s;
     hardwareTracker := hardwareTracker s; outputHandler := v;
     systemInfo := systemInfo s; locationInfo := locationInfo s |}.
Definition set_systemInfo v (s : t) : t :=
  {| cfg := cfg s; isTracking := isTracking s; startTime := startTime s;
     endTime := endTime s; measurementInterval := measurementInterval s;
     totalCpuEnergy := totalCpuEnergy s;
     totalRamEnergy := totalRamEnergy s;
     totalGpuEnergy := totalGpuEnergy s; totalEnergy := totalEnergy s;
     measurements := measurements s;
     hardwareTracker := hardwareTracker s;
     outputHandler := outputHandler s; systemInfo := v;
     locationInfo := locationInfo s |}.
Definition set_locationInfo v (s : t) : t :=
  {| cfg := cfg s; isTracking := isTracking s; startTime := startTime s;
     endTime := endTime s; measurementInterval := measurementInterval s;
     totalCpuEnergy := totalCpuEnergy s;
     totalRamEnergy := totalRamEnergy s;
     totalGpuEnergy := totalGpuEnergy s; totalEnergy := totalEnergy s;
     measurements := measurements s;
     hardwareTracker := hardwareTracker s;
     outputHandler := outputHandler s; systemInfo := systemInfo s;
     locationInfo := v |}.


(** The outside world while one method runs: the reading of
    [Date.now()], the answers of the operating system and the locale. *)
Record world := {
  now : Z;
  sys : HardwareTracker.system;
  locale : completion string
}.

Definition hardware {A} (m : M HardwareTracker.t A) : M t A :=
  zoom hardwareTracker set_hardwareTracker m.

Definition output {A} (m : M OutputHandler.t A) : M t A :=
  zoom outputHandler set_outputHandler m.

Definition geo {A} (m : M Geography.t A) : M t A :=
  zoom (fun s => geography (cfg s)) (fun _ s => s) m.

(** [null] and [undefined] timestamps count as [0] in arithmetic. *)
Definition time_or_0 (x : option Z) : Z := default 0%Z x.

(** [initializeSystemInfo()] *)
Definition initializeSystemInfo (w : world) : M t unit :=
  (let* info := hardware (HardwareTracker.getSystemInfo (sys w)) in
   modify (set_systemInfo (Some info)) ;;
   let* this := get in
   match str_or_null (countryCode (cfg this)) with
   | Some cc =>
       modify (set_locationInfo
                 (Some {| Geography.countryCode := cc;
                          Geography.countryName :=
                            Geography.getCountryName (geography (cfg this)) cc;
                          Geography.region := region (cfg this);
                          Geography.latitude := None;
                          Geography.longitude := None |}))
   | None =>
       let* loc := geo (Geography.detectLocation (locale w)) in
       modify (set_locationInfo (Some loc))
   end ;;
   console_log
     "Location detected: ${this.locationInfo.countryName} (${this.locationInfo.countryCode})")%eff.

(** The time since the last measurement, in seconds. *)
Definition timeSinceLastMeasurement (this : t) (measurementTime : Z) : Q :=
  match last (measurements this) with
  | Some m => inject_Z (measurementTime - timestamp m) / 1000
  | None => measurePowerInterval (cfg this) / 1000
  end.

(** [measurePowerAndEnergy()] *)
Definition measurePowerAndEnergy (w : world) : M t unit :=
  (let* tracking := gets isTracking in
   if negb tracking then ret tt
   else
     try_catch
       (let measurementTime := now w in
        let* this := get in
        let timeSinceLastMeasurement :=
          timeSinceLastMeasurement this measurementTime in
        (* Get power measurements *)
        let* cpuInfo := hardware (HardwareTracker.estimateCPUPower (sys w)) in
        let* ramInfo := hardware (HardwareTracker.getRAMInfo (sys w)) in
        let* gpuInfo := hardware (HardwareTracker.getGPUInfo (sys w)) in
        (* Apply force overrides if specified *)
        let cpuPower :=
          num_or (forceCpuPower (cfg this)) (HardwareTracker.cp_power cpuInfo) in
        let ramPower :=
          num_or (forceRamPower (cfg this)) (HardwareTracker.ri_power ramInfo) in
        let gpuPower :=
          num_or (forceGpuPower (cfg this)) (HardwareTracker.gi_power gpuInfo) in
        (* Calculate energy consumed since last measurement (kWh) *)
        let cpuEnergy := (cpuPower * timeSinceLastMeasurement) / (1000 * 3600) in
        let ramEnergy := (ramPower * timeSinceLastMeasurement) / (1000 * 3600) in
        let gpuEnergy := (gpuPower * timeSinceLastMeasurement) / (1000 * 3600) in
        (* Apply PUE *)
        let adjustedCpuEnergy := cpuEnergy * pue (cfg this) in
        let adjustedRamEnergy := ramEnergy * pue (cfg this) in
        let adjustedGpuEnergy := gpuEnergy * pue (cfg this) in
        (* Update totals *)
        modify (fun s => set_totalCpuEnergy (totalCpuEnergy s + adjustedCpuEnergy) s) ;;
        modify (fun s => set_totalRamEnergy (totalRamEnergy s + adjustedRamEnergy) s) ;;
        modify (fun s => set_totalGpuEnergy (totalGpuEnergy s + adjustedGpuEnergy) s) ;;
        modify (fun s =>
                  set_totalEnergy
                    (totalCpuEnergy s + totalRamEnergy s + totalGpuEnergy s) s) ;;
        (* Store measurement *)
        let* total := gets totalEnergy in
        let measurement :=
          {| timestamp := measurementTime;
             duration := timeSinceLastMeasurement;
             cpuPower := cpuPower;
             ramPower := ramPower;
             gpuPower := gpuPower;
             cpuEnergy := adjustedCpuEnergy;
             ramEnergy := adjustedRamEnergy;
             gpuEnergy := adjustedGpuEnergy;
             m_totalEnergy := total;
             cpuUsage := HardwareTracker.cp_usage cpuInfo |} in
        modify (fun s => set_measurements (measurements s ++ [measurement])%list s) ;;
        when (String.eqb (logLevel (cfg this)) "DEBUG")
          (console_log
             "Measurement: ${cpuPower.toFixed(1)}W CPU, ${ramPower.toFixed(1)}W RAM, ${gpuPower.toFixed(1)}W GPU" ;;
           console_log "Total energy: ${this.totalEnergy.toFixed(6)} kWh"))
       (fun _ => console_error "Failed to measure power consumption:"))%eff.

(** [calculateAverageCpuUsage()], in exact arithmetic (the code's sum
    and quotient round). *)
Definition calculateAverageCpuUsage (this : t) : Q :=
  match measurements this with
  | [] => 0
  | ms =>
      let totalUsage :=
        fold_left (fun sum m => sum + num_or (Some (cpuUsage m)) 0) ms 0 in
      totalUsage / inject_Z (Z.of_nat (length ms))
  end.

(** [calculateFinalEmissions()] *)
Definition calculateFinalEmissions : M t results :=
  (let* this := get in
   let duration :=
     inject_Z (time_or_0 (endTime this) - time_or_0 (startTime this)) / 1000 in
   match locationInfo this, systemInfo this with
   | Some loc, Some info =>
       let '(emissions_kg, out) :=
         Emissions.calculateEmissions (emissions (cfg this))
           (totalEnergy this) (Geography.countryCode loc) in
       (fun s => (Normal tt, s, out)) ;;
       let emissionsRate : number :=
         if negb (Qle_bool duration 0)
         then match emissions_kg with
              | Finite kg => Finite (kg / duration)
              | NaN | Undefined => NaN
              end
         else Finite 0 in
       (* Get latest power readings *)
       let latest f :=
         match last (measurements this) with
         | Some m => num_or (Some (f m)) 0
         | None => 0
         end in
       ret {| r_emissions := emissions_kg;
              r_emissionsRate := emissionsRate;
              r_energyConsumed := totalEnergy this;
              r_duration := duration;
              r_cpuPower := latest cpuPower;
              r_ramPower := latest ramPower;
              r_gpuPower := latest gpuPower;
              r_cpuEnergy := totalCpuEnergy this;
              r_ramEnergy := totalRamEnergy this;
              r_gpuEnergy := totalGpuEnergy this;
              r_projectName := projectName (cfg this);
              r_runId := runId (cfg this);
              r_experimentId := experimentId (cfg this);
              r_countryName := Geography.countryName loc;
              r_countryCode := Geography.countryCode loc;
              r_region := Geography.region loc;
              r_os := HardwareTracker.os info;
              r_cpuModel := HardwareTracker.ci_model (HardwareTracker.cpu info);
              r_cpuCount := HardwareTracker.ci_threads (HardwareTracker.cpu info);
              r_gpuCount := HardwareTracker.gi_count (HardwareTracker.gpu info);
              r_gpuModel :=
                String.concat ", "
                  (HardwareTracker.gi_models (HardwareTracker.gpu info));
              r_ramTotalSize :=
                HardwareTracker.ri_totalGB (HardwareTracker.ram info);
              r_version := "1.0.0-nodejs";
              r_trackingMode := "machine";
              r_onCloud := "N";
              r_pue := pue (cfg this);
              r_measurements := length (measurements this);
              r_averageCpuUsage := calculateAverageCpuUsage this |}
   | _, _ => throw "TypeError: Cannot read properties of null"
   end)%eff.


(** [logSystemInfo()] *)
Definition logSystemInfo : M t unit :=
  (let* this := get in
   match systemInfo this, locationInfo this with
   | Some _, Some _ =>
       console_log "System Information:" ;;
       console_log "----------------------------------------" ;;
       console_log "OS: ${this.systemInfo.os}" ;;
       console_log "CPU: ${this.systemInfo.cpu.model}" ;;
       console_log "CPU Cores: ${this.systemInfo.cpu.cores} threads" ;;
       console_log "RAM: ${this.systemInfo.ram.totalGB} GB" ;;
       console_log "GPU: ${...}" ;;
       console_log "Node.js: ${this.systemInfo.nodeVersion}" ;;
       console_log
         "Location: ${this.locationInfo.countryName} (${this.locationInfo.countryCode})" ;;
       console_log "----------------------------------------"
   | _, _ => throw "TypeError: Cannot read properties of null"
   end)%eff.

(** [start()].  [init] is the world while the system information is
    gathered and the start time is read, [first] the world at the
    immediate first measurement. *)
Definition start (init first : world) : M t unit :=
  (let* tracking := gets isTracking in
   if tracking then console_warn "Emissions tracking is already running"
   else
     try_catch
       (console_log "Starting GreenCarbon emissions tracking..." ;;
        (* Initialize system information *)
        initializeSystemInfo init ;;
        (* Set tracking state *)
        modify (set_isTracking true) ;;
        modify (set_startTime (Some (now init))) ;;
        modify (set_totalCpuEnergy 0) ;;
        modify (set_totalRamEnergy 0) ;;
        modify (set_totalGpuEnergy 0) ;;
        modify (set_totalEnergy 0) ;;
        modify (set_measurements []) ;;
        (* Start periodic measurements *)
        modify (fun s =>
                  set_measurementInterval (Some (measurePowerInterval (cfg s))) s) ;;
        (* Take initial measurement *)
        measurePowerAndEnergy first ;;
        let* this := get in
        when (String.eqb (logLevel (cfg this)) "INFO") logSystemInfo ;;
        console_log
          "Tracking started. Measuring every ${this.measurePowerInterval/1000}s")
       (fun _ =>
          console_error "Failed to start emissions tracking:" ;;
          modify (set_isTracking false)))%eff.

(** [stop()].  [final] is the world at the final measurement, [fin]
    the reading of [Date.now()] taken after it and [write] how the
    CSV write settles. *)
Definition stop (final : world) (fin : Z) (write : completion unit)
  : M t number :=
  (let* tracking := gets isTracking in
   if negb tracking then
     console_warn "Emissions tracking is not running" ;;
     ret (Finite 0)
   else
     try_catch
       ((* Stop periodic measurements *)
        modify (set_measurementInterval None) ;;
        (* Take final measurement *)
        measurePowerAndEnergy final ;;
        modify (set_endTime (Some fin)) ;;
        modify (set_isTracking false) ;;
        (* Calculate final results *)
        let* results := calculateFinalEmissions in
        (* Output results *)
        let* this := get in
        when (String.eqb (logLevel (cfg this)) "INFO")
          (output (OutputHandler.logData results)) ;;
        (* Save to file *)
        output (OutputHandler.saveData write results) ;;
        console_log "Emissions tracking stopped" ;;
        ret (r_emissions results))
       (fun _ =>
          console_error "Failed to stop emissions tracking:" ;;
          modify (set_isTracking false) ;;
          ret (Finite 0)))%eff.

Record status := {
  st_isTracking : bool;
  st_duration : Q;
  st_measurements : nat;
  st_totalEnergy : Q;
  st_projectName : string
}.

(** [getStatus()] *)
Definition getStatus (now : Z) (this : t) : status :=
  {| st_isTracking := isTracking this;
     st_duration :=
       if isTracking this
       then inject_Z (now - time_or_0 (startTime this)) / 1000
       else 0;
     st_measurements := length (measurements this);
     st_totalEnergy := totalEnergy this;
     st_projectName := projectName (cfg this) |}.

(** The timer created by [setInterval] fires: its callback runs
    [measurePowerAndEnergy()].  Nothing fires once [clearInterval] has
    run. *)
Definition timer_fires (w : world) : M t unit :=
  (let* timer := gets measurementInterval in
   match timer with
   | Some _ => measurePowerAndEnergy w
   | None => ret tt
   end)%eff.

(** *** Sessions: what happens to a tracker, in order *)

(** A session is a sequence of calls, each run to completion before the
    next begins: [start()], a firing of the timer, [stop()].  These are
    the serialized sessions of the class.  The methods are [async]:
    [measurePowerAndEnergy] reads the clock and the log, then awaits
    the sampler before it adds and pushes, and [stop()] clears the timer
    before it awaits its final measurement; a call made while another
    is awaiting overlaps it, and such overlaps are not sessions in
    this sense. *)
Inductive event :=
| Start (init first : world)
| Tick (w : world)
| Stop (final : world) (fin : Z) (write : completion unit).

(** The value an event hands back to the caller ([stop()] returns a
    number). *)
Definition step (e : event) (s : t)
  : completion (option number) * t * console :=
  match e with
  | Start init first =>
      (let* _ := start init first in ret None)%eff s
  | Tick w =>
      (let* _ := timer_fires w in ret None)%eff s
  | Stop final fin write =>
      (let* v := stop final fin write in ret (Some v))%eff s
  end.

Fixpoint run (es : list event) (s : t) : t * console :=
  match es with
  | [] => (s, [])
  | e :: es' =>
      let '(_, s1, l1) := step e s in
      let '(s2, l2) := run es' s1 in
      (s2, (l1 ++ l2)%list)
  end.

Definition state_after (es : list event) (s : t) : t := fst (run es s).

End EmissionsTracker.

(** ** The arithmetic of a measurement, in any arithmetic

    The code computes in binary64.  The energy arithmetic of
    [measurePowerAndEnergy] (what it does to the totals and the log once
    the sampler has answered) is written here once more, for an
    arbitrary arithmetic, and instantiated with the exact rationals of
    the tracker above and with binary64. *)

Module Arithmetic.

Record arithmetic := {
  num : Type;
  of_Z : Z -> num;
  add : num -> num -> num;
  mul : num -> num -> num;
  div : num -> num -> num
}.

(** Exact rationals. *)
Definition exact : arithmetic :=
  {| num := Q; of_Z := inject_Z; add := Qplus; mul := Qmult; div := Qdiv |}.

(** An integer as a double; exact below [2^53], where the clock
    readings and their differences are. *)
Definition float_of_Z (z : Z) : float :=
  match z with
  | Z0 => 0%float
  | Zpos _ => PrimFloat.of_uint63 (Uint63.of_Z z)
  | Zneg _ => PrimFloat.opp (PrimFloat.of_uint63 (Uint63.of_Z (- z)))
  end.

(** IEEE 754 binary64, rounding to nearest even: the numbers of the
    code. *)
Definition binary64 : arithmetic :=
  {| num := float; of_Z := float_of_Z; add := PrimFloat.add;
     mul := PrimFloat.mul; div := PrimFloat.div |}.

Section Measure.

Context (A : arithmetic).

(** What the arithmetic works on: the reading of [Date.now()], the
    three powers after the overrides and the load. *)
Record reading := {
  at_ms : Z;
  cpu_watts : num A;
  ram_watts : num A;
  gpu_watts : num A;
  usage : num A
}.

Record measurement := {
  timestamp : Z;
  duration : num A;
  cpuPower : num A;
  ramPower : num A;
  gpuPower : num A;
  cpuEnergy : num A;
  ramEnergy : num A;
  gpuEnergy : num A;
  totalEnergy : num A;
  cpuUsage : num A
}.

(** The energy state of a tracker. *)
Record energy := {
  totalCpuEnergy : num A;
  totalRamEnergy : num A;
  totalGpuEnergy : num A;
  total : num A;
  measurements : list measurement
}.

(** The energy state [start()] sets. *)
Definition reset : energy :=
  {| totalCpuEnergy := of_Z A 0; totalRamEnergy := of_Z A 0;
     totalGpuEnergy := of_Z A 0; total := of_Z A 0; measurements := [] |}.

(** [measurePowerAndEnergy()] from the reading of the clock to the
    push, the answers of the sampler given; [measurePowerInterval] and
    [pue] are the fields of the tracker. *)
Definition measure (measurePowerInterval pue : num A) (k : reading)
    (this : energy) : energy :=
  let measurementTime := at_ms k in
  let timeSinceLastMeasurement :=
    match last (measurements this) with
    | Some m => div A (of_Z A (measurementTime - timestamp m)) (of_Z A 1000)
    | None => div A measurePowerInterval (of_Z A 1000)
    end in
  let cpuPower := cpu_watts k in
  let ramPower := ram_watts k in
  let gpuPower := gpu_watts k in
  (* Calculate energy consumed since last measurement (kWh) *)
  let cpuEnergy :=
    div A (mul A cpuPower timeSinceLastMeasurement)
      (mul A (of_Z A 1000) (of_Z A 3600)) in
  let ramEnergy :=
    div A (mul A ramPower timeSinceLastMeasurement)
      (mul A (of_Z A 1000) (of_Z A 3600)) in
  let gpuEnergy :=
    div A (mul A gpuPower timeSinceLastMeasurement)
      (mul A (of_Z A 1000) (of_Z A 3600)) in
  (* Apply PUE *)
  let adjustedCpuEnergy := mul A cpuEnergy pue in
  let adjustedRamEnergy := mul A ramEnergy pue in
  let adjustedGpuEnergy := mul A gpuEnergy pue in
  (* Update totals *)
  let totalCpuEnergy' := add A (totalCpuEnergy this) adjustedCpuEnergy in
  let totalRamEnergy' := add A (totalRamEnergy this) adjustedRamEnergy in
  let totalGpuEnergy' := add A (totalGpuEnergy this) adjustedGpuEnergy in
  let total' := add A (add A totalCpuEnergy' totalRamEnergy') totalGpuEnergy' in
  (* Store measurement *)
  {| totalCpuEnergy := totalCpuEnergy';
     totalRamEnergy := totalRamEnergy';
     totalGpuEnergy := totalGpuEnergy';
     total := total';
     measurements :=
       (measurements this ++
        [{| timestamp := measurementTime;
            duration := timeSinceLastMeasurement;
            cpuPower := cpuPower;
            ramPower := ramPower;
            gpuPower := gpuPower;
            cpuEnergy := adjustedCpuEnergy;
            ramEnergy := adjustedRamEnergy;
            gpuEnergy := adjustedGpuEnergy;
            totalEnergy := total';
            cpuUsage := usage k |}])%list |}.

(** A session of measurements from the energy state [start()] sets. *)
Definition measures (measurePowerInterval pue : num A) (ks : list reading)
  : energy :=
  fold_left (fun this k => measure measurePowerInterval pue k this) ks reset.

End Measure.

Arguments at_ms {A} r.
Arguments cpu_watts {A} r.
Arguments ram_watts {A} r.
Arguments gpu_watts {A} r.
Arguments usage {A} r.
Arguments timestamp {A} m.
Arguments duration {A} m.
Arguments cpuPower {A} m.
Arguments ramPower {A} m.
Arguments gpuPower {A} m.
Arguments cpuEnergy {A} m.
Arguments ramEnergy {A} m.
Arguments gpuEnergy {A} m.
Arguments totalEnergy {A} m.
Arguments cpuUsage {A} m.
Arguments totalCpuEnergy {A} e.
Arguments totalRamEnergy {A} e.
Arguments totalGpuEnergy {A} e.
Arguments total {A} e.
Arguments measurements {A} e.

End Arithmetic.

Import EmissionsTracker.

(** * The vocabulary of the properties *)

(** ** What one call of [measurePowerAndEnergy] does *)

(** The fields a measurement never touches. *)
Definition same_session (s s' : t) : Prop :=
  cfg s' = cfg s /\ isTracking s' = isTracking s /\
  startTime s' = startTime s /\ endTime s' = endTime s /\
  measurementInterval s' = measurementInterval s /\
  outputHandler s' = outputHandler s /\
  systemInfo s' = systemInfo s /\ locationInfo s' = locationInfo s.

(** The energy state: the four totals and the measurement log. *)
Definition same_energy (s s' : t) : Prop :=
  totalCpuEnergy s' = totalCpuEnergy s /\
  totalRamEnergy s' = totalRamEnergy s /\
  totalGpuEnergy s' = totalGpuEnergy s /\
  totalEnergy s' = totalEnergy s /\
  measurements s' = measurements s.

Definition measure_failed : level * string :=
  (ERROR, "Failed to measure power consumption:").

(** A measurement [m] was taken: the three samples came back, [m] was
    appended and the totals advanced by its increments. *)
Inductive recorded (w : world) (s s' : t) (l : console) (m : measurement) : Prop :=
| Recorded c h1 l1 r h2 l2 g h3 l3 :
    HardwareTracker.estimateCPUPower (sys w) (hardwareTracker s)
      = (Normal c, h1, l1) ->
    HardwareTracker.getRAMInfo (sys w) h1 = (Normal r, h2, l2) ->
    HardwareTracker.getGPUInfo (sys w) h2 = (Normal g, h3, l3) ->
    (exists l4, l = (l1 ++ l2 ++ l3 ++ l4)%list /\ ~ In measure_failed l4) ->
    measurements s' = (measurements s ++ [m])%list ->
    timestamp m = now w ->
    duration m = timeSinceLastMeasurement s (now w) ->
    cpuPower m = num_or (forceCpuPower (cfg s)) (HardwareTracker.cp_power c) ->
    ramPower m = num_or (forceRamPower (cfg s)) (HardwareTracker.ri_power r) ->
    gpuPower m = num_or (forceGpuPower (cfg s)) (HardwareTracker.gi_power g) ->
    cpuUsage m = HardwareTracker.cp_usage c ->
    cpuEnergy m = cpuPower m * duration m / (1000 * 3600) * pue (cfg s) ->
    ramEnergy m = ramPower m * duration m / (1000 * 3600) * pue (cfg s) ->
    gpuEnergy m = gpuPower m * duration m / (1000 * 3600) * pue (cfg s) ->
    totalCpuEnergy s' = totalCpuEnergy s + cpuEnergy m ->
    totalRamEnergy s' = totalRamEnergy s + ramEnergy m ->
    totalGpuEnergy s' = totalGpuEnergy s + gpuEnergy m ->
    totalEnergy s' = totalCpuEnergy s' + totalRamEnergy s' + totalGpuEnergy s' ->
    m_totalEnergy m = totalEnergy s' ->
    recorded w s s' l m.

(** The two ways a measurement of a tracking session can end: the
    sampler threw and the tick was dropped, or a measurement was taken. *)
Inductive tick_outcome (w : world) (s s' : t) (l : console) : Prop :=
| tick_dropped :
    same_energy s s' ->
    In measure_failed l ->
    tick_outcome w s s' l
| tick_recorded m :
    recorded w s s' l m ->
    tick_outcome w s s' l.

(** Membership of a line in a console that is a concatenation. *)
Ltac in_console :=
  unfold measure_failed; rewrite ?in_app_iff; cbn; auto 12.

(** ** The tracker and its sampler *)

(** The states the sampler class can be in: an initialized sampler has
    its memory description. *)
Definition hw_well_formed (h : HardwareTracker.t) : Prop :=
  HardwareTracker.isInitialized h = true -> HardwareTracker.memInfo h <> None.

(** The load that [estimateCPUPower] works with. *)
Definition observed_load (sys : HardwareTracker.system) : Q :=
  match HardwareTracker.si_currentLoad sys with
  | Normal load => load
  | Thrown _ => 50
  end.

(** The sampler of the tracker is in a state its class can reach. *)
Definition hw_ok (s : t) : Prop :=
  hw_well_formed (hardwareTracker s).

(** The sampler knows the memory of the machine, which is what
    [getRAMInfo] needs to answer. *)
Definition sampling (s : t) : Prop :=
  HardwareTracker.memInfo (hardwareTracker s) <> None.

(** ** [start()] and [stop()] *)

(** The energy state right after [start()] has reset it. *)
Definition reset_state (s : t) : Prop :=
  totalCpuEnergy s = 0 /\ totalRamEnergy s = 0 /\ totalGpuEnergy s = 0 /\
  totalEnergy s = 0 /\ measurements s = [].

(** The state [stop()] finalizes: the one after the final measurement,
    with the end time recorded and tracking switched off. *)
Definition finalized (fin : Z) (s1 : t) : t :=
  set_isTracking false (set_endTime (Some fin) s1).

(** ** Sessions *)

(** What any event does to a tracker, seen from the energy state: it is
    left alone, or reset, or advanced by one measurement of a tracking
    session; and these compose. *)
Inductive evolves : t -> t -> Prop :=
| ev_same s s' :
    cfg s' = cfg s -> same_energy s s' -> evolves s s'
| ev_reset s s' :
    cfg s' = cfg s -> reset_state s' -> evolves s s'
| ev_tick w s s' l :
    isTracking s = true -> cfg s' = cfg s ->
    measurePowerAndEnergy w s = (Normal tt, s', l) ->
    tick_outcome w s s' l -> evolves s s'
| ev_trans s1 s2 s3 :
    evolves s1 s2 -> evolves s2 s3 -> evolves s1 s3.

(** ** Energy integration *)

(** The increment of one domain in the words of the specification:
    [watts * elapsed / 3600 * pue / 1000] kWh. *)
Definition incrementKWh (watts elapsed pue : Q) : Q :=
  watts * elapsed / 3600 * pue / 1000.

(** The right-hand side of the conservation law: the sum over the
    recorded ticks and over the three domains of
    [watts * elapsed / 3.6e6 * pue]. *)
Definition domain_term (pue : Q) (watts : measurement -> Q) (m : measurement) : Q :=
  watts m * duration m / 3600000 * pue.

Definition tick_term (pue : Q) (m : measurement) : Q :=
  domain_term pue cpuPower m + domain_term pue ramPower m
  + domain_term pue gpuPower m.

Fixpoint sum_over (f : measurement -> Q) (ms : list measurement) : Q :=
  match ms with
  | [] => 0
  | m :: ms' => f m + sum_over f ms'
  end.

Definition conserved_total (pue : Q) (ms : list measurement) : Q :=
  sum_over (tick_term pue) ms.

(** The increments of a measurement are the ones of the specification. *)
Definition increments_ok (pue : Q) (m : measurement) : Prop :=
  cpuEnergy m == incrementKWh (cpuPower m) (duration m) pue /\
  ramEnergy m == incrementKWh (ramPower m) (duration m) pue /\
  gpuEnergy m == incrementKWh (gpuPower m) (duration m) pue.

(** The accumulators agree with the measurement log. *)
Definition conservation (s : t) : Prop :=
  totalCpuEnergy s == sum_over (domain_term (pue (cfg s)) cpuPower) (measurements s) /\
  totalRamEnergy s == sum_over (domain_term (pue (cfg s)) ramPower) (measurements s) /\
  totalGpuEnergy s == sum_over (domain_term (pue (cfg s)) gpuPower) (measurements s) /\
  totalEnergy s == totalCpuEnergy s + totalRamEnergy s + totalGpuEnergy s /\
  Forall (increments_ok (pue (cfg s))) (measurements s).

(** ** The conservation law in any arithmetic *)

(** The tracker's measurement and energy state as the arithmetic sees
    them. *)
Definition measurement_view (m : measurement)
  : Arithmetic.measurement Arithmetic.exact :=
  Arithmetic.Build_measurement Arithmetic.exact
    (timestamp m) (duration m) (cpuPower m) (ramPower m) (gpuPower m)
    (cpuEnergy m) (ramEnergy m) (gpuEnergy m) (m_totalEnergy m) (cpuUsage m).

Definition energy_view (s : t) : Arithmetic.energy Arithmetic.exact :=
  Arithmetic.Build_energy Arithmetic.exact
    (totalCpuEnergy s) (totalRamEnergy s) (totalGpuEnergy s) (totalEnergy s)
    (List.map measurement_view (measurements s)).

(** What a tick of the tracker hands to the arithmetic: the clock of
    its world and, for each domain, the non-zero override or else the
    answer of the sampler. *)
Definition reading_of (s : t) (w : world)
    (c : HardwareTracker.cpuPowerResult) (r : HardwareTracker.ramInfoResult)
    (g : HardwareTracker.gpuInfoResult) : Arithmetic.reading Arithmetic.exact :=
  Arithmetic.Build_reading Arithmetic.exact
    (now w)
    (num_or (forceCpuPower (cfg s)) (HardwareTracker.cp_power c))
    (num_or (forceRamPower (cfg s)) (HardwareTracker.ri_power r))
    (num_or (forceGpuPower (cfg s)) (HardwareTracker.gi_power g))
    (HardwareTracker.cp_usage c).

Section Conservation.

Context (A : Arithmetic.arithmetic).

(** The increment of a domain as the code computes it:
    [(watts * elapsed) / (1000 * 3600) * pue], each operation the
    arithmetic's own. *)
Definition increment_of (pue watts elapsed : Arithmetic.num A) : Arithmetic.num A :=
  Arithmetic.mul A
    (Arithmetic.div A (Arithmetic.mul A watts elapsed)
       (Arithmetic.mul A (Arithmetic.of_Z A 1000) (Arithmetic.of_Z A 3600)))
    pue.

(** The sum of a column of the log, added up from 0 in the order of the
    ticks. *)
Definition running_sum (f : Arithmetic.measurement A -> Arithmetic.num A)
    (log : list (Arithmetic.measurement A)) : Arithmetic.num A :=
  fold_left (fun acc m => Arithmetic.add A acc (f m)) log (Arithmetic.of_Z A 0).

(** The elapsed time of a tick at [now]: since the measurement before
    it, or the interval when there is none, in seconds. *)
Definition elapsed_since (interval : Arithmetic.num A)
    (prev : option (Arithmetic.measurement A)) (now : Z) : Arithmetic.num A :=
  match prev with
  | Some p =>
      Arithmetic.div A (Arithmetic.of_Z A (now - Arithmetic.timestamp p))
        (Arithmetic.of_Z A 1000)
  | None => Arithmetic.div A interval (Arithmetic.of_Z A 1000)
  end.

Fixpoint elapsed_chain (interval : Arithmetic.num A)
    (prev : option (Arithmetic.measurement A))
    (log : list (Arithmetic.measurement A)) : Prop :=
  match log with
  | [] => True
  | m :: rest =>
      Arithmetic.duration m = elapsed_since interval prev (Arithmetic.timestamp m) /\
      elapsed_chain interval (Some m) rest
  end.

(** The log holds the ticks, one measurement each, in order, with their
    clock readings and watts. *)
Definition log_of_ticks (ks : list (Arithmetic.reading A))
    (log : list (Arithmetic.measurement A)) : Prop :=
  List.map Arithmetic.at_ms ks = List.map Arithmetic.timestamp log /\
  List.map Arithmetic.cpu_watts ks = List.map Arithmetic.cpuPower log /\
  List.map Arithmetic.ram_watts ks = List.map Arithmetic.ramPower log /\
  List.map Arithmetic.gpu_watts ks = List.map Arithmetic.gpuPower log.

(** The conservation law as it holds in every arithmetic: after the
    ticks [ks] the log holds those ticks, each with the elapsed time
    and the three increments the code computes, each accumulator is the
    running sum of its column and the total is the sum of the three
    accumulators. *)
Definition conserved (interval pue : Arithmetic.num A)
    (ks : list (Arithmetic.reading A)) (st : Arithmetic.energy A) : Prop :=
  log_of_ticks ks (Arithmetic.measurements st) /\
  elapsed_chain interval None (Arithmetic.measurements st) /\
  Forall
    (fun m =>
       Arithmetic.cpuEnergy m
         = increment_of pue (Arithmetic.cpuPower m) (Arithmetic.duration m) /\
       Arithmetic.ramEnergy m
         = increment_of pue (Arithmetic.ramPower m) (Arithmetic.duration m) /\
       Arithmetic.gpuEnergy m
         = increment_of pue (Arithmetic.gpuPower m) (Arithmetic.duration m))
    (Arithmetic.measurements st) /\
  Arithmetic.totalCpuEnergy st
    = running_sum Arithmetic.cpuEnergy (Arithmetic.measurements st) /\
  Arithmetic.totalRamEnergy st
    = running_sum Arithmetic.ramEnergy (Arithmetic.measurements st) /\
  Arithmetic.totalGpuEnergy st
    = running_sum Arithmetic.gpuEnergy (Arithmetic.measurements st) /\
  (ks <> [] ->
   Arithmetic.total st
     = Arithmetic.add A
         (Arithmetic.add A (Arithmetic.totalCpuEnergy st)
            (Arithmetic.totalRamEnergy st))
         (Arithmetic.totalGpuEnergy st)).

End Conservation.

(** *** Binary64 against the exact sum *)

(** The rational a double stands for; none for an infinity or a NaN. *)
Definition Q_of_float (f : float) : option Q :=
  match Prim2SF f with
  | S754_zero _ => Some 0
  | S754_finite s m e =>
      let magnitude :=
        if (0 <=? e)%Z then inject_Z (Z.pos m * 2 ^ e)
        else inject_Z (Z.pos m) / inject_Z (2 ^ (- e)) in
      Some (if s then - magnitude else magnitude)
  | S754_infinity _ | S754_nan => None
  end.

(** The right-hand side of the conservation law for a binary64 log: the
    sum over the ticks and the three domains of
    [watts * elapsed / 3.6e6 * pue], in exact arithmetic, on the watts
    and elapsed times the log holds. *)
Fixpoint exact_sum (pue : Q) (log : list (Arithmetic.measurement Arithmetic.binary64))
  : option Q :=
  match log with
  | [] => Some 0
  | m :: rest =>
      match Q_of_float (Arithmetic.cpuPower m), Q_of_float (Arithmetic.ramPower m),
            Q_of_float (Arithmetic.gpuPower m), Q_of_float (Arithmetic.duration m),
            exact_sum pue rest with
      | Some c, Some r, Some g, Some t, Some more =>
          Some (c * t / 3600000 * pue + r * t / 3600000 * pue
                + g * t / 3600000 * pue + more)
      | _, _, _, _, _ => None
      end
  end.

(** Three ticks at 65 W, 10 W and 0 W: at 2000 ms, at 2127 ms and, the
    clock having been set back, at 1000 ms. *)
Definition clock_stepped_back : list (Arithmetic.reading Arithmetic.binary64) :=
  List.map
    (fun ms =>
       Arithmetic.Build_reading Arithmetic.binary64
         ms 65%float 10%float 0%float 100%float)
    [2000%Z; 2127%Z; 1000%Z].

(** The same ticks in exact arithmetic. *)
Definition clock_stepped_back_exact : list (Arithmetic.reading Arithmetic.exact) :=
  List.map
    (fun ms => Arithmetic.Build_reading Arithmetic.exact ms 65 10 0 100)
    [2000%Z; 2127%Z; 1000%Z].

(** ** The total is recomputed *)

Definition total_is_sum (s : t) : Prop :=
  totalEnergy s = totalCpuEnergy s + totalRamEnergy s + totalGpuEnergy s.

(** ** Concrete machines, worlds and trackers *)

Module Scenario.

Definition answers (gpus : list HardwareTracker.controller) (load : completion Q)
: HardwareTracker.system :=
{| HardwareTracker.si_cpu :=
     Normal {| HardwareTracker.brand := "Intel Core i5-8250";
               HardwareTracker.physicalCores := 4 |};
   HardwareTracker.si_mem := Normal {| HardwareTracker.total := 17179869184 |};
   HardwareTracker.si_graphics :=
     Normal {| HardwareTracker.controllers := Some gpus |};
   HardwareTracker.si_currentLoad := load;
   HardwareTracker.si_osInfo :=
     Normal {| HardwareTracker.distro := "Ubuntu";
               HardwareTracker.release := "22.04" |};
   HardwareTracker.os_cpus_length := 8;
   HardwareTracker.os_platform := "linux";
   HardwareTracker.process_version := "v18.17.0" |}.

(** A machine without a discrete GPU, fully loaded. *)
Definition laptop : HardwareTracker.system := answers [] (Normal 100).

(** The same machine when the load query fails. *)
Definition laptop_no_load : HardwareTracker.system :=
answers [] (Thrown "Error: currentLoad").

(** A machine with one discrete GPU. *)
Definition workstation : HardwareTracker.system :=
answers [ {| HardwareTracker.vendor := Some "NVIDIA";
             HardwareTracker.model := Some "NVIDIA GeForce RTX 3080" |} ]
        (Normal 100).

Definition at_time (machine : HardwareTracker.system) (ms : Z) : world :=
{| now := ms; sys := machine; locale := Normal "en-US" |}.

(** The intensity table when the data file cannot be read. *)
Definition no_table : Emissions.t := fst (Emissions.new (Thrown "ENOENT")).

(** A table that knows the United States. *)
Definition usa_table : Emissions.t :=
fst (Emissions.new
       (Normal {[ "USA" := {| Emissions.carbon_intensity := 475;
                              Emissions.country_name := "United States" |} ]})).

(** The scenario of the specification: overrides cpu=65W, ram=10W,
  gpu=0W, a one second interval, pue 1, in the United States;
  [region] is the configured sub-region. *)
Definition scenario_options (region : option string) : options :=
{| o_projectName := None; o_measurePowerSecs := Some 1;
   o_countryCode := Some "USA"; o_region := region;
   o_saveToFile := Some false; o_outputFile := None; o_logLevel := None;
   o_pue := Some 1; o_forceCpuPower := Some 65; o_forceRamPower := Some 10;
   o_forceGpuPower := Some 0 |}.

Definition scenario_tracker (region : option string) (em : Emissions.t) : t :=
new (scenario_options region) "run" "experiment" em.

(** A tracker with the default options. *)
Definition default_tracker : t := new no_options "run" "experiment" no_table.

End Scenario.

(** ** The region and the final emissions *)

Definition with_region (r : option string) (loc : Geography.location)
  : Geography.location :=
  {| Geography.countryCode := Geography.countryCode loc;
     Geography.countryName := Geography.countryName loc;
     Geography.region := r;
     Geography.latitude := Geography.latitude loc;
     Geography.longitude := Geography.longitude loc |}.

(** The emissions [calculateFinalEmissions] reports, when it reports. *)
Definition final_emissions (s : t) : option number :=
  match calculateFinalEmissions s with
  | (Normal res, _, _) => Some (r_emissions res)
  | (Thrown _, _, _) => None
  end.

(** What [stop()] returns in the scenario of the specification, run on
    the laptop: started at 0 ms and stopped at 1000 ms. *)
Definition scenario_emissions (region : option string) : option number :=
  let w0 := Scenario.at_time Scenario.laptop 0 in
  let w1 := Scenario.at_time Scenario.laptop 1000 in
  let started :=
    state_after [Start w0 w0] (Scenario.scenario_tracker region Scenario.usa_table) in
  match stop w1 1000 (Normal tt) started with
  | (Normal v, _, _) => Some v
  | (Thrown _, _, _) => None
  end.

(** ** Power overrides *)

(** The first measurement of a session started at 0 ms on [machine]. *)
Definition first_measurement (machine : HardwareTracker.system) (s : t)
  : option measurement :=
  let w0 := Scenario.at_time machine 0 in
  head (measurements (state_after [Start w0 w0] s)).

(** ** The elapsed time of a tick *)

(** The elapsed time in the words of the specification:
    [max(0, now - lastTickTime)] seconds. *)
Definition clamped_elapsed (now lastTickTime : Z) : Q :=
  Qmax 0 (inject_Z (now - lastTickTime) / 1000).

(** A session started at 2000 ms whose timer fires when the clock reads
    1000 ms. *)
Definition clock_set_back : list event :=
  [Start (Scenario.at_time Scenario.laptop 2000) (Scenario.at_time Scenario.laptop 2000);
   Tick (Scenario.at_time Scenario.laptop 1000)].

(** ** Monotone accumulators *)

Definition nonneg_override (x : option Q) : Prop :=
  match x with Some v => 0 <= v | None => True end.

(** The configuration asks for nothing negative. *)
Definition nonneg_config (c : config) : Prop :=
  0 <= pue c /\ 0 <= measurePowerInterval c /\
  nonneg_override (forceCpuPower c) /\
  nonneg_override (forceRamPower c) /\
  nonneg_override (forceGpuPower c).

(** The load the operating system reports, if it reports one, is not
    negative. *)
Definition load_nonneg (w : world) : Prop :=
  match HardwareTracker.si_currentLoad (sys w) with
  | Normal load => 0 <= load
  | Thrown _ => True
  end.

(** The clock has not gone back since the last measurement. *)
Definition clock_forward (s : t) (w : world) : Prop :=
  match last (measurements s) with
  | Some p => (timestamp p <= now w)%Z
  | None => True
  end.

(** The world in which an event takes its measurement. *)
Definition world_of (e : event) : world :=
  match e with
  | Start _ first => first
  | Tick w => w
  | Stop final _ _ => final
  end.

Definition accumulators_grow (s s' : t) : Prop :=
  totalCpuEnergy s <= totalCpuEnergy s' /\
  totalRamEnergy s <= totalRamEnergy s' /\
  totalGpuEnergy s <= totalGpuEnergy s'.

(** A session on the laptop, started at 2000 ms. *)
Definition started_at_2000 : t :=
  state_after
    [Start (Scenario.at_time Scenario.laptop 2000)
           (Scenario.at_time Scenario.laptop 2000)]
    Scenario.default_tracker.

(** ** A failing sampler *)

(** The first tick of a session on a machine whose load query fails. *)
Definition first_tick_without_load : list event :=
  [Start (Scenario.at_time Scenario.laptop_no_load 0)
         (Scenario.at_time Scenario.laptop_no_load 0)].

(** A session whose first tick observes the load and whose second tick,
    one second later, does not. *)
Definition load_lost_on_second_tick : list event :=
  [Start (Scenario.at_time Scenario.laptop 0) (Scenario.at_time Scenario.laptop 0);
   Tick (Scenario.at_time Scenario.laptop_no_load 1000)].

(** The processor description the sampler works with during a call: the
    one it holds, or, when it is not initialized and the retried
    initialization gets an answer from the processor query, that answer. *)
Definition cpu_description (sys : HardwareTracker.system) (h : HardwareTracker.t)
  : option HardwareTracker.cpuData :=
  if HardwareTracker.isInitialized h then HardwareTracker.cpuInfo h
  else match HardwareTracker.si_cpu sys with
       | Normal c => Some c
       | Thrown _ => HardwareTracker.cpuInfo h
       end.

(** The model name the processor is rated by. *)
Definition cpu_model (sys : HardwareTracker.system) (h : HardwareTracker.t)
  : string :=
  match cpu_description sys h with
  | Some c => HardwareTracker.brand c
  | None => "Unknown CPU"
  end.

(** ** Starting and stopping at once *)

(** The session that [start()] and an immediate [stop()] make of a
    tracker, on the laptop at 0 ms, in the scenario of the
    specification. *)
Definition started_and_stopped : t :=
  state_after
    [Start (Scenario.at_time Scenario.laptop 0) (Scenario.at_time Scenario.laptop 0);
     Stop (Scenario.at_time Scenario.laptop 0) 0 (Normal tt)]
    (Scenario.scenario_tracker None Scenario.usa_table).

(** ** Further vocabulary *)

(** A promise resolved. *)
Definition resolved {A} (p : completion A) : Prop :=
  match p with Normal _ => True | Thrown _ => False end.

(** The reported load, when there is one, is a percentage. *)
Definition load_is_percentage (sys : HardwareTracker.system) : Prop :=
  match HardwareTracker.si_currentLoad sys with
  | Normal load => 0 <= load <= 100
  | Thrown _ => True
  end.

(** The graphics controllers a sampler state knows. *)
Definition known_controllers (h : HardwareTracker.t)
  : list HardwareTracker.controller :=
  match HardwareTracker.gpuInfo h with
  | Some gd =>
      match HardwareTracker.controllers gd with
      | Some cs => cs
      | None => []
      end
  | None => []
  end.

(** A controller counts as a GPU when its vendor is given, is not the
    empty string and does not contain "intel" in any letter case. *)
Definition counts_as_gpu (gpu : HardwareTracker.controller) : bool :=
  match HardwareTracker.vendor gpu with
  | Some v => negb (String.eqb v "") && negb (includes (toLowerCase v) "intel")
  | None => false
  end.

(** The name a controller is reported and rated by. *)
Definition gpu_name (gpu : HardwareTracker.controller) : string :=
  match HardwareTracker.model gpu with
  | Some m => if String.eqb m "" then "Unknown GPU" else m
  | None => "Unknown GPU"
  end.

Fixpoint sum_list (xs : list Q) : Q :=
  match xs with
  | [] => 0
  | x :: xs' => x + sum_list xs'
  end.

(** The sampler after a successful initialization on the workstation. *)
Definition initialized_workstation : HardwareTracker.t :=
  snd (fst (HardwareTracker.initialize Scenario.workstation HardwareTracker.new)).

(** The locale yields no country: reading it throws, or
    [extractCountryFromLocale] finds nothing or the empty string. *)
Definition no_country (locale : completion string) : Prop :=
  match locale with
  | Thrown _ => True
  | Normal s =>
      match Geography.extractCountryFromLocale s with
      | Some cc => cc = ""
      | None => True
      end
  end.

(** The sampler can tell the memory of the machine: it holds a
    description, or the processor and memory queries that a retried
    initialization makes before storing one both resolve. *)
Definition memory_available (sys : HardwareTracker.system) (h : HardwareTracker.t)
  : Prop :=
  HardwareTracker.memInfo h <> None \/
  (resolved (HardwareTracker.si_cpu sys) /\ resolved (HardwareTracker.si_mem sys)).

(** What [start()] needs from the world to begin tracking. *)
Definition can_start (init : world) (s : t) : Prop :=
  memory_available (sys init) (hardwareTracker s) /\
  resolved (HardwareTracker.si_osInfo (sys init)).

Definition start_failed : level * string :=
  (ERROR, "Failed to start emissions tracking:").

(** The fields that tell where a tracker is in its life. *)
Definition lifecycle (s : t) : Prop :=
  (isTracking s = true ->
   sampling s /\
   measurementInterval s = Some (measurePowerInterval (cfg s)) /\
   startTime s <> None /\ locationInfo s <> None /\ systemInfo s <> None /\
   measurements s <> []) /\
  (isTracking s = false -> measurementInterval s = None).

(** An event other than [start()]. *)
Definition not_a_start (e : event) : Prop :=
  match e with Start _ _ => False | _ => True end.

(** The elapsed times of a log are chained: each measurement after the
    first records the time since the measurement before it. *)
Fixpoint chained (ms : list measurement) : Prop :=
  match ms with
  | m1 :: rest =>
      match rest with
      | m2 :: _ =>
          duration m2 = inject_Z (timestamp m2 - timestamp m1) / 1000
      | [] => True
      end /\ chained rest
  | [] => True
  end.

(** The first measurement of a log records the configured interval. *)
Definition first_is_interval (c : config) (ms : list measurement) : Prop :=
  match ms with
  | m :: _ => duration m = measurePowerInterval c / 1000
  | [] => True
  end.

Definition log_chained (s : t) : Prop :=
  first_is_interval (cfg s) (measurements s) /\ chained (measurements s).

(** The total of the tracker is the one its last measurement recorded. *)
Definition total_is_last (s : t) : Prop :=
  match last (measurements s) with
  | Some m => m_totalEnergy m = totalEnergy s
  | None => totalEnergy s = 0
  end.

(** A tracker that was started and stopped, then sees its timer fire
    late and [stop()] called again. *)
Definition late_events : list event :=
  [Tick (Scenario.at_time Scenario.laptop 9000);
   Stop (Scenario.at_time Scenario.laptop 9500) 9500 (Normal tt);
   Tick (Scenario.at_time Scenario.laptop 9900)].

(** ** The CSV file *)

(** [writeRecords] resolved. *)
Definition settled (write : completion unit) : bool :=
  match write with Normal _ => true | Thrown _ => false end.

(** The handler after [saveData(data)]: the record lands in the file
    when saving is switched on, the writer exists and the write
    resolves. *)
Definition saved (write : completion unit) (data : results) (h : OutputHandler.t)
  : OutputHandler.t :=
  if OutputHandler.saveToFile h && OutputHandler.csvWriter h && settled write
  then OutputHandler.push_written data h else h.

(** The output handler is the one the constructor configured. *)
Definition output_configured (s : t) : Prop :=
  OutputHandler.saveToFile (outputHandler s) = saveToFile (cfg s) /\
  OutputHandler.csvWriter (outputHandler s) = saveToFile (cfg s).

(** The tracker of the specification's scenario, writing to a file,
    after [start()] at 0 ms. *)
Definition saving_tracker_started : t :=
  state_after
    [Start (Scenario.at_time Scenario.laptop 0) (Scenario.at_time Scenario.laptop 0)]
    Scenario.default_tracker.

(** A column of a record holds the number [x]. *)
Definition holds (rec : list (string * CsvRecord.cell)) (k : string) (x : Q)
  : Prop :=
  match CsvRecord.column k rec with
  | Some (CsvRecord.Num y) => y == x
  | _ => False
  end.

(** * Properties *)

(** ** What one call of [measurePowerAndEnergy] does *)

Lemma measure_not_tracking w s :
  isTracking s = false -> measurePowerAndEnergy w s = (Normal tt, s, []).
Proof.
  intros H. unfold measurePowerAndEnergy, bind, gets. now rewrite H.
Qed.

Lemma same_session_refl s : same_session s s.
Proof. repeat split. Qed.

Lemma same_energy_refl s : same_energy s s.
Proof. repeat split. Qed.

Lemma same_session_trans s1 s2 s3 :
  same_session s1 s2 -> same_session s2 s3 -> same_session s1 s3.
Proof.
  unfold same_session. intros H1 H2.
  destruct H1 as (?&?&?&?&?&?&?&?), H2 as (?&?&?&?&?&?&?&?).
  repeat split; congruence.
Qed.

Lemma same_energy_trans s1 s2 s3 :
  same_energy s1 s2 -> same_energy s2 s3 -> same_energy s1 s3.
Proof.
  unfold same_energy. intros H1 H2.
  destruct H1 as (?&?&?&?&?), H2 as (?&?&?&?&?).
  repeat split; congruence.
Qed.

Lemma measure_tracking w s :
  isTracking s = true ->
  exists s' l,
    measurePowerAndEnergy w s = (Normal tt, s', l) /\
    same_session s s' /\ tick_outcome w s s' l.
Proof.
  intros H. unfold measurePowerAndEnergy.
  unfold try_catch, bind, hardware, zoom, get, gets, modify, ret, when,
    console_error.
  rewrite H. cbn [negb].
  destruct (HardwareTracker.estimateCPUPower (sys w) (hardwareTracker s))
    as [[[c|e] h1] l1] eqn:Ec; cbn.
  2:{ do 2 eexists. split; [reflexivity|]. split; [repeat split|].
      apply tick_dropped; [repeat split|in_console]. }
  destruct (HardwareTracker.getRAMInfo (sys w) h1) as [[[r|e] h2] l2] eqn:Er; cbn.
  2:{ do 2 eexists. split; [reflexivity|]. split; [repeat split|].
      apply tick_dropped; [repeat split|in_console]. }
  destruct (HardwareTracker.getGPUInfo (sys w) h2) as [[[g|e] h3] l3] eqn:Eg; cbn.
  2:{ do 2 eexists. split; [reflexivity|]. split; [repeat split|].
      apply tick_dropped; [repeat split|in_console]. }
  destruct (String.eqb (logLevel (cfg s)) "DEBUG"); cbn;
    (do 2 eexists; split; [reflexivity|]; split; [repeat split|]);
    (eapply tick_recorded; eapply Recorded; try eassumption; try reflexivity);
    (eexists; split; [reflexivity|]);
    unfold measure_failed; cbn; intuition congruence.
Qed.

Lemma measure_recorded w s r s' l m :
  isTracking s = true ->
  measurePowerAndEnergy w s = (r, s', l) ->
  measurements s' = (measurements s ++ [m])%list ->
  recorded w s s' l m.
Proof.
  intros Ht E Hm.
  destruct (measure_tracking w s Ht) as (s1 & l1 & E1 & _ & Ho).
  rewrite E in E1. injection E1 as -> <- <-.
  destruct Ho as [(_ & _ & _ & _ & He) _ | m' Hr].
  - rewrite He in Hm. exfalso.
    apply (f_equal (@length _)) in Hm. rewrite length_app in Hm. cbn in Hm. lia.
  - assert (m' = m) as <-; [|assumption].
    destruct Hr as [? ? ? ? ? ? ? ? ? _ _ _ _ Hm' _].
    rewrite Hm' in Hm. now apply app_inj_tail in Hm.
Qed.

Lemma measure_dropped w s r s' l :
  isTracking s = true ->
  measurePowerAndEnergy w s = (r, s', l) ->
  measurements s' = measurements s ->
  same_energy s s' /\ In measure_failed l.
Proof.
  intros Ht E Hm.
  destruct (measure_tracking w s Ht) as (s1 & l1 & E1 & _ & Ho).
  rewrite E in E1. injection E1 as -> <- <-.
  destruct Ho as [He Hl | m' Hr]; [split; assumption|].
  destruct Hr as [? ? ? ? ? ? ? ? ? _ _ _ _ Hm' _].
  rewrite Hm' in Hm. exfalso.
  apply (f_equal (@length _)) in Hm. rewrite length_app in Hm. cbn in Hm. lia.
Qed.

(** ** The sampler *)

Module HardwareFacts.
Import HardwareTracker.

(** [initialize] swallows its errors and never forgets a memory
    description it already has. *)
Lemma initialize_total sys h :
  exists h' l,
    initialize sys h = (Normal tt, h', l) /\
    (memInfo h <> None -> memInfo h' <> None) /\
    (isInitialized h' = true -> memInfo h' <> None).
Proof.
  unfold initialize, try_catch, bind, await, modify, console_error.
  destruct (si_cpu sys) as [c|e]; cbn.
  2:{ do 2 eexists. split; [reflexivity|]. cbn. split; [auto|discriminate]. }
  destruct (si_mem sys) as [m|e]; cbn.
  2:{ do 2 eexists. split; [reflexivity|]. cbn. split; [auto|discriminate]. }
  destruct (si_graphics sys) as [g|e]; cbn.
  2:{ do 2 eexists. split; [reflexivity|]. cbn. split; [auto|discriminate]. }
  do 2 eexists. split; [reflexivity|]. cbn. split; discriminate.
Qed.

Lemma new_well_formed : hw_well_formed new.
Proof. discriminate. Qed.

Lemma ensure_initialized_total sys h :
  hw_well_formed h ->
  exists h' l,
    ensure_initialized sys h = (Normal tt, h', l) /\
    hw_well_formed h' /\
    (memInfo h <> None -> memInfo h' <> None).
Proof.
  intros Hwf. unfold ensure_initialized, bind, gets.
  destruct (isInitialized h) eqn:Ei; cbn.
  - do 2 eexists. split; [reflexivity|]. split; [assumption|auto].
  - destruct (initialize_total sys h) as (h' & l & E & Hm & Hi).
    rewrite E. do 2 eexists. split; [reflexivity|]. split; assumption.
Qed.

Lemma getCPUUsage_total sys h :
  getCPUUsage sys h =
    match si_currentLoad sys with
    | Normal load => (Normal load, h, [])
    | Thrown _ => (Normal 50, h, [(WARN, "Could not get CPU usage:")])
    end.
Proof.
  unfold getCPUUsage, try_catch, bind, await, ret, console_warn.
  destruct (si_currentLoad sys); reflexivity.
Qed.

Lemma estimateCPUPower_total sys h :
  hw_well_formed h ->
  exists c h' l,
    estimateCPUPower sys h = (Normal c, h', l) /\
    hw_well_formed h' /\
    (memInfo h <> None -> memInfo h' <> None) /\
    cp_usage c = observed_load sys /\
    cp_power c = cp_tdp c * ((5 # 10) + (observed_load sys / 100) * (5 # 10)) /\
    cp_tdp c = estimateTDPFromModel (cp_model c) /\
    (forall e, si_currentLoad sys = Thrown e ->
               In (WARN, "Could not get CPU usage:") l).
Proof.
  intros Hwf. unfold estimateCPUPower, getCPUInfo, bind, get, ret.
  destruct (ensure_initialized_total sys h Hwf) as (h' & l & E & Hwf' & Hm).
  rewrite E. cbn. rewrite getCPUUsage_total. unfold observed_load.
  destruct (si_currentLoad sys) as [load|e]; cbn;
    do 3 eexists; (split; [reflexivity|]); cbn;
    repeat split; auto; try discriminate.
  intros _ _. in_console.
Qed.

Lemma getRAMInfo_cases sys h :
  hw_well_formed h ->
  exists h' l,
    hw_well_formed h' /\
    ((exists r, getRAMInfo sys h = (Normal r, h', l) /\
                memInfo h' <> None /\
                exists k : Z, (1 <= k)%Z /\ ri_power r = inject_Z k * 5) \/
     (exists e, getRAMInfo sys h = (Thrown e, h', l) /\ memInfo h = None)).
Proof.
  intros Hwf. unfold getRAMInfo, bind, get, ret, throw.
  destruct (ensure_initialized_total sys h Hwf) as (h' & l & E & Hwf' & Hm).
  rewrite E. cbn. exists h'.
  destruct (memInfo h') as [m|] eqn:Em; cbn.
  - eexists. split; [assumption|]. left. eexists. split; [reflexivity|].
    split; [congruence|]. eexists. split; [|reflexivity].
    unfold Math_max. lia.
  - eexists. split; [assumption|]. right. eexists. split; [reflexivity|].
    destruct (memInfo h); [exfalso; apply Hm; congruence | reflexivity].
Qed.

Lemma estimateGPUPower_nonneg model : 0 <= estimateGPUPower model.
Proof.
  unfold estimateGPUPower.
  repeat match goal with |- context [if ?b then _ else _] => destruct b end;
    discriminate.
Qed.

Lemma estimateTDPFromModel_nonneg model : 0 <= estimateTDPFromModel model.
Proof.
  unfold estimateTDPFromModel.
  repeat match goal with |- context [if ?b then _ else _] => destruct b end;
    discriminate.
Qed.

Lemma gpu_sum_nonneg (gpus : list controller) (acc : Q) :
  0 <= acc ->
  0 <= fold_left
         (fun total gpu =>
            total + estimateGPUPower (str_or (model gpu) "Unknown GPU"))
         gpus acc.
Proof.
  revert acc. induction gpus as [|gpu gpus IH]; intros acc Hacc; cbn.
  - assumption.
  - apply IH.
    pose proof (estimateGPUPower_nonneg (str_or (model gpu) "Unknown GPU")).
    lra.
Qed.

Lemma getGPUInfo_total sys h :
  hw_well_formed h ->
  exists g h' l,
    getGPUInfo sys h = (Normal g, h', l) /\
    hw_well_formed h' /\
    (memInfo h <> None -> memInfo h' <> None) /\
    0 <= gi_power g.
Proof.
  intros Hwf. unfold getGPUInfo, bind, get, ret.
  destruct (ensure_initialized_total sys h Hwf) as (h' & l & E & Hwf' & Hm).
  rewrite E. cbn.
  destruct (gpuInfo h') as [gd|]; cbn.
  2:{ do 3 eexists. split; [reflexivity|]. cbn. repeat split; auto; discriminate. }
  destruct (controllers gd) as [[|c0 cs]|]; cbn -[List.filter fold_left].
  1,3: do 3 eexists; (split; [reflexivity|]); cbn; repeat split; auto; discriminate.
  destruct (List.filter is_discrete (c0 :: cs)) as [|g0 gs].
  - do 3 eexists. split; [reflexivity|]. cbn.
    repeat split; auto; discriminate.
  - do 3 eexists. split; [reflexivity|]. cbn -[fold_left].
    repeat split; auto. apply gpu_sum_nonneg. discriminate.
Qed.

End HardwareFacts.

(** ** The tracker and its sampler *)

Lemma getSystemInfo_cases sys h :
  hw_well_formed h ->
  exists r h' l,
    HardwareTracker.getSystemInfo sys h = (r, h', l) /\
    hw_well_formed h' /\
    (forall v, r = Normal v -> HardwareTracker.memInfo h' <> None).
Proof.
  intros Hwf. unfold HardwareTracker.getSystemInfo, HardwareTracker.getCPUInfo.
  unfold bind, get, ret, await.
  destruct (HardwareFacts.ensure_initialized_total sys h Hwf)
    as (h1 & l1 & E1 & Hwf1 & _).
  rewrite E1. cbn.
  destruct (HardwareFacts.getRAMInfo_cases sys h1 Hwf1)
    as (h2 & l2 & Hwf2 & [(r & E2 & Hm2 & _) | (e & E2 & _)]);
    rewrite E2; cbn.
  2:{ do 3 eexists. split; [reflexivity|]. split; [assumption|discriminate]. }
  destruct (HardwareFacts.getGPUInfo_total sys h2 Hwf2)
    as (g & h3 & l3 & E3 & Hwf3 & Hm3 & _).
  rewrite E3. cbn.
  destruct (HardwareTracker.si_osInfo sys); cbn;
    do 3 eexists; (split; [reflexivity|]); split; auto.
Qed.

Lemma detectLocation_total locale g :
  exists loc l, Geography.detectLocation locale g = (Normal loc, g, l).
Proof.
  unfold Geography.detectLocation, try_catch, bind, await, get, ret, console_warn.
  destruct locale as [loc|e]; cbn.
  - destruct (Geography.extractCountryFromLocale loc) as [cc|]; cbn.
    + destruct (truthy_str cc); cbn; do 2 eexists; reflexivity.
    + do 2 eexists; reflexivity.
  - do 2 eexists; reflexivity.
Qed.

(** The system information is gathered without touching the energy
    state; when it succeeds the sampler is ready. *)
Lemma initializeSystemInfo_cases w s :
  hw_ok s ->
  exists r s' l,
    initializeSystemInfo w s = (r, s', l) /\
    same_energy s s' /\ cfg s' = cfg s /\ isTracking s' = isTracking s /\
    outputHandler s' = outputHandler s /\ hw_ok s' /\
    (r = Normal tt ->
     sampling s' /\ systemInfo s' <> None /\ locationInfo s' <> None).
Proof.
  intros Hwf. unfold initializeSystemInfo, hardware, geo, zoom.
  unfold bind, get, modify, console_log.
  destruct (getSystemInfo_cases (sys w) (hardwareTracker s) Hwf)
    as (r & h' & l & E & Hwf' & Hm).
  rewrite E. destruct r as [info|e]; cbn.
  2:{ do 3 eexists. split; [reflexivity|]. cbn.
      repeat split; auto. all: discriminate. }
  destruct (str_or_null (countryCode (cfg s))) as [cc|]; cbn.
  - do 3 eexists. split; [reflexivity|]. cbn.
    repeat split; auto; try discriminate. eapply Hm. reflexivity.
  - destruct (detectLocation_total (locale w) (geography (cfg s)))
      as (loc & l2 & E2).
    rewrite E2. cbn. do 3 eexists. split; [reflexivity|]. cbn.
    repeat split; auto; try discriminate. eapply Hm. reflexivity.
Qed.

(** A measurement with a ready sampler is never dropped. *)
Lemma measure_sampling w s :
  isTracking s = true -> hw_ok s ->
  exists s' l,
    measurePowerAndEnergy w s = (Normal tt, s', l) /\
    hw_ok s' /\
    (sampling s ->
     sampling s' /\ exists m, measurements s' = (measurements s ++ [m])%list).
Proof.
  intros H Hwf. unfold measurePowerAndEnergy.
  unfold try_catch, bind, hardware, zoom, get, gets, modify, ret, when,
    console_error.
  rewrite H. cbn [negb].
  destruct (HardwareFacts.estimateCPUPower_total (sys w) (hardwareTracker s) Hwf)
    as (c & h1 & l1 & E1 & Hwf1 & Hm1 & _).
  rewrite E1. cbn.
  destruct (HardwareFacts.getRAMInfo_cases (sys w) h1 Hwf1)
    as (h2 & l2 & Hwf2 & [(r & E2 & Hm2 & _) | (e & E2 & Hn)]);
    rewrite E2; cbn.
  2:{ do 2 eexists. split; [reflexivity|]. cbn. split; [assumption|].
      intros Hs. exfalso. apply (Hm1 Hs). assumption. }
  destruct (HardwareFacts.getGPUInfo_total (sys w) h2 Hwf2)
    as (g & h3 & l3 & E3 & Hwf3 & Hm3 & _).
  rewrite E3. cbn.
  destruct (String.eqb (logLevel (cfg s)) "DEBUG"); cbn;
    do 2 eexists; (split; [reflexivity|]); cbn; (split; [assumption|]);
    intros _; (split; [unfold sampling; cbn; auto | eexists; reflexivity]).
Qed.

(** ** [start()] and [stop()] *)

Lemma start_running init first s :
  isTracking s = true ->
  start init first s =
    (Normal tt, s, [(WARN, "Emissions tracking is already running")]).
Proof.
  intros H. unfold start, bind, gets. rewrite H. reflexivity.
Qed.

Lemma logSystemInfo_total s :
  systemInfo s <> None -> locationInfo s <> None ->
  exists l, logSystemInfo s = (Normal tt, s, l).
Proof.
  intros Hs Hl. unfold logSystemInfo, bind, get, console_log.
  destruct (systemInfo s); [|congruence].
  destruct (locationInfo s); [|congruence].
  cbn. eexists. reflexivity.
Qed.

(** [start()] on a tracker that is not tracking: either the system
    information could not be gathered and nothing of the energy state
    changed, or the state was reset (to [s0]) and the first measurement
    taken from there. *)
Lemma start_idle init first s :
  isTracking s = false -> hw_ok s ->
  exists s' l,
    start init first s = (Normal tt, s', l) /\
    cfg s' = cfg s /\ hw_ok s' /\ outputHandler s' = outputHandler s /\
    ((isTracking s' = false /\ same_energy s s') \/
     (exists s0 l0,
        cfg s0 = cfg s /\ isTracking s0 = true /\ reset_state s0 /\
        startTime s0 = Some (now init) /\
        outputHandler s0 = outputHandler s /\
        hw_ok s0 /\ sampling s0 /\
        systemInfo s0 <> None /\ locationInfo s0 <> None /\
        measurePowerAndEnergy first s0 = (Normal tt, s', l0))).
Proof.
  intros H Hwf. unfold start.
  unfold bind at 1. unfold gets at 1. rewrite H. cbn [negb].
  unfold try_catch. unfold bind at 1. unfold console_log at 1.
  unfold bind at 1.
  destruct (initializeSystemInfo_cases init s Hwf)
    as (r & s1 & l1 & E1 & He1 & Hc1 & Ht1 & Ho1 & Hwf1 & Hr1).
  rewrite E1. destruct r as [[]|e].
  2:{ cbn. do 2 eexists. split; [reflexivity|]. cbn.
      repeat split; auto. }
  destruct (Hr1 eq_refl) as (Hs1 & Hsi1 & Hli1).
  unfold bind, modify, gets, get, when, ret, console_log, console_error.
  cbn -[measurePowerAndEnergy logSystemInfo].
  match goal with
  | |- context [measurePowerAndEnergy first ?x] => set (s0 := x)
  end.
  assert (Ht0 : isTracking s0 = true) by reflexivity.
  assert (Hwf0 : hw_ok s0) by exact Hwf1.
  destruct (measure_tracking first s0 Ht0) as (s' & l' & E' & Hf' & _).
  destruct (measure_sampling first s0 Ht0 Hwf0) as (s'' & l'' & E'' & Hwf' & _).
  rewrite E' in E''. injection E'' as <- <-.
  destruct Hf' as (Hc' & Ht' & _ & _ & _ & Ho' & Hsi' & Hli').
  assert (Hlog : exists l, logSystemInfo s' = (Normal tt, s', l)).
  { apply logSystemInfo_total; [rewrite Hsi'; exact Hsi1 | rewrite Hli'; exact Hli1]. }
  destruct Hlog as (l3 & E3).
  rewrite E'.
  destruct (String.eqb (logLevel (cfg s')) "INFO");
    [rewrite E3|]; cbn;
    do 2 eexists; (split; [reflexivity|]);
    (split; [rewrite Hc'; exact Hc1|]); (split; [assumption|]);
    (split; [rewrite Ho'; exact Ho1|]);
    right; exists s0, l'; repeat split; auto.
Qed.

Lemma stop_not_tracking final fin write s :
  isTracking s = false ->
  stop final fin write s =
    (Normal (Finite 0), s, [(WARN, "Emissions tracking is not running")]).
Proof.
  intros H. unfold stop, bind, gets. rewrite H. reflexivity.
Qed.

(** The numbers of the result object. *)
Lemma calculateFinalEmissions_ok s loc info :
  locationInfo s = Some loc -> systemInfo s = Some info ->
  exists res l,
    calculateFinalEmissions s = (Normal res, s, l) /\
    (r_emissions res, l) =
      Emissions.calculateEmissions (emissions (cfg s)) (totalEnergy s)
        (Geography.countryCode loc) /\
    r_duration res =
      inject_Z (time_or_0 (endTime s) - time_or_0 (startTime s)) / 1000 /\
    r_emissionsRate res =
      (if negb (Qle_bool (r_duration res) 0)
       then match r_emissions res with
            | Finite kg => Finite (kg / r_duration res)
            | NaN | Undefined => NaN
            end
       else Finite 0) /\
    r_energyConsumed res = totalEnergy s /\
    r_measurements res = length (measurements s) /\
    r_region res = Geography.region loc /\
    r_countryCode res = Geography.countryCode loc.
Proof.
  intros Hl Hs. unfold calculateFinalEmissions, bind, get, ret.
  rewrite Hl, Hs.
  destruct (Emissions.calculateEmissions (emissions (cfg s)) (totalEnergy s)
              (Geography.countryCode loc)) as [kg out] eqn:E.
  cbn. do 2 eexists. split; [reflexivity|]. cbn.
  rewrite app_nil_r. repeat split.
Qed.

Lemma calculateFinalEmissions_state s :
  exists r l, calculateFinalEmissions s = (r, s, l).
Proof.
  destruct (locationInfo s) as [loc|] eqn:Hl.
  - destruct (systemInfo s) as [info|] eqn:Hs.
    + destruct (calculateFinalEmissions_ok s loc info Hl Hs) as (res & l & E & _).
      eauto.
    + unfold calculateFinalEmissions, bind, get, throw. rewrite Hl, Hs. eauto.
  - unfold calculateFinalEmissions, bind, get, throw. rewrite Hl. eauto.
Qed.

Lemma saveData_total write data h :
  exists h' l,
    OutputHandler.saveData write data h = (Normal tt, h', l).
Proof.
  unfold OutputHandler.saveData, try_catch, bind, get, ret, await, modify,
    console_log, console_error.
  cbn. destruct (negb (OutputHandler.saveToFile h) ||
                 negb (OutputHandler.csvWriter h)); [eauto|].
  destruct write as [[]|e]; cbn; eauto.
Qed.

(** [stop()] on a tracking session: the timer is cleared, the final
    measurement is taken (reaching [s1]), and nothing after it touches
    the energy state. *)
Lemma stop_tracking final fin write s :
  isTracking s = true -> hw_ok s ->
  exists s1 l1 r lr s' l v,
    measurePowerAndEnergy final (set_measurementInterval None s)
      = (Normal tt, s1, l1) /\
    calculateFinalEmissions (finalized fin s1) = (r, finalized fin s1, lr) /\
    stop final fin write s = (Normal v, s', l) /\
    same_energy s1 s' /\ cfg s' = cfg s /\ isTracking s' = false /\
    hw_ok s' /\ measurementInterval s' = None /\
    startTime s' = startTime s /\ endTime s' = Some fin /\
    locationInfo s' = locationInfo s /\ systemInfo s' = systemInfo s /\
    match r with
    | Normal res => v = r_emissions res
    | Thrown _ => v = Finite 0
    end.
Proof.
  intros H Hwf. unfold stop.
  unfold bind at 1. unfold gets at 1. rewrite H. cbn [negb].
  set (sc := set_measurementInterval None s).
  assert (Htc : isTracking sc = true) by exact H.
  assert (Hwc : hw_ok sc) by exact Hwf.
  destruct (measure_tracking final sc Htc) as (s1 & l1 & E1 & Hf1 & _).
  destruct (measure_sampling final sc Htc Hwc) as (s1' & l1' & E1' & Hwf1 & _).
  rewrite E1 in E1'. injection E1' as <- <-.
  destruct Hf1 as (Hc1 & Ht1 & Hst1 & _ & Hmi1 & Ho1 & Hsi1 & Hli1).
  destruct (calculateFinalEmissions_state (finalized fin s1)) as (r & lr & Er).
  exists s1, l1, r, lr.
  unfold try_catch, bind, modify, gets, get, when, ret, console_log,
    console_error, output, zoom.
  cbn -[measurePowerAndEnergy calculateFinalEmissions OutputHandler.saveData
        OutputHandler.logData].
  fold sc. rewrite E1.
  cbn -[measurePowerAndEnergy calculateFinalEmissions OutputHandler.saveData
        OutputHandler.logData].
  change (set_isTracking false (set_endTime (Some fin) s1))
    with (finalized fin s1).
  rewrite Er. destruct r as [res|e].
  2:{ cbn. do 3 eexists. split; [reflexivity|]. split; [reflexivity|].
      split; [reflexivity|]. cbn. repeat split; auto. }
  cbn -[OutputHandler.saveData OutputHandler.logData].
  destruct (String.eqb (logLevel (cfg s1)) "INFO");
    cbn -[OutputHandler.saveData];
    match goal with
    | |- context [OutputHandler.saveData write res ?h] =>
        destruct (saveData_total write res h) as (h' & l' & E'); rewrite E'
    end;
    cbn; do 3 eexists; (split; [reflexivity|]); (split; [reflexivity|]);
    (split; [reflexivity|]); cbn; repeat split; auto.
Qed.

(** ** Sessions *)

Lemma new_hw_ok o u1 u2 em : hw_ok (new o u1 u2 em).
Proof. exact HardwareFacts.new_well_formed. Qed.

Lemma new_reset o u1 u2 em : reset_state (new o u1 u2 em).
Proof. repeat split. Qed.

Lemma set_measurementInterval_energy v s :
  same_energy s (set_measurementInterval v s).
Proof. repeat split. Qed.

Lemma evolves_refl s : evolves s s.
Proof. apply ev_same; [reflexivity | apply same_energy_refl]. Qed.

Lemma evolves_measure w s :
  isTracking s = true ->
  forall r s' l, measurePowerAndEnergy w s = (r, s', l) -> evolves s s'.
Proof.
  intros H r s' l E.
  destruct (measure_tracking w s H) as (s1 & l1 & E1 & Hf & Ho).
  rewrite E1 in E. injection E as <- <- <-.
  eapply ev_tick; eauto. apply Hf.
Qed.

Lemma step_evolves e s :
  hw_ok s ->
  exists r s' l, step e s = (r, s', l) /\ hw_ok s' /\ evolves s s'.
Proof.
  intros Hwf. destruct e as [init first | w | final fin write]; cbn [step].
  - (* start() *)
    unfold bind at 1. destruct (isTracking s) eqn:Ht.
    + rewrite (start_running init first s Ht). cbn.
      do 3 eexists. split; [reflexivity|]. split; [assumption|apply evolves_refl].
    + destruct (start_idle init first s Ht Hwf)
        as (s' & l & E & Hc & Hwf' & _ & Hcase).
      rewrite E. cbn. do 3 eexists. split; [reflexivity|]. split; [assumption|].
      destruct Hcase as [(_ & He) | (s0 & l0 & Hc0 & Ht0 & Hr0 & _ & _ & _ & _ & _ & _ & E0)].
      * apply ev_same; assumption.
      * eapply ev_trans; [apply ev_reset; eassumption|].
        eapply evolves_measure; eassumption.
  - (* the timer *)
    unfold bind at 1. unfold timer_fires, bind, gets.
    destruct (measurementInterval s); cbn -[measurePowerAndEnergy].
    2:{ do 3 eexists. split; [reflexivity|]. split; [assumption|apply evolves_refl]. }
    destruct (isTracking s) eqn:Ht.
    + destruct (measure_sampling w s Ht Hwf) as (s' & l & E & Hwf' & _).
      rewrite E. cbn. do 3 eexists. split; [reflexivity|]. split; [assumption|].
      eapply evolves_measure; eassumption.
    + rewrite (measure_not_tracking w s Ht). cbn.
      do 3 eexists. split; [reflexivity|]. split; [assumption|apply evolves_refl].
  - (* stop() *)
    unfold bind at 1. destruct (isTracking s) eqn:Ht.
    + destruct (stop_tracking final fin write s Ht Hwf)
        as (s1 & l1 & r & lr & s' & l & v & E1 & _ & E & He & Hc & _ & Hwf' & _).
      rewrite E. cbn. do 3 eexists. split; [reflexivity|]. split; [assumption|].
      apply (ev_trans s (set_measurementInterval None s));
        [apply ev_same; [reflexivity | apply set_measurementInterval_energy]|].
      assert (Hc1 : cfg s1 = cfg s).
      { destruct (measure_tracking final (set_measurementInterval None s) Ht)
          as (s1' & l1' & E1' & Hf & _).
        rewrite E1 in E1'. injection E1' as <- <-. apply Hf. }
      eapply ev_trans;
        [eapply (evolves_measure final (set_measurementInterval None s));
         [exact Ht | exact E1]|].
      apply ev_same; [congruence | assumption].
    + rewrite (stop_not_tracking final fin write s Ht). cbn.
      do 3 eexists. split; [reflexivity|]. split; [assumption|apply evolves_refl].
Qed.

Lemma run_evolves es :
  forall s, hw_ok s -> hw_ok (state_after es s) /\ evolves s (state_after es s).
Proof.
  unfold state_after.
  induction es as [|e es IH]; intros s Hwf; cbn [run].
  - split; [assumption | apply evolves_refl].
  - destruct (step_evolves e s Hwf) as (r & s1 & l1 & E & Hwf1 & Hev).
    rewrite E. destruct (IH s1 Hwf1) as (Hwf2 & Hev2).
    destruct (run es s1) as [s2 l2]. cbn in *.
    split; [assumption | eapply ev_trans; eassumption].
Qed.

Lemma evolves_cfg s s' : evolves s s' -> cfg s' = cfg s.
Proof. induction 1; congruence. Qed.

(** The configuration is the one the constructor made. *)
Lemma session_cfg o u1 u2 em es :
  cfg (state_after es (new o u1 u2 em)) = cfg (new o u1 u2 em).
Proof. apply evolves_cfg, run_evolves, new_hw_ok. Qed.

(** A property of the energy state that holds after a reset and
    survives a measurement holds throughout every session. *)
Section SessionInvariant.

Variable P : t -> Prop.

Hypothesis P_energy :
  forall s s', cfg s' = cfg s -> same_energy s s' -> P s -> P s'.
Hypothesis P_reset : forall s, reset_state s -> P s.
Hypothesis P_tick :
  forall w s s' l,
    isTracking s = true -> cfg s' = cfg s ->
    tick_outcome w s s' l -> P s -> P s'.

Lemma evolves_invariant s s' : evolves s s' -> P s -> P s'.
Proof.
  induction 1; intros HP; eauto.
Qed.

Lemma session_invariant o u1 u2 em es :
  P (state_after es (new o u1 u2 em)).
Proof.
  destruct (run_evolves es (new o u1 u2 em) (new_hw_ok o u1 u2 em)) as (_ & Hev).
  eapply evolves_invariant; [exact Hev|].
  apply P_reset, new_reset.
Qed.

End SessionInvariant.

(** ** The life of a tracker *)

Lemma ensure_initialized_mem sys h :
  hw_well_formed h ->
  exists h1 l1,
    HardwareTracker.ensure_initialized sys h = (Normal tt, h1, l1) /\
    hw_well_formed h1 /\
    (HardwareTracker.memInfo h1 <> None <-> memory_available sys h) /\
    (HardwareTracker.memInfo h <> None -> HardwareTracker.memInfo h1 <> None).
Proof.
  intros Hwf. unfold hw_well_formed in *. unfold memory_available, resolved.
  unfold HardwareTracker.ensure_initialized, HardwareTracker.initialize.
  unfold try_catch, bind, gets, ret, await, modify, console_error.
  destruct (HardwareTracker.isInitialized h) eqn:Ei; cbn.
  - assert (Hm : HardwareTracker.memInfo h <> None) by now apply Hwf.
    do 2 eexists. split; [reflexivity|]. split; [intros _; exact Hm|]. tauto.
  - destruct (HardwareTracker.si_cpu sys) as [c|ec];
      [destruct (HardwareTracker.si_mem sys) as [m|em];
       [destruct (HardwareTracker.si_graphics sys) as [g|eg]|]|];
      cbn; do 2 eexists; (split; [reflexivity|]); cbn;
      (split; [discriminate|]); (split; [|try tauto; discriminate]);
      split; try tauto; try discriminate; intros [Hm|[[] []]]; tauto.
Qed.

Lemma getRAMInfo_mem sys h :
  hw_well_formed h ->
  exists h2 l2,
    hw_well_formed h2 /\
    ((memory_available sys h /\
      exists r, HardwareTracker.getRAMInfo sys h = (Normal r, h2, l2) /\
                HardwareTracker.memInfo h2 <> None) \/
     (~ memory_available sys h /\
      exists e, HardwareTracker.getRAMInfo sys h = (Thrown e, h2, l2))).
Proof.
  intros Hwf. unfold HardwareTracker.getRAMInfo, bind, get, ret, throw.
  destruct (ensure_initialized_mem sys h Hwf) as (h1 & l1 & E & Hwf1 & Hav & _).
  rewrite E. cbn -[Math_round Math_ceil Math_max Qdiv Qmult Qplus inject_Z].
  exists h1. destruct (HardwareTracker.memInfo h1) as [m|] eqn:Em;
    cbn -[Math_round Math_ceil Math_max Qdiv Qmult Qplus inject_Z];
    eexists; (split; [exact Hwf1|]).
  - left. split; [apply Hav; discriminate|]. eexists. split; [reflexivity|].
    congruence.
  - right. split; [intros H; apply Hav in H; congruence|]. eexists. reflexivity.
Qed.

Lemma getSystemInfo_iff sys h :
  hw_well_formed h ->
  exists r h' l,
    HardwareTracker.getSystemInfo sys h = (r, h', l) /\
    hw_well_formed h' /\
    (resolved r <->
     memory_available sys h /\ resolved (HardwareTracker.si_osInfo sys)) /\
    (resolved r -> HardwareTracker.memInfo h' <> None).
Proof.
  intros Hwf. unfold HardwareTracker.getSystemInfo, HardwareTracker.getCPUInfo.
  unfold bind, get, ret, await.
  destruct (ensure_initialized_mem sys h Hwf) as (h1 & l1 & E1 & Hwf1 & Hav1 & Hk1).
  rewrite E1. cbn.
  assert (Hsame : memory_available sys h1 <-> memory_available sys h).
  { unfold memory_available at 1. rewrite Hav1. unfold memory_available. tauto. }
  destruct (getRAMInfo_mem sys h1 Hwf1)
    as (h2 & l2 & Hwf2 & [(Hav & r & E2 & Hm2) | (Hnav & e & E2)]);
    rewrite E2; cbn.
  2:{ do 3 eexists. split; [reflexivity|]. split; [exact Hwf2|]. cbn. tauto. }
  destruct (HardwareFacts.getGPUInfo_total sys h2 Hwf2)
    as (g & h3 & l3 & E3 & Hwf3 & Hm3 & _).
  rewrite E3. cbn.
  destruct (HardwareTracker.si_osInfo sys) as [os|eos]; cbn;
    do 3 eexists; (split; [reflexivity|]); (split; [exact Hwf3|]); cbn.
  - split; [|auto]. split; [intros _; split; [apply Hsame, Hav | exact I] | auto].
  - split; [|tauto]. split; [tauto|]. intros (_ & []).
Qed.

Lemma initializeSystemInfo_iff w s :
  hw_ok s ->
  exists r s' l,
    initializeSystemInfo w s = (r, s', l) /\
    same_energy s s' /\ cfg s' = cfg s /\ isTracking s' = isTracking s /\
    startTime s' = startTime s /\ endTime s' = endTime s /\
    measurementInterval s' = measurementInterval s /\
    outputHandler s' = outputHandler s /\ hw_ok s' /\
    (resolved r <-> can_start w s) /\
    (resolved r ->
     sampling s' /\ systemInfo s' <> None /\ locationInfo s' <> None).
Proof.
  intros Hwf. unfold initializeSystemInfo, hardware, geo, zoom.
  unfold bind, get, modify, console_log. unfold can_start.
  destruct (getSystemInfo_iff (sys w) (hardwareTracker s) Hwf)
    as (r & h' & l & E & Hwf' & Hiff & Hm).
  rewrite E. destruct r as [info|e]; cbn.
  2:{ do 3 eexists. split; [reflexivity|]. cbn. cbn in Hiff.
      repeat split; auto; try tauto; try contradiction. }
  destruct (str_or_null (countryCode (cfg s))) as [cc|]; cbn.
  - do 3 eexists. split; [reflexivity|]. cbn. cbn in Hiff.
    repeat split; auto; try tauto; try discriminate; try (apply Hm; exact I).
  - destruct (detectLocation_total (locale w) (geography (cfg s)))
      as (loc & l2 & E2).
    rewrite E2. cbn. do 3 eexists. split; [reflexivity|]. cbn. cbn in Hiff.
    repeat split; auto; try tauto; try discriminate; try (apply Hm; exact I).
Qed.

(** [start()] on a tracker that is not tracking, in full. *)
Lemma start_cases init first s :
  isTracking s = false -> hw_ok s ->
  exists s' l,
    start init first s = (Normal tt, s', l) /\
    cfg s' = cfg s /\ hw_ok s' /\ outputHandler s' = outputHandler s /\
    endTime s' = endTime s /\
    ((~ can_start init s /\ isTracking s' = false /\ same_energy s s' /\
      measurementInterval s' = measurementInterval s /\
      startTime s' = startTime s /\ In start_failed l) \/
     (can_start init s /\
      exists s0 l0,
        cfg s0 = cfg s /\ isTracking s0 = true /\ reset_state s0 /\
        startTime s0 = Some (now init) /\
        measurementInterval s0 = Some (measurePowerInterval (cfg s)) /\
        hw_ok s0 /\ sampling s0 /\
        systemInfo s0 <> None /\ locationInfo s0 <> None /\
        measurePowerAndEnergy first s0 = (Normal tt, s', l0))).
Proof.
  intros H Hwf. unfold start.
  unfold bind at 1. unfold gets at 1. rewrite H. cbn [negb].
  unfold try_catch. unfold bind at 1. unfold console_log at 1.
  unfold bind at 1.
  destruct (initializeSystemInfo_iff init s Hwf)
    as (r & s1 & l1 & E1 & He1 & Hc1 & Ht1 & Hst1 & Hen1 & Hmi1 & Ho1 & Hwf1
        & Hiff & Hr1).
  rewrite E1. destruct r as [[]|e].
  2:{ cbn. do 2 eexists. split; [reflexivity|]. cbn. cbn in Hiff.
      repeat split; auto. left. repeat split; try tauto; try apply He1.
      unfold start_failed. in_console. }
  destruct (Hr1 I) as (Hs1 & Hsi1 & Hli1).
  assert (Hcan : can_start init s) by (apply Hiff; exact I).
  unfold bind, modify, gets, get, when, ret, console_log, console_error.
  cbn -[measurePowerAndEnergy logSystemInfo].
  match goal with
  | |- context [measurePowerAndEnergy first ?x] => set (s0 := x)
  end.
  assert (Ht0 : isTracking s0 = true) by reflexivity.
  assert (Hwf0 : hw_ok s0) by exact Hwf1.
  destruct (measure_tracking first s0 Ht0) as (s' & l' & E' & Hf' & Hout).
  destruct (measure_sampling first s0 Ht0 Hwf0) as (s'' & l'' & E'' & Hwf' & Hsamp).
  rewrite E' in E''. injection E'' as <- <-.
  destruct Hf' as (Hc' & Ht' & _ & Hen' & _ & Ho' & Hsi' & Hli').
  assert (Hlog : exists l, logSystemInfo s' = (Normal tt, s', l)).
  { apply logSystemInfo_total; [rewrite Hsi'; exact Hsi1 | rewrite Hli'; exact Hli1]. }
  destruct Hlog as (l3 & E3).
  rewrite E'.
  destruct (String.eqb (logLevel (cfg s')) "INFO");
    [rewrite E3|]; cbn;
    do 2 eexists; (split; [reflexivity|]);
    (split; [rewrite Hc'; exact Hc1|]); (split; [assumption|]);
    (split; [rewrite Ho'; exact Ho1|]);
    (split; [rewrite Hen'; exact Hen1|]);
    right; (split; [exact Hcan|]); exists s0, l';
    repeat split; auto; try (unfold s0; cbn; rewrite Hc1; reflexivity).
Qed.

Lemma state_after_cons e es s :
  state_after (e :: es) s = state_after es (state_after [e] s).
Proof.
  unfold state_after. cbn [run].
  destruct (step e s) as [[r s1] l1]. cbn.
  destruct (run es s1) as [s2 l2]. reflexivity.
Qed.

Lemma state_after_tick w s :
  state_after [Tick w] s =
    match measurementInterval s with
    | Some _ => snd (fst (measurePowerAndEnergy w s))
    | None => s
    end.
Proof.
  unfold state_after. cbn [run step]. unfold bind at 1.
  unfold timer_fires, bind, gets.
  destruct (measurementInterval s); cbn -[measurePowerAndEnergy]; [|reflexivity].
  destruct (measurePowerAndEnergy w s) as [[[u|e] s1] l1]; reflexivity.
Qed.

Lemma state_after_stop final fin write s :
  state_after [Stop final fin write] s = snd (fst (stop final fin write s)).
Proof.
  unfold state_after. cbn [run step]. unfold bind at 1.
  destruct (stop final fin write s) as [[[u|e] s1] l1]; reflexivity.
Qed.

Lemma state_after_start_any init first s :
  state_after [Start init first] s = snd (fst (start init first s)).
Proof.
  unfold state_after. cbn [run step]. unfold bind at 1.
  destruct (start init first s) as [[[u|e] s1] l1]; reflexivity.
Qed.

Lemma new_lifecycle o u1 u2 em : lifecycle (new o u1 u2 em).
Proof. split; [discriminate | reflexivity]. Qed.

Lemma measure_lifecycle w s :
  isTracking s = true -> hw_ok s -> lifecycle s ->
  exists s' l m,
    measurePowerAndEnergy w s = (Normal tt, s', l) /\
    hw_ok s' /\ lifecycle s' /\ same_session s s' /\
    recorded w s s' l m.
Proof.
  intros Ht Hwf (Hrun & _).
  destruct (Hrun Ht) as (Hs & Hmi & Hst & Hli & Hsi & Hne).
  destruct (measure_tracking w s Ht) as (s' & l & E & Hf & _).
  destruct (measure_sampling w s Ht Hwf) as (s'' & l'' & E'' & Hwf' & Hsamp).
  rewrite E in E''. injection E'' as <- <-.
  destruct (Hsamp Hs) as (Hs' & m & Hm).
  exists s', l, m. split; [exact E|]. split; [exact Hwf'|].
  split; [|split; [exact Hf | exact (measure_recorded w s _ s' l m Ht E Hm)]].
  destruct Hf as (Hc & Hti & Hstf & _ & Hmif & _ & Hsif & Hlif).
  split.
  - intros _. rewrite Hc, Hmif, Hstf, Hlif, Hsif, Hm.
    repeat split; auto. now destruct (measurements s).
  - intros Hoff. congruence.
Qed.

Lemma step_lifecycle e s :
  hw_ok s -> lifecycle s ->
  hw_ok (state_after [e] s) /\ lifecycle (state_after [e] s).
Proof.
  intros Hwf Hl. destruct e as [init first | w | final fin write].
  - rewrite state_after_start_any. destruct (isTracking s) eqn:Ht.
    + rewrite (start_running init first s Ht). cbn. split; assumption.
    + destruct (start_cases init first s Ht Hwf)
        as (s' & l & E & Hc & Hwf' & _ & _ & Hcase).
      rewrite E. cbn. split; [exact Hwf'|].
      destruct Hcase as [(_ & Hoff & _ & Hmi & _) |
                         (_ & s0 & l0 & Hc0 & Ht0 & Hr0 & Hst0 & Hmi0 & Hwf0
                          & Hs0 & Hsi0 & Hli0 & E0)].
      * split; [congruence|]. intros _. rewrite Hmi. now apply Hl.
      * destruct (measure_sampling first s0 Ht0 Hwf0) as (sx & lx & Ex & _ & Hx).
        rewrite E0 in Ex. injection Ex as <- <-.
        destruct (measure_tracking first s0 Ht0) as (sy & ly & Ey & Hfy & _).
        rewrite E0 in Ey. injection Ey as <- <-.
        destruct (Hx Hs0) as (Hs' & m & Hm).
        destruct Hfy as (Hcy & Hty & Hsty & _ & Hmiy & _ & Hsiy & Hliy).
        split; [|congruence]. intros _.
        rewrite Hcy, Hmiy, Hsty, Hliy, Hsiy, Hm, Hmi0, Hc0, Hst0.
        repeat split; auto; try discriminate.
        now destruct (measurements s0).
  - rewrite state_after_tick. destruct (measurementInterval s) eqn:Hmi;
      [|split; assumption].
    destruct (isTracking s) eqn:Ht.
    + destruct (measure_lifecycle w s Ht Hwf Hl) as (s' & l & m & E & H1 & H2 & _).
      rewrite E. cbn. split; assumption.
    + rewrite (measure_not_tracking w s Ht). cbn. split; assumption.
  - rewrite state_after_stop. destruct (isTracking s) eqn:Ht.
    + destruct (stop_tracking final fin write s Ht Hwf)
        as (s1 & l1 & r & lr & s' & l & v & _ & _ & E & _ & _ & Hoff & Hwf'
            & Hmi & _).
      rewrite E. cbn. split; [exact Hwf'|]. split; [congruence|]. auto.
    + rewrite (stop_not_tracking final fin write s Ht). cbn. split; assumption.
Qed.

Lemma recorded_ext w s0 s s' l m :
  hardwareTracker s0 = hardwareTracker s -> measurements s0 = measurements s ->
  cfg s0 = cfg s -> totalCpuEnergy s0 = totalCpuEnergy s ->
  totalRamEnergy s0 = totalRamEnergy s -> totalGpuEnergy s0 = totalGpuEnergy s ->
  recorded w s0 s' l m -> recorded w s s' l m.
Proof.
  intros Hh Hm Hc H1 H2 H3 [c h1 l1 r h2 l2 g h3 l3 Ec Er Eg Hl Hms Hts Hd
    Hcp Hrp Hgp Hu Hce Hre Hge Htc Htr Htg Htot Hmt].
  assert (Ht : timeSinceLastMeasurement s0 (now w)
               = timeSinceLastMeasurement s (now w)).
  { unfold timeSinceLastMeasurement. now rewrite Hm, Hc. }
  rewrite Hh in Ec. rewrite Hm in Hms. rewrite Ht in Hd.
  rewrite Hc in Hcp, Hrp, Hgp, Hce, Hre, Hge.
  rewrite H1 in Htc. rewrite H2 in Htr. rewrite H3 in Htg.
  econstructor; eassumption.
Qed.

Lemma measure_running w s :
  isTracking s = true -> hw_ok s -> sampling s ->
  exists s' l m,
    measurePowerAndEnergy w s = (Normal tt, s', l) /\
    hw_ok s' /\ sampling s' /\ same_session s s' /\ recorded w s s' l m.
Proof.
  intros Ht Hwf Hs.
  destruct (measure_tracking w s Ht) as (s' & l & E & Hf & _).
  destruct (measure_sampling w s Ht Hwf) as (s'' & l'' & E'' & Hwf' & Hsamp).
  rewrite E in E''. injection E'' as <- <-.
  destruct (Hsamp Hs) as (Hs' & m & Hm).
  exists s', l, m. repeat split; try assumption; try apply Hf.
  exact (measure_recorded w s _ s' l m Ht E Hm).
Qed.

Lemma lifecycle_preserved es :
  forall s, hw_ok s -> lifecycle s ->
            hw_ok (state_after es s) /\ lifecycle (state_after es s).
Proof.
  induction es as [|e es IH]; intros s Hwf Hl.
  - split; assumption.
  - rewrite state_after_cons.
    destruct (step_lifecycle e s Hwf Hl) as (H1 & H2). now apply IH.
Qed.

Lemma reachable_lifecycle o u1 u2 em es :
  lifecycle (state_after es (new o u1 u2 em)).
Proof.
  apply lifecycle_preserved; [apply new_hw_ok | apply new_lifecycle].
Qed.

(** ** Energy integration *)

Lemma sum_over_app f ms m :
  sum_over f (ms ++ [m]) == sum_over f ms + f m.
Proof.
  induction ms as [|m0 ms IH]; cbn.
  - ring.
  - rewrite IH. ring.
Qed.

Lemma code_increment watts elapsed pue :
  watts * elapsed / (1000 * 3600) * pue == incrementKWh watts elapsed pue.
Proof. unfold incrementKWh. field. Qed.

Lemma code_increment_term watts elapsed pue :
  watts * elapsed / (1000 * 3600) * pue == watts * elapsed / 3600000 * pue.
Proof. field. Qed.

Lemma conservation_energy s s' :
  cfg s' = cfg s -> same_energy s s' -> conservation s -> conservation s'.
Proof.
  unfold conservation. intros Hc (E1 & E2 & E3 & E4 & E5).
  rewrite Hc, E1, E2, E3, E4, E5. trivial.
Qed.

Lemma conservation_reset s : reset_state s -> conservation s.
Proof.
  unfold conservation. intros (E1 & E2 & E3 & E4 & E5).
  rewrite E1, E2, E3, E4, E5. cbn. repeat split; try reflexivity. constructor.
Qed.

Lemma conservation_tick w s s' l :
  isTracking s = true -> cfg s' = cfg s ->
  tick_outcome w s s' l -> conservation s -> conservation s'.
Proof.
  intros _ Hc Ho Hs. destruct Ho as [He _ | m
    [c h1 l1 r h2 l2 g h3 l3 _ _ _ _ Hm _ _ _ _ _ _ Hce Hre Hge Htc Htr Htg Ht _]].
  - eapply conservation_energy; eassumption.
  - destruct Hs as (Sc & Sr & Sg & St & Sf).
    unfold conservation. rewrite Hc, Hm, Htc, Htr, Htg.
    rewrite !sum_over_app. unfold domain_term at 2 4 6.
    rewrite Hce, Hre, Hge, Sc, Sr, Sg, !code_increment_term.
    repeat split; try reflexivity.
    + rewrite Ht, Htc, Htr, Htg, Hce, Hre, Hge, Sc, Sr, Sg. reflexivity.
    + apply Forall_app. split; [assumption|]. constructor; [|constructor].
      unfold increments_ok. rewrite Hce, Hre, Hge.
      repeat split; apply code_increment.
Qed.

Lemma sum_over_domains pue ms :
  sum_over (domain_term pue cpuPower) ms + sum_over (domain_term pue ramPower) ms
  + sum_over (domain_term pue gpuPower) ms
  == conserved_total pue ms.
Proof.
  unfold conserved_total.
  induction ms as [|m ms IH]; cbn.
  - reflexivity.
  - unfold tick_term at 1. rewrite <- IH. ring.
Qed.

Lemma conservation_total s :
  conservation s ->
  totalEnergy s == conserved_total (pue (cfg s)) (measurements s).
Proof.
  intros (Sc & Sr & Sg & St & _). rewrite St, Sc, Sr, Sg.
  apply sum_over_domains.
Qed.

(** ** The conservation law in any arithmetic *)

Lemma last_measurement_view ms :
  last (List.map measurement_view ms) = option_map measurement_view (last ms).
Proof.
  induction ms as [|m [|m' ms] IH]; [reflexivity | reflexivity |].
  exact IH.
Qed.

(** A recorded tick of the tracker is one step of the arithmetic, in
    exact rationals, on the reading the tick took. *)
Lemma recorded_is_measure w s s' l m :
  recorded w s s' l m ->
  exists c h1 l1 r h2 l2 g h3 l3,
    HardwareTracker.estimateCPUPower (sys w) (hardwareTracker s)
      = (Normal c, h1, l1) /\
    HardwareTracker.getRAMInfo (sys w) h1 = (Normal r, h2, l2) /\
    HardwareTracker.getGPUInfo (sys w) h2 = (Normal g, h3, l3) /\
    energy_view s' =
      Arithmetic.measure Arithmetic.exact
        (measurePowerInterval (cfg s)) (pue (cfg s))
        (reading_of s w c r g) (energy_view s).
Proof.
  intros [c h1 l1 r h2 l2 g h3 l3 Ec Er Eg _ Hm Hts Hd Hcp Hrp Hgp Hu
            Hce Hre Hge Htc Htr Htg Htot Hmt].
  exists c, h1, l1, r, h2, l2, g, h3, l3.
  split; [exact Ec|]. split; [exact Er|]. split; [exact Eg|].
  unfold energy_view, Arithmetic.measure, reading_of.
  cbn [Arithmetic.at_ms Arithmetic.cpu_watts Arithmetic.ram_watts
       Arithmetic.gpu_watts Arithmetic.usage Arithmetic.measurements
       Arithmetic.totalCpuEnergy Arithmetic.totalRamEnergy
       Arithmetic.totalGpuEnergy Arithmetic.add Arithmetic.mul Arithmetic.div
       Arithmetic.of_Z Arithmetic.exact].
  rewrite Hm, List.map_app. cbn [List.map]. unfold measurement_view at 2.
  rewrite Hmt, Htot, Htc, Htr, Htg, Hce, Hre, Hge, Hts, Hu, Hcp, Hrp, Hgp, Hd.
  unfold timeSinceLastMeasurement. rewrite last_measurement_view.
  destruct (last (measurements s)); reflexivity.
Qed.

Section ConservationProof.

Context (A : Arithmetic.arithmetic).

Lemma measures_snoc interval pue ks k :
  Arithmetic.measures A interval pue (ks ++ [k])
  = Arithmetic.measure A interval pue k (Arithmetic.measures A interval pue ks).
Proof. unfold Arithmetic.measures. now rewrite fold_left_app. Qed.

Lemma elapsed_chain_snoc interval prev log m :
  elapsed_chain A interval prev log ->
  Arithmetic.duration m
    = elapsed_since A interval
        (match last log with Some p => Some p | None => prev end)
        (Arithmetic.timestamp m) ->
  elapsed_chain A interval prev (log ++ [m]).
Proof.
  revert prev. induction log as [|m0 log IH]; intros prev Hc Hd.
  - cbn. auto.
  - destruct Hc as (H0 & Hc). split; [exact H0|].
    apply IH; [exact Hc|].
    destruct log as [|m1 log]; [exact Hd|].
    change (last (m0 :: m1 :: log)) with (last (m1 :: log)) in Hd.
    destruct (last (m1 :: log)) eqn:E; [exact Hd|].
    apply last_None in E. discriminate.
Qed.

Lemma running_sum_snoc f log m :
  running_sum A f (log ++ [m]) = Arithmetic.add A (running_sum A f log) (f m).
Proof. unfold running_sum. now rewrite fold_left_app. Qed.

(** In every arithmetic the ticks are conserved. *)
Lemma measures_conserved interval pue ks :
  conserved A interval pue ks (Arithmetic.measures A interval pue ks).
Proof.
  induction ks as [|k ks IH] using rev_ind.
  - repeat split; try constructor. intros H. now contradiction H.
  - rewrite measures_snoc.
    set (st := Arithmetic.measures A interval pue ks) in *.
    destruct IH as ((R1 & R2 & R3 & R4) & Hch & Hinc & Sc & Sr & Sg & _).
    unfold conserved, log_of_ticks, Arithmetic.measure.
    cbn [Arithmetic.measurements Arithmetic.totalCpuEnergy
         Arithmetic.totalRamEnergy Arithmetic.totalGpuEnergy Arithmetic.total].
    rewrite !List.map_app, !running_sum_snoc.
    cbn [List.map Arithmetic.timestamp Arithmetic.cpuPower Arithmetic.ramPower
         Arithmetic.gpuPower Arithmetic.cpuEnergy Arithmetic.ramEnergy
         Arithmetic.gpuEnergy].
    rewrite R1, R2, R3, R4, <- Sc, <- Sr, <- Sg.
    split; [repeat split|]. split.
    { apply elapsed_chain_snoc; [exact Hch|].
      cbn [Arithmetic.duration Arithmetic.timestamp].
      destruct (last (Arithmetic.measurements st)); reflexivity. }
    split.
    { apply Forall_app. split; [exact Hinc|].
      constructor; [|constructor]. repeat split. }
    repeat split.
Qed.

End ConservationProof.




(** ** The total is recomputed *)

Lemma total_is_sum_energy s s' :
  cfg s' = cfg s -> same_energy s s' -> total_is_sum s -> total_is_sum s'.
Proof.
  unfold total_is_sum. intros _ (E1 & E2 & E3 & E4 & _).
  rewrite E1, E2, E3, E4. trivial.
Qed.

Lemma total_is_sum_reset s : reset_state s -> total_is_sum s.
Proof.
  unfold total_is_sum. intros (E1 & E2 & E3 & E4 & _).
  rewrite E1, E2, E3, E4. reflexivity.
Qed.

Lemma total_is_sum_tick w s s' l :
  isTracking s = true -> cfg s' = cfg s ->
  tick_outcome w s s' l -> total_is_sum s -> total_is_sum s'.
Proof.
  intros _ Hc Ho Hs. destruct Ho as [He _ | m Hm].
  - eapply total_is_sum_energy; eassumption.
  - destruct Hm. assumption.
Qed.

(** C5 (the total is the sum of its parts).  Whatever the state of a
    tracking session was, a tick that records a measurement leaves the
    total equal to the sum of the three domain accumulators as they are
    after the tick, each being its old value plus the increment of this
    tick: the old total plays no part.  Hence the equality holds after
    every event of every session. *)
Theorem C5_total_recomputed :
  (forall w s s' l m,
     isTracking s = true ->
     measurePowerAndEnergy w s = (Normal tt, s', l) ->
     measurements s' = (measurements s ++ [m])%list ->
     totalEnergy s' = totalCpuEnergy s' + totalRamEnergy s' + totalGpuEnergy s' /\
     totalCpuEnergy s' = totalCpuEnergy s + cpuEnergy m /\
     totalRamEnergy s' = totalRamEnergy s + ramEnergy m /\
     totalGpuEnergy s' = totalGpuEnergy s + gpuEnergy m /\
     m_totalEnergy m = totalEnergy s') /\
  (forall o u1 u2 em es,
     let s := state_after es (new o u1 u2 em) in
     totalEnergy s = totalCpuEnergy s + totalRamEnergy s + totalGpuEnergy s).
Proof.
  split.
  - intros w s s' l m Ht E Hm.
    destruct (measure_recorded w s (Normal tt) s' l m Ht E Hm).
    repeat split; assumption.
  - intros o u1 u2 em es s.
    apply (session_invariant total_is_sum).
    + exact total_is_sum_energy.
    + exact total_is_sum_reset.
    + exact total_is_sum_tick.
Qed.

Lemma C5_total_recomputed_witness :
  let s := state_after
             [Start (Scenario.at_time Scenario.laptop 0)
                    (Scenario.at_time Scenario.laptop 0)]
             Scenario.default_tracker in
  let s' := snd (fst (measurePowerAndEnergy
                        (Scenario.at_time Scenario.laptop 1000) s)) in
  length (measurements s') = 2%nat /\
  totalEnergy s' = totalCpuEnergy s' + totalRamEnergy s' + totalGpuEnergy s'.
Proof.
  cbv zeta.
  set (s := state_after _ Scenario.default_tracker).
  set (w := Scenario.at_time Scenario.laptop 1000).
  destruct (measurePowerAndEnergy w s) as [[r s'] l] eqn:E.
  assert (Hr : r = Normal tt).
  { replace r with (fst (fst (measurePowerAndEnergy w s))) by now rewrite E.
    vm_compute. reflexivity. }
  assert (Hm : exists m, measurements s' = (measurements s ++ [m])%list).
  { replace s' with (snd (fst (measurePowerAndEnergy w s))) by now rewrite E.
    eexists. vm_compute. reflexivity. }
  destruct Hm as (m & Hm). subst r. cbn [fst snd].
  split.
  - rewrite Hm, length_app. vm_compute. reflexivity.
  - apply (proj1 C5_total_recomputed w s s' l m); [reflexivity | exact E | exact Hm].
Defined.

(** ** Stopping a tracker that is not running *)

(** C9.  [stop()] on a tracker that is not tracking (never started, or
    already stopped) logs one warning, returns [0] and leaves the whole
    tracker, with its accumulators and its measurement log, as it was. *)
Theorem C9_stop_when_not_running final fin write s :
  isTracking s = false ->
  stop final fin write s =
    (Normal (Finite 0), s, [(WARN, "Emissions tracking is not running")]).
Proof.
  intros H. unfold stop, bind, gets. rewrite H. reflexivity.
Qed.

Lemma C9_stop_when_not_running_witness :
  stop (Scenario.at_time Scenario.laptop 0) 0 (Normal tt) Scenario.default_tracker =
    (Normal (Finite 0), Scenario.default_tracker,
     [(WARN, "Emissions tracking is not running")]).
Proof.
  apply (C9_stop_when_not_running
           (Scenario.at_time Scenario.laptop 0) 0 (Normal tt)
           Scenario.default_tracker).
  reflexivity.
Defined.

(** ** The intensity of an unknown country *)

Lemma inherited_key_spec key :
  inherited_key key = true <-> In key Object_prototype_keys.
Proof.
  unfold inherited_key. rewrite existsb_exists. split.
  - intros (k & Hk & E). apply String.eqb_eq in E. now subst.
  - intros H. exists key. split; [exact H | apply String.eqb_refl].
Qed.

(** C10 (the code at the failing input).  For a country code without an
    entry in the intensity table, the lookup of an [Emissions] object
    (whatever file it was built from) returns the world average of
    475 g CO2/kWh and logs one warning, unless the code is a name that
    plain objects inherit, such as [constructor] or [toString]: the
    table's truthiness test then finds the inherited member, and the
    lookup returns [undefined] and logs nothing, so the emissions
    computed from it are [NaN].  The lookup never throws. *)
Theorem C10_unknown_country_fallback file countryCode :
  let this := fst (Emissions.new file) in
  Emissions.carbonIntensityData this !! countryCode = None ->
  (~ In countryCode Object_prototype_keys ->
   Emissions.getCarbonIntensity this countryCode =
     (Finite 475,
      [(WARN, "No carbon intensity data for ${countryCode}, using world average")])) /\
  (In countryCode Object_prototype_keys ->
   Emissions.getCarbonIntensity this countryCode = (Undefined, []) /\
   forall energyKWh,
     Emissions.calculateEmissions this energyKWh countryCode = (NaN, [])).
Proof.
  intros this H.
  unfold Emissions.calculateEmissions, Emissions.getCarbonIntensity,
    lookup_property.
  rewrite H. split; intros Hk.
  - destruct (inherited_key countryCode) eqn:E.
    + apply inherited_key_spec in E. contradiction.
    + unfold this, Emissions.new.
      destruct (Emissions.loadCarbonIntensityData file). reflexivity.
  - apply inherited_key_spec in Hk. rewrite Hk. split; reflexivity.
Qed.

Lemma C10_unknown_country_fallback_witness :
  Emissions.getCarbonIntensity Scenario.usa_table "ZZZ" =
    (Finite 475,
     [(WARN, "No carbon intensity data for ${countryCode}, using world average")]) /\
  Emissions.getCarbonIntensity Scenario.usa_table "constructor" = (Undefined, []) /\
  Emissions.calculateEmissions Scenario.usa_table (150 / 3600000) "constructor"
    = (NaN, []).
Proof.
  pose proof (C10_unknown_country_fallback
                (Normal {[ "USA" := {| Emissions.carbon_intensity := 475;
                                       Emissions.country_name := "United States" |} ]})
                "ZZZ") as Hz.
  pose proof (C10_unknown_country_fallback
                (Normal {[ "USA" := {| Emissions.carbon_intensity := 475;
                                       Emissions.country_name := "United States" |} ]})
                "constructor") as Hc.
  cbv zeta in Hz, Hc.
  destruct Hz as (Hz & _); [vm_compute; reflexivity|].
  destruct Hc as (_ & Hc); [vm_compute; reflexivity|].
  split.
  - apply Hz. vm_compute. intuition discriminate.
  - destruct Hc as (H1 & H2); [vm_compute; auto 15|].
    split; [exact H1 | apply H2].
Defined.

(** ** The region and the final emissions *)

(** The region of the location plays no part in the final emissions. *)
Lemma final_emissions_ignore_region s loc r :
  locationInfo s = Some loc ->
  final_emissions (set_locationInfo (Some (with_region r loc)) s)
  = final_emissions s.
Proof.
  intros Hl. unfold final_emissions, calculateFinalEmissions, bind, get, ret, throw.
  cbn. rewrite Hl.
  destruct (systemInfo s); [|reflexivity].
  destruct (Emissions.calculateEmissions (emissions (cfg s)) (totalEnergy s)
              (Geography.countryCode loc)).
  reflexivity.
Qed.

(** C6 (the code at the failing input).  In California the regional
    table holds 300 g CO2/kWh against 475 for the country, yet [stop()]
    returns the same emissions with the region configured as without:
    the country-level [0.475 * 4.1667e-5] kg, not [0.300 * 4.1667e-5]. *)
Theorem C6_region_not_consulted :
  Geography.getRegionalCarbonIntensity Geography.new "USA" (Some "CA") = Some 300 /\
  Geography.getRegionalCarbonIntensity Geography.new "USA" (Some "ZZ") = None /\
  fst (Emissions.getCarbonIntensity Scenario.usa_table "USA") = Finite 475 /\
  scenario_emissions (Some "CA") = scenario_emissions None /\
  exists v,
    scenario_emissions (Some "CA") = Some (Finite v) /\
    v == (475 / 1000) * (150 / 3600000) /\
    ~ v == (300 / 1000) * (150 / 3600000).
Proof.
  repeat split; try (vm_compute; reflexivity).
  eexists. split; [vm_compute; reflexivity|].
  split; [vm_compute; reflexivity | vm_compute; discriminate].
Qed.

(** ** Power overrides *)

(** C7 (the code at the failing input).  With [forceGpuPower: 0] on a
    machine whose GPU the sampler rates at 320 W, the constructor stores
    no override for the GPU and the first tick records the sampler's
    320 W, while the non-zero overrides of CPU and RAM are used. *)
Theorem C7_zero_override_dropped :
  o_forceGpuPower (Scenario.scenario_options None) = Some 0 /\
  forceGpuPower (cfg (Scenario.scenario_tracker None Scenario.no_table)) = None /\
  exists m,
    first_measurement Scenario.workstation
      (Scenario.scenario_tracker None Scenario.no_table) = Some m /\
    gpuPower m == 320 /\ ~ gpuPower m == 0 /\
    cpuPower m == 65 /\ ramPower m == 10.
Proof.
  split; [reflexivity|]. split; [reflexivity|].
  eexists. split; [vm_compute; reflexivity|].
  repeat split; try (vm_compute; reflexivity). vm_compute. discriminate.
Qed.

(** An override that the constructor kept is what every measurement
    records for its domain, whatever the sampler said. *)
Section Override.

Variable force : config -> option Q.
Variable watts : measurement -> Q.

Hypothesis force_applied :
  forall w s s' l m,
    recorded w s s' l m -> exists sampled, watts m = num_or (force (cfg s)) sampled.

Lemma override_recorded o u1 u2 em es v :
  force (cfg (new o u1 u2 em)) = Some v -> truthy v = true ->
  Forall (fun m => watts m = v)
    (measurements (state_after es (new o u1 u2 em))).
Proof.
  intros Hf Ht.
  apply (session_invariant
           (fun s => force (cfg s) = Some v ->
                     Forall (fun m => watts m = v) (measurements s))).
  - intros s s' Hc (_ & _ & _ & _ & Hm) HP. rewrite Hc, Hm. exact HP.
  - intros s (_ & _ & _ & _ & Hm) _. rewrite Hm. constructor.
  - intros w s s' l _ Hc Hout HP Hs'. rewrite Hc in Hs'.
    destruct Hout as [(_ & _ & _ & _ & Hm) _ | m Hr].
    + rewrite Hm. auto.
    + destruct (force_applied w s s' l m Hr) as (sampled & Hw).
      destruct Hr as [? ? ? ? ? ? ? ? ? _ _ _ _ Hm _].
      rewrite Hm. apply Forall_app. split; [auto|].
      constructor; [|constructor].
      rewrite Hw, Hs'. unfold num_or. now rewrite Ht.
  - now rewrite session_cfg.
Qed.

End Override.

Lemma nonzero_truthy v : ~ v == 0 -> truthy v = true.
Proof.
  intros Hv. unfold truthy. destruct (Qeq_bool v 0) eqn:Eb; [|reflexivity].
  apply Qeq_bool_eq in Eb. contradiction.
Qed.

Lemma constructor_keeps_nonzero x v :
  x = Some v -> ~ v == 0 -> num_or_null x = Some v.
Proof.
  intros -> Hv. unfold num_or_null. now rewrite (nonzero_truthy v Hv).
Qed.

(** X1.  A non-zero override of a domain, given to the constructor, is
    the wattage every recorded tick of every session uses for that
    domain. *)
Theorem nonzero_overrides_used o u1 u2 em es :
  let s := state_after es (new o u1 u2 em) in
  (forall v, o_forceCpuPower o = Some v -> ~ v == 0 ->
             Forall (fun m => cpuPower m = v) (measurements s)) /\
  (forall v, o_forceRamPower o = Some v -> ~ v == 0 ->
             Forall (fun m => ramPower m = v) (measurements s)) /\
  (forall v, o_forceGpuPower o = Some v -> ~ v == 0 ->
             Forall (fun m => gpuPower m = v) (measurements s)).
Proof.
  intros s. unfold s. repeat split; intros v Ho Hv.
  - apply (override_recorded forceCpuPower cpuPower);
      [ intros w s0 s' l m [? ? ? ? ? ? ? ? ? _ _ _ _ _ _ _ H _]; eauto
      | now apply constructor_keeps_nonzero | now apply nonzero_truthy ].
  - apply (override_recorded forceRamPower ramPower);
      [ intros w s0 s' l m [? ? ? ? ? ? ? ? ? _ _ _ _ _ _ _ _ H _]; eauto
      | now apply constructor_keeps_nonzero | now apply nonzero_truthy ].
  - apply (override_recorded forceGpuPower gpuPower);
      [ intros w s0 s' l m [? ? ? ? ? ? ? ? ? _ _ _ _ _ _ _ _ _ H _]; eauto
      | now apply constructor_keeps_nonzero | now apply nonzero_truthy ].
Qed.

Lemma nonzero_overrides_used_witness :
  Forall (fun m => cpuPower m = 65)
    (measurements
       (state_after
          [Start (Scenario.at_time Scenario.workstation 0)
                 (Scenario.at_time Scenario.workstation 0);
           Tick (Scenario.at_time Scenario.workstation 1000)]
          (Scenario.scenario_tracker None Scenario.no_table))).
Proof.
  apply (proj1 (nonzero_overrides_used (Scenario.scenario_options None)
                  "run" "experiment" Scenario.no_table
                  [Start (Scenario.at_time Scenario.workstation 0)
                         (Scenario.at_time Scenario.workstation 0);
                   Tick (Scenario.at_time Scenario.workstation 1000)]) 65).
  - reflexivity.
  - vm_compute. discriminate.
Defined.

(** ** The elapsed time of a tick *)

(** C4 (counterexample).  After a start at 2000 ms (whose tick records
    the full interval of 15 s, not the 0 s since the start), a tick at a
    clock reading of 1000 ms records an elapsed time of -1 s, where the
    clamp would give 0. *)
Lemma C4_counterexample :
  exists p m,
    measurements (state_after clock_set_back Scenario.default_tracker) = [p; m] /\
    timestamp p = 2000%Z /\ duration p == 15 /\
    ~ duration p == clamped_elapsed 2000 2000 /\
    timestamp m = 1000%Z /\ duration m == -1 /\
    ~ duration m == clamped_elapsed (timestamp m) (timestamp p).
Proof.
  do 2 eexists. split; [vm_compute; reflexivity|].
  repeat split; try (vm_compute; reflexivity); vm_compute; discriminate.
Qed.

(** C4 (as amended).  A tick that records a measurement stamps it with
    the clock reading and integrates over this elapsed time: the
    configured interval when the log is empty, otherwise the difference
    to the stamp of the last measurement, in seconds and unclamped; it
    agrees with the clamp when the clock has not gone back and is
    negative when it has. *)
Theorem C4_elapsed_time w s r s' l m :
  isTracking s = true ->
  measurePowerAndEnergy w s = (r, s', l) ->
  measurements s' = (measurements s ++ [m])%list ->
  timestamp m = now w /\
  (measurements s = [] -> duration m = measurePowerInterval (cfg s) / 1000) /\
  (forall p, last (measurements s) = Some p ->
     duration m = inject_Z (now w - timestamp p) / 1000 /\
     ((timestamp p <= now w)%Z ->
      duration m == clamped_elapsed (now w) (timestamp p)) /\
     ((now w < timestamp p)%Z -> duration m < 0)) /\
  cpuEnergy m = cpuPower m * duration m / (1000 * 3600) * pue (cfg s) /\
  ramEnergy m = ramPower m * duration m / (1000 * 3600) * pue (cfg s) /\
  gpuEnergy m = gpuPower m * duration m / (1000 * 3600) * pue (cfg s).
Proof.
  intros Ht E Hm.
  destruct (measure_recorded w s r s' l m Ht E Hm)
    as [? ? ? ? ? ? ? ? ? _ _ _ _ _ Hts Hd _ _ _ _ Hce Hre Hge _ _ _ _ _].
  split; [assumption|]. split; [|split; [|repeat split; assumption]].
  - intros Hnil. rewrite Hd. unfold timeSinceLastMeasurement. now rewrite Hnil.
  - intros p Hp. rewrite Hd. unfold timeSinceLastMeasurement. rewrite Hp.
    split; [reflexivity|]. unfold clamped_elapsed.
    assert (Hk : inject_Z (now w - timestamp p) / 1000
                 == inject_Z (now w - timestamp p) * (1 # 1000)) by reflexivity.
    split.
    + intros Hle. symmetry. apply Q.max_r. rewrite Hk.
      apply Qmult_le_0_compat; [|discriminate].
      change 0 with (inject_Z 0). rewrite <- Zle_Qle. lia.
    + intros Hlt. rewrite Hk.
      assert (Hneg : inject_Z (now w - timestamp p) < 0).
      { change 0 with (inject_Z 0). rewrite <- Zlt_Qlt. lia. }
      lra.
Qed.

Lemma C4_elapsed_time_witness :
  let s := state_after
             [Start (Scenario.at_time Scenario.laptop 0)
                    (Scenario.at_time Scenario.laptop 0)]
             Scenario.default_tracker in
  let w := Scenario.at_time Scenario.laptop 4000 in
  exists p m,
    measurements s = [p] /\
    measurements (state_after [Tick w] s) = [p; m] /\
    timestamp m = 4000%Z /\
    duration m = inject_Z (4000 - timestamp p) / 1000.
Proof.
  cbv zeta.
  set (s := state_after _ Scenario.default_tracker).
  set (w := Scenario.at_time Scenario.laptop 4000).
  destruct (measurePowerAndEnergy w s) as [[r s'] l] eqn:E.
  assert (Hs : exists p, measurements s = [p]) by (eexists; vm_compute; reflexivity).
  destruct Hs as (p & Hp).
  assert (Hs' : exists m, measurements s' = (measurements s ++ [m])%list).
  { replace s' with (snd (fst (measurePowerAndEnergy w s))) by now rewrite E.
    eexists. vm_compute. reflexivity. }
  destruct Hs' as (m & Hm).
  assert (Ht : isTracking s = true) by reflexivity.
  destruct (C4_elapsed_time w s r s' l m Ht E Hm) as (Hts & _ & Hd & _).
  exists p, m. split; [assumption|].
  split.
  { replace (state_after [Tick w] s) with s'.
    - rewrite Hm, Hp. reflexivity.
    - replace s' with (snd (fst (measurePowerAndEnergy w s))) by now rewrite E.
      vm_compute. reflexivity. }
  split; [exact Hts|].
  apply (Hd p). rewrite Hp. reflexivity.
Defined.

(** ** Monotone accumulators *)


Lemma num_or_nonneg x d : nonneg_override x -> 0 <= d -> 0 <= num_or x d.
Proof.
  unfold num_or, nonneg_override. destruct x as [v|]; [|trivial].
  destruct (truthy v); trivial.
Qed.

Lemma increment_nonneg watts elapsed pue :
  0 <= watts -> 0 <= elapsed -> 0 <= pue ->
  0 <= watts * elapsed / (1000 * 3600) * pue.
Proof.
  intros Hw He Hp. apply Qmult_le_0_compat; [|assumption].
  unfold Qdiv. apply Qmult_le_0_compat; [|discriminate].
  apply Qmult_le_0_compat; assumption.
Qed.

Lemma elapsed_nonneg s w :
  0 <= measurePowerInterval (cfg s) -> clock_forward s w ->
  0 <= timeSinceLastMeasurement s (now w).
Proof.
  unfold clock_forward, timeSinceLastMeasurement. intros Hi Hc.
  destruct (last (measurements s)) as [p|].
  - unfold Qdiv. apply Qmult_le_0_compat; [|discriminate].
    change 0 with (inject_Z 0). rewrite <- Zle_Qle. lia.
  - unfold Qdiv. apply Qmult_le_0_compat; [assumption|discriminate].
Qed.

Lemma accumulators_grow_refl s : accumulators_grow s s.
Proof. repeat split; apply Qle_refl. Qed.

Lemma accumulators_grow_energy s s' s'' :
  accumulators_grow s s' -> same_energy s' s'' -> accumulators_grow s s''.
Proof.
  intros (G1 & G2 & G3) (E1 & E2 & E3 & _). unfold accumulators_grow.
  rewrite E1, E2, E3. auto.
Qed.

(** One measurement under the three assumptions. *)
Lemma measure_grows w s r s' l :
  isTracking s = true -> hw_ok s ->
  nonneg_config (cfg s) -> load_nonneg w -> clock_forward s w ->
  measurePowerAndEnergy w s = (r, s', l) ->
  accumulators_grow s s'.
Proof.
  intros Ht Hwf (Hpue & Hint & Hfc & Hfr & Hfg) Hload Hclock E.
  destruct (measure_tracking w s Ht) as (s1 & l1 & E1 & _ & Ho).
  rewrite E in E1. injection E1 as -> <- <-.
  destruct Ho as [He _ | m Hr].
  - eapply accumulators_grow_energy; [apply accumulators_grow_refl | exact He].
  - destruct Hr as [c h1 l1 r h2 l2 g h3 l3 Ec Er Eg _ _ _ Hd Hcp Hrp Hgp _
                      Hce Hre Hge Htc Htr Htg _ _].
    destruct (HardwareFacts.estimateCPUPower_total (sys w) (hardwareTracker s) Hwf)
      as (c' & h1' & l1' & Ec' & Hwf1 & _ & _ & Hp & Htdp & _).
    rewrite Ec in Ec'. injection Ec' as <- <- <-.
    destruct (HardwareFacts.getRAMInfo_cases (sys w) h1 Hwf1)
      as (h2' & l2' & Hwf2 & [(r' & Er' & _ & k & Hk & Hrpow) | (e & Er' & _)]);
      rewrite Er in Er'; [injection Er' as <- <- <- | discriminate].
    destruct (HardwareFacts.getGPUInfo_total (sys w) h2 Hwf2)
      as (g' & h3' & l3' & Eg' & _ & _ & Hgpow).
    rewrite Eg in Eg'. injection Eg' as <- <- <-.
    assert (Hd0 : 0 <= duration m) by (rewrite Hd; now apply elapsed_nonneg).
    assert (Hc0 : 0 <= cpuPower m).
    { rewrite Hcp. apply num_or_nonneg; [assumption|]. rewrite Hp.
      apply Qmult_le_0_compat.
      - rewrite Htdp. apply HardwareFacts.estimateTDPFromModel_nonneg.
      - assert (Hl : 0 <= observed_load (sys w)).
        { unfold observed_load. unfold load_nonneg in Hload.
          destruct (HardwareTracker.si_currentLoad (sys w)); [assumption|discriminate]. }
        assert (Hl' : 0 <= observed_load (sys w) / 100 * (5 # 10)).
        { unfold Qdiv. repeat apply Qmult_le_0_compat; (assumption || discriminate). }
        lra. }
    assert (Hr0 : 0 <= ramPower m).
    { rewrite Hrp. apply num_or_nonneg; [assumption|]. rewrite Hrpow.
      apply Qmult_le_0_compat; [|discriminate].
      change 0 with (inject_Z 0). rewrite <- Zle_Qle. lia. }
    assert (Hg0 : 0 <= gpuPower m).
    { rewrite Hgp. apply num_or_nonneg; assumption. }
    pose proof (increment_nonneg _ _ _ Hc0 Hd0 Hpue) as Ic.
    pose proof (increment_nonneg _ _ _ Hr0 Hd0 Hpue) as Ir.
    pose proof (increment_nonneg _ _ _ Hg0 Hd0 Hpue) as Ig.
    rewrite <- Hce in Ic. rewrite <- Hre in Ir. rewrite <- Hge in Ig.
    unfold accumulators_grow. rewrite Htc, Htr, Htg. repeat split; lra.
Qed.

Lemma reachable_hw_ok o u1 u2 em es : hw_ok (state_after es (new o u1 u2 em)).
Proof. apply run_evolves, new_hw_ok. Qed.



(** ** A failing sampler *)

(** C8 (counterexample).  When the load query fails on the very first
    tick the CPU is recorded at 48.75 W (a load of 50 % on a 65 W part),
    not at 0 W; when it fails on a later tick the CPU is again recorded at
    48.75 W, not at the 65 W last observed. *)
Lemma C8_counterexample :
  (exists m,
     measurements (state_after first_tick_without_load Scenario.default_tracker)
       = [m] /\
     cpuUsage m == 50 /\ cpuPower m == 195 # 4 /\ ~ cpuPower m == 0) /\
  (exists p m,
     measurements (state_after load_lost_on_second_tick Scenario.default_tracker)
       = [p; m] /\
     cpuPower p == 65 /\ cpuPower m == 195 # 4 /\ ~ cpuPower m == cpuPower p).
Proof.
  split.
  - eexists. split; [vm_compute; reflexivity|].
    repeat split; try (vm_compute; reflexivity). vm_compute. discriminate.
  - do 2 eexists. split; [vm_compute; reflexivity|].
    repeat split; try (vm_compute; reflexivity). vm_compute. discriminate.
Qed.

Lemma estimateTDPFromModel_range model :
  15 <= HardwareTracker.estimateTDPFromModel model /\
  HardwareTracker.estimateTDPFromModel model <= 280.
Proof.
  unfold HardwareTracker.estimateTDPFromModel.
  repeat match goal with |- context [if ?b then _ else _] => destruct b end;
    split; discriminate.
Qed.

Lemma estimateGPUPower_range model :
  150 <= HardwareTracker.estimateGPUPower model /\
  HardwareTracker.estimateGPUPower model <= 450.
Proof.
  unfold HardwareTracker.estimateGPUPower.
  repeat match goal with |- context [if ?b then _ else _] => destruct b end;
    split; discriminate.
Qed.

Lemma estimateCPUPower_model sys h c h' l :
  HardwareTracker.estimateCPUPower sys h = (Normal c, h', l) ->
  HardwareTracker.cp_model c = cpu_model sys h.
Proof.
  unfold HardwareTracker.estimateCPUPower, HardwareTracker.getCPUInfo,
    HardwareTracker.getCPUUsage, HardwareTracker.ensure_initialized,
    HardwareTracker.initialize, cpu_model, cpu_description.
  unfold try_catch, bind, get, gets, ret, await, modify, console_error,
    console_warn.
  destruct (HardwareTracker.isInitialized h); cbn.
  - destruct (HardwareTracker.si_currentLoad sys); cbn; intros [= <- _ _];
      reflexivity.
  - destruct (HardwareTracker.si_cpu sys) as [c0|]; cbn;
      [destruct (HardwareTracker.si_mem sys) as [m0|]; cbn;
       [destruct (HardwareTracker.si_graphics sys) as [g0|]; cbn|]|];
      destruct (HardwareTracker.si_currentLoad sys); cbn; intros [= <- _ _];
      reflexivity.
Qed.

(** C8 (as amended).  A tick of a running session never throws, leaves
    the session running and always records: it appends one measurement
    and advances each accumulator by that measurement's increment,
    whatever queries of the sampler fail (the memory the tick needs was
    described when the session started, and a failing retry of the
    initialization is caught inside the sampler).  When the load query
    fails, a warning is logged and a load of 50 % stands in: the CPU
    power is the override, if a non-zero one is configured, and
    otherwise three quarters of what [estimateTDPFromModel] rates the
    processor at, by its cached brand or as "Unknown CPU"; it is neither
    the value last observed nor 0. *)
Theorem C8_sampler_failure o u1 u2 em es w :
  let s := state_after es (new o u1 u2 em) in
  isTracking s = true ->
  exists s' l m,
    measurePowerAndEnergy w s = (Normal tt, s', l) /\
    isTracking s' = true /\
    measurements s' = (measurements s ++ [m])%list /\
    totalCpuEnergy s' = totalCpuEnergy s + cpuEnergy m /\
    totalRamEnergy s' = totalRamEnergy s + ramEnergy m /\
    totalGpuEnergy s' = totalGpuEnergy s + gpuEnergy m /\
    cpuEnergy m = cpuPower m * duration m / (1000 * 3600) * pue (cfg s) /\
    (forall e,
       HardwareTracker.si_currentLoad (sys w) = Thrown e ->
       In (WARN, "Could not get CPU usage:") l /\
       cpuUsage m = 50 /\
       cpuPower m =
         num_or (forceCpuPower (cfg s))
           (HardwareTracker.estimateTDPFromModel
              (cpu_model (sys w) (hardwareTracker s))
            * ((5 # 10) + (50 / 100) * (5 # 10))) /\
       (forceCpuPower (cfg s) = None ->
        cpuPower m ==
          (3 # 4) * HardwareTracker.estimateTDPFromModel
                      (cpu_model (sys w) (hardwareTracker s)) /\
        15 * (3 # 4) <= cpuPower m)).
Proof.
  intros s Ht.
  destruct (lifecycle_preserved es (new o u1 u2 em)
              (new_hw_ok o u1 u2 em) (new_lifecycle o u1 u2 em))
    as (Hwf & Hon & _).
  fold s in Hwf, Hon. destruct (Hon Ht) as (Hs & _).
  destruct (measure_running w s Ht Hwf Hs)
    as (s' & l & m & E & _ & _ & Hf & Hr).
  exists s', l, m. split; [exact E|].
  split; [destruct Hf as (_ & -> & _); exact Ht|].
  destruct Hr as [c h1 lc rr h2 l2 g h3 l3 Ec _ _ (l4 & -> & _) Hm _ _ Hcp _ _ Hu
                    Hce _ _ Htc Htr Htg _ _].
  repeat (split; [assumption|]).
  intros e Hload.
  destruct (HardwareFacts.estimateCPUPower_total (sys w) (hardwareTracker s) Hwf)
    as (c' & h1' & l1' & Ec' & _ & _ & Hu' & Hp & Htdp & Hwarn).
  rewrite Ec in Ec'. injection Ec' as <- <- <-.
  unfold observed_load in Hu', Hp. rewrite Hload in Hu', Hp.
  rewrite (estimateCPUPower_model _ _ _ _ _ Ec) in Htdp.
  split; [apply in_or_app; left; eapply Hwarn; eassumption|].
  split; [congruence|].
  assert (Hpow : cpuPower m =
                 num_or (forceCpuPower (cfg s))
                   (HardwareTracker.estimateTDPFromModel
                      (cpu_model (sys w) (hardwareTracker s))
                    * ((5 # 10) + (50 / 100) * (5 # 10))))
    by (rewrite Hcp, Hp, Htdp; reflexivity).
  split; [exact Hpow|].
  intros Hnone. rewrite Hpow, Hnone. cbn [num_or].
  pose proof (estimateTDPFromModel_range (cpu_model (sys w) (hardwareTracker s)))
    as (Hlo & _).
  set (tdp := HardwareTracker.estimateTDPFromModel _) in *. clearbody tdp.
  assert (E34 : tdp * ((5 # 10) + 50 / 100 * (5 # 10)) == (3 # 4) * tdp)
    by field.
  rewrite E34. split; [reflexivity | lra].
Qed.

Lemma C8_sampler_failure_witness :
  exists s' l m,
    measurePowerAndEnergy (Scenario.at_time Scenario.laptop_no_load 1000)
      (state_after
         [Start (Scenario.at_time Scenario.laptop 0)
                (Scenario.at_time Scenario.laptop 0)]
         Scenario.default_tracker) = (Normal tt, s', l) /\
    isTracking s' = true /\
    length (measurements s') = 2%nat /\
    last (measurements s') = Some m /\
    In (WARN, "Could not get CPU usage:") l /\
    cpuUsage m = 50 /\ cpuPower m == 195 # 4.
Proof.
  destruct (C8_sampler_failure no_options "run" "experiment" Scenario.no_table
              [Start (Scenario.at_time Scenario.laptop 0)
                     (Scenario.at_time Scenario.laptop 0)]
              (Scenario.at_time Scenario.laptop_no_load 1000))
    as (s' & l & m & E & Ht & Hm & _ & _ & _ & _ & Hload).
  - vm_compute. reflexivity.
  - destruct (Hload "Error: currentLoad") as (Hw & Hu & Hp & _);
      [reflexivity|].
    exists s', l, m. split; [exact E|]. split; [exact Ht|].
    rewrite Hm. split; [rewrite length_app; reflexivity|].
    split; [apply last_snoc|]. split; [exact Hw|]. split; [exact Hu|].
    rewrite Hp. vm_compute. reflexivity.
Defined.

(** ** Starting and stopping at once *)

(** The result object depends on the configuration, the energy state,
    the two time stamps, the location and the system information. *)
Lemma calculateFinalEmissions_ext s s' r l :
  cfg s' = cfg s -> same_energy s s' ->
  startTime s' = startTime s -> endTime s' = endTime s ->
  locationInfo s' = locationInfo s -> systemInfo s' = systemInfo s ->
  calculateFinalEmissions s = (r, s, l) ->
  calculateFinalEmissions s' = (r, s', l).
Proof.
  intros Hc (E1 & E2 & E3 & E4 & E5) Hst Hen Hli Hsi.
  unfold calculateFinalEmissions, calculateAverageCpuUsage, bind, get, ret, throw.
  rewrite Hc, E1, E2, E3, E4, E5, Hst, Hen, Hli, Hsi.
  destruct (locationInfo s) as [loc|]; [|intros [= <- <-]; reflexivity].
  destruct (systemInfo s) as [info|]; [|intros [= <- <-]; reflexivity].
  destruct (Emissions.calculateEmissions (emissions (cfg s)) (totalEnergy s)
              (Geography.countryCode loc)) as [kg out].
  cbn. intros [= <- <-]. reflexivity.
Qed.

Lemma zero_elapsed_increment watts elapsed pue :
  elapsed == 0 -> watts * elapsed / (1000 * 3600) * pue == 0.
Proof. intros ->. unfold Qdiv. ring. Qed.

(** C2 (counterexample).  [start()] immediately followed by [stop()],
    all at the same clock reading, records two measurements, not one,
    and accumulates the energy of a full interval: 75 W for 1 s. *)
Lemma C2_counterexample :
  length (measurements started_and_stopped) = 2%nat /\
  length (measurements started_and_stopped) <> 1%nat /\
  totalEnergy started_and_stopped == 75 / 3600000 /\
  ~ totalEnergy started_and_stopped == 0.
Proof.
  repeat split; try (vm_compute; reflexivity); vm_compute; discriminate.
Qed.

(** The state after one [start()] event is the state [start()] leaves. *)
Lemma state_after_start init first s s' l :
  start init first s = (Normal tt, s', l) ->
  state_after [Start init first] s = s'.
Proof.
  intros E. unfold state_after. cbn [run step]. unfold bind at 1.
  rewrite E. reflexivity.
Qed.

(** C2 (as amended).  When [start()] succeeds and [stop()] follows with
    no time elapsed (every clock reading is the one of the start), two
    measurements are recorded: the start tick, over the full configured
    interval, and the final tick, over 0 s, which adds no energy.  The
    accumulated energy is that of the start tick, the reported duration
    is 0, the emissions rate is 0 by its guard, the emissions are the
    intensity of the country times that energy, and [stop()] returns
    them without throwing. *)
Theorem C2_start_then_stop o u1 u2 em es init first final write :
  let t0 := state_after es (new o u1 u2 em) in
  let s1 := state_after [Start init first] t0 in
  isTracking t0 = false ->
  now first = now init -> now final = now init ->
  isTracking s1 = true ->
  exists m1 m2 s2 l2 res lr loc,
    measurements s1 = [m1] /\
    duration m1 = measurePowerInterval (cfg t0) / 1000 /\
    stop final (now init) write s1 = (Normal (r_emissions res), s2, l2) /\
    measurements s2 = [m1; m2] /\
    duration m2 == 0 /\
    cpuEnergy m2 == 0 /\ ramEnergy m2 == 0 /\ gpuEnergy m2 == 0 /\
    totalEnergy s2 ==
      (cpuPower m1 + ramPower m1 + gpuPower m1)
      * (measurePowerInterval (cfg t0) / 1000) / 3600000 * pue (cfg t0) /\
    calculateFinalEmissions s2 = (Normal res, s2, lr) /\
    r_measurements res = 2%nat /\
    r_energyConsumed res = totalEnergy s2 /\
    r_duration res == 0 /\
    r_emissionsRate res = Finite 0 /\
    locationInfo s2 = Some loc /\
    r_emissions res =
      match fst (Emissions.getCarbonIntensity (emissions (cfg t0))
                   (Geography.countryCode loc)) with
      | Finite ci => Finite (ci / 1000 * totalEnergy s2)
      | NaN | Undefined => NaN
      end.
Proof.
  intros t0 s1 Hidle Hfirst Hfinal Hrun.
  assert (Hwf0 : hw_ok t0) by apply reachable_hw_ok.
  (* start() *)
  destruct (start_idle init first t0 Hidle Hwf0)
    as (s1' & l1 & E & Hc1 & Hwf1 & _ & Hcase).
  assert (Hs1 : s1 = s1') by (apply (state_after_start init first t0 s1' l1 E)).
  clearbody s1. subst s1'.
  destruct Hcase as [(Hoff & _) | (s0 & l0 & Hc0 & Ht0 & Hr0 & Hst0 & _ & Hwfs0
                                     & Hsamp0 & Hsi0 & Hli0 & E0)];
    [congruence|].
  destruct Hr0 as (Z1 & Z2 & Z3 & Z4 & Z5).
  destruct (measure_tracking first s0 Ht0) as (sx & lx & Ex & Hfx & _).
  rewrite E0 in Ex. injection Ex as <- <-.
  destruct Hfx as (Hcx & _ & Hstx & _ & _ & _ & Hsix & Hlix).
  destruct (measure_sampling first s0 Ht0 Hwfs0) as (sy & ly & Ey & _ & Hy).
  rewrite E0 in Ey. injection Ey as <- <-.
  destruct (Hy Hsamp0) as (Hsamp1 & m1 & Hm1).
  destruct (measure_recorded first s0 (Normal tt) s1 l0 m1 Ht0 E0 Hm1)
    as [c h1 lc rr h2 lr' g h3 lg _ _ _ _ _ Hts1 Hd1 _ _ _ _ Hce1 Hre1 Hge1
          Htc1 Htr1 Htg1 Htot1 _].
  rewrite Z5 in Hm1. cbn [app] in Hm1.
  assert (Hdur1 : duration m1 = measurePowerInterval (cfg t0) / 1000).
  { rewrite Hd1. unfold timeSinceLastMeasurement. rewrite Z5. cbn. now rewrite Hc0. }
  (* stop() *)
  destruct (stop_tracking final (now init) write s1 Hrun Hwf1)
    as (sf & lf & r & lr & s2 & l2 & v & Ef & Er & Es & He & Hc2 & _ & _ & _
        & Hst2 & Hen2 & Hli2 & Hsi2 & Hv).
  set (sc := set_measurementInterval None s1) in *.
  assert (Htc : isTracking sc = true) by exact Hrun.
  assert (Hwfc : hw_ok sc) by exact Hwf1.
  destruct (measure_tracking final sc Htc) as (sz & lz & Ez & Hfz & _).
  rewrite Ef in Ez. injection Ez as <- <-.
  destruct Hfz as (Hcz & _ & Hstz & _ & _ & _ & Hsiz & Hliz).
  destruct (measure_sampling final sc Htc Hwfc) as (su & lu & Eu & _ & Hu).
  rewrite Ef in Eu. injection Eu as <- <-.
  destruct (Hu Hsamp1) as (_ & m2 & Hm2).
  destruct (measure_recorded final sc (Normal tt) sf lf m2 Htc Ef Hm2)
    as [c2 k1 lc2 rr2 k2 lr2 g2 k3 lg2 _ _ _ _ _ _ Hd2 _ _ _ _ Hce2 Hre2 Hge2
          Htc2 Htr2 Htg2 Htot2 _].
  change (measurements sc) with (measurements s1) in Hm2.
  rewrite Hm1 in Hm2. cbn [app] in Hm2.
  assert (Hdur2 : duration m2 == 0).
  { rewrite Hd2. unfold timeSinceLastMeasurement.
    change (measurements sc) with (measurements s1). rewrite Hm1. cbn [last].
    rewrite Hts1, Hfinal, Hfirst, Z.sub_diag. reflexivity. }
  change (cfg sc) with (cfg s1) in *.
  change (totalCpuEnergy sc) with (totalCpuEnergy s1) in *.
  change (totalRamEnergy sc) with (totalRamEnergy s1) in *.
  change (totalGpuEnergy sc) with (totalGpuEnergy s1) in *.
  assert (Hz2c : cpuEnergy m2 == 0)
    by (rewrite Hce2; now apply zero_elapsed_increment).
  assert (Hz2r : ramEnergy m2 == 0)
    by (rewrite Hre2; now apply zero_elapsed_increment).
  assert (Hz2g : gpuEnergy m2 == 0)
    by (rewrite Hge2; now apply zero_elapsed_increment).
  destruct He as (F1 & F2 & F3 & F4 & F5).
  (* the result object *)
  destruct (locationInfo s0) as [loc|] eqn:Hloc0; [|congruence].
  destruct (systemInfo s0) as [info|] eqn:Hsys0; [|congruence].
  assert (Hlf : locationInfo (finalized (now init) sf) = Some loc).
  { change (locationInfo sf = Some loc). rewrite Hliz.
    change (locationInfo s1 = Some loc). congruence. }
  assert (Hsf : systemInfo (finalized (now init) sf) = Some info).
  { change (systemInfo sf = Some info). rewrite Hsiz.
    change (systemInfo s1 = Some info). congruence. }
  destruct (calculateFinalEmissions_ok (finalized (now init) sf) loc info Hlf Hsf)
    as (res & lres & Eres & Hkg & Hdur & Hrate & Hen & Hcount & _ & _).
  rewrite Er in Eres. injection Eres as -> <-. subst v.
  assert (Eres2 : calculateFinalEmissions s2 = (Normal res, s2, lr)).
  { apply (calculateFinalEmissions_ext (finalized (now init) sf) s2);
      [ | repeat split; assumption | | | | | exact Er].
    - change (cfg s2 = cfg sf). congruence.
    - change (startTime s2 = startTime sf). rewrite Hst2, Hstz. reflexivity.
    - exact Hen2.
    - change (locationInfo s2 = locationInfo sf). rewrite Hli2, Hliz. reflexivity.
    - change (systemInfo s2 = systemInfo sf). rewrite Hsi2, Hsiz. reflexivity. }
  assert (Hdur0 : r_duration res = inject_Z 0 / 1000).
  { rewrite Hdur. change (endTime (finalized (now init) sf)) with (Some (now init)).
    change (startTime (finalized (now init) sf)) with (startTime sf).
    rewrite Hstz. change (startTime sc) with (startTime s1).
    rewrite Hstx, Hst0. cbn [time_or_0 default]. now rewrite Z.sub_diag. }
  exists m1, m2, s2, l2, res, lr, loc.
  split; [exact Hm1|]. split; [exact Hdur1|]. split; [exact Es|].
  split; [rewrite F5; exact Hm2|]. split; [exact Hdur2|].
  split; [exact Hz2c|]. split; [exact Hz2r|]. split; [exact Hz2g|].
  split.
  { rewrite F4, Htot2, Htc2, Htr2, Htg2, Hz2c, Hz2r, Hz2g.
    rewrite Htc1, Htr1, Htg1, Z1, Z2, Z3, Hce1, Hre1, Hge1, Hdur1, Hc0.
    field. }
  split; [exact Eres2|].
  split; [rewrite Hcount; change (length (measurements sf) = 2%nat);
          now rewrite Hm2|].
  split; [rewrite Hen; change (totalEnergy sf = totalEnergy s2); now rewrite F4|].
  split; [rewrite Hdur0; reflexivity|].
  split; [rewrite Hrate, Hdur0; reflexivity|].
  split; [rewrite Hli2; change (locationInfo s1) with (locationInfo sc);
          rewrite <- Hliz; exact Hlf|].
  change (emissions (cfg (finalized (now init) sf))) with (emissions (cfg sf)) in Hkg.
  change (totalEnergy (finalized (now init) sf)) with (totalEnergy sf) in Hkg.
  unfold Emissions.calculateEmissions in Hkg.
  rewrite Hcz, Hcx, Hc0 in Hkg. rewrite F4.
  destruct (Emissions.getCarbonIntensity (emissions (cfg t0))
              (Geography.countryCode loc)) as [[ci| |] out];
    injection Hkg as -> _; reflexivity.
Qed.

Lemma C2_start_then_stop_witness :
  let w0 := Scenario.at_time Scenario.laptop 0 in
  let s1 := state_after [Start w0 w0] Scenario.default_tracker in
  exists m2 s2 l2 res,
    stop w0 0 (Normal tt) s1 = (Normal (r_emissions res), s2, l2) /\
    length (measurements s2) = 2%nat /\
    last (measurements s2) = Some m2 /\
    duration m2 == 0 /\
    r_emissionsRate res = Finite 0.
Proof.
  cbv zeta.
  destruct (C2_start_then_stop no_options "run" "experiment" Scenario.no_table []
              (Scenario.at_time Scenario.laptop 0)
              (Scenario.at_time Scenario.laptop 0)
              (Scenario.at_time Scenario.laptop 0) (Normal tt))
    as (m1 & m2 & s2 & l2 & res & lr & loc & _ & _ & Es & Hm & Hd & _ & _ & _ & _
        & _ & _ & _ & _ & Hrate & _).
  - reflexivity.
  - reflexivity.
  - reflexivity.
  - vm_compute. reflexivity.
  - exists m2, s2, l2, res.
    split; [exact Es|]. rewrite Hm.
    split; [reflexivity|]. split; [reflexivity|]. split; assumption.
Defined.

(** ** Emissions, rate and a second start *)

(** X2.  The result object reports as emissions the intensity of the
    country (grams per kWh over 1000) times the total energy, and [NaN]
    when the lookup gave no number, as duration the difference of the
    two time stamps in seconds, and as rate the emissions over the
    duration when that is positive and 0 otherwise. *)
Theorem emissions_and_rate_guard s res s' l :
  calculateFinalEmissions s = (Normal res, s', l) ->
  exists loc,
    locationInfo s = Some loc /\
    r_emissions res =
      match fst (Emissions.getCarbonIntensity (emissions (cfg s))
                   (Geography.countryCode loc)) with
      | Finite ci => Finite (ci / 1000 * totalEnergy s)
      | NaN | Undefined => NaN
      end /\
    r_duration res =
      inject_Z (time_or_0 (endTime s) - time_or_0 (startTime s)) / 1000 /\
    (r_duration res <= 0 -> r_emissionsRate res = Finite 0) /\
    (0 < r_duration res ->
     r_emissionsRate res =
       match r_emissions res with
       | Finite kg => Finite (kg / r_duration res)
       | NaN | Undefined => NaN
       end).
Proof.
  intros E.
  destruct (locationInfo s) as [loc|] eqn:Hl.
  2:{ unfold calculateFinalEmissions, bind, get, throw in E. rewrite Hl in E.
      discriminate. }
  destruct (systemInfo s) as [info|] eqn:Hs.
  2:{ unfold calculateFinalEmissions, bind, get, throw in E. rewrite Hl, Hs in E.
      discriminate. }
  destruct (calculateFinalEmissions_ok s loc info Hl Hs)
    as (res' & l' & E' & Hkg & Hdur & Hrate & _).
  rewrite E in E'. injection E' as <- _ _.
  exists loc. split; [reflexivity|].
  unfold Emissions.calculateEmissions in Hkg.
  destruct (Emissions.getCarbonIntensity (emissions (cfg s))
              (Geography.countryCode loc)) as [ci out].
  injection Hkg as Hkg _.
  split; [destruct ci; exact Hkg|]. split; [exact Hdur|]. rewrite Hrate. split.
  - intros Hle. apply Qle_bool_iff in Hle. now rewrite Hle.
  - intros Hlt. destruct (Qle_bool (r_duration res) 0) eqn:Eb; [|reflexivity].
    apply Qle_bool_iff in Eb. exfalso. apply (Qlt_not_le _ _ Hlt Eb).
Qed.

Lemma emissions_and_rate_guard_witness :
  exists res s' l,
    calculateFinalEmissions started_and_stopped = (Normal res, s', l) /\
    r_duration res == 0 /\ r_emissionsRate res = Finite 0.
Proof.
  destruct (calculateFinalEmissions started_and_stopped) as [[[res|e] s'] l] eqn:E.
  - exists res, s', l. split; [reflexivity|].
    destruct (emissions_and_rate_guard started_and_stopped res s' l E)
      as (loc & _ & _ & Hdur & Hzero & _).
    assert (Hd : r_duration res == 0) by (rewrite Hdur; vm_compute; reflexivity).
    split; [exact Hd|]. apply Hzero. rewrite Hd. apply Qle_refl.
  - exfalso.
    assert (H : fst (fst (calculateFinalEmissions started_and_stopped))
                = Thrown e) by now rewrite E.
    vm_compute in H. discriminate.
Defined.

(** X3.  [start()] on a tracker that is already tracking logs one
    warning and leaves every field, the accumulators and the start time
    among them, as it was. *)
Theorem start_when_running_is_noop init first s :
  isTracking s = true ->
  start init first s =
    (Normal tt, s, [(WARN, "Emissions tracking is already running")]).
Proof.
  intros H. unfold start, bind, gets. rewrite H. reflexivity.
Qed.

Lemma start_when_running_is_noop_witness :
  start (Scenario.at_time Scenario.laptop 5000) (Scenario.at_time Scenario.laptop 5000)
    started_at_2000 =
    (Normal tt, started_at_2000,
     [(WARN, "Emissions tracking is already running")]).
Proof.
  apply (start_when_running_is_noop
           (Scenario.at_time Scenario.laptop 5000)
           (Scenario.at_time Scenario.laptop 5000) started_at_2000).
  vm_compute. reflexivity.
Defined.

(** * Further properties of the code *)

(** ** hardware.js: the rating tables *)

Lemma lower_upper_ascii c : lower_ascii (upper_ascii c) = lower_ascii c.
Proof. destruct c as [[] [] [] [] [] [] [] []]; reflexivity. Qed.

Lemma lower_lower_ascii c : lower_ascii (lower_ascii c) = lower_ascii c.
Proof. destruct c as [[] [] [] [] [] [] [] []]; reflexivity. Qed.

Lemma toLowerCase_toUpperCase s : toLowerCase (toUpperCase s) = toLowerCase s.
Proof.
  induction s as [|c s IH]; cbn; [reflexivity|].
  now rewrite lower_upper_ascii, IH.
Qed.

Lemma toLowerCase_idempotent s : toLowerCase (toLowerCase s) = toLowerCase s.
Proof.
  induction s as [|c s IH]; cbn; [reflexivity|].
  now rewrite lower_lower_ascii, IH.
Qed.

(** X4.  The two rating tables match a model name whatever its case
    (upper-casing or lower-casing the name changes nothing), a CPU is
    rated between 15 W and 280 W and a GPU between 150 W and 450 W; and
    the CPU default of 85 W is given only to names that contain none of
    the letters u, y and h. *)
Theorem rating_tables_case_and_range model :
  HardwareTracker.estimateTDPFromModel (toUpperCase model)
    = HardwareTracker.estimateTDPFromModel model /\
  HardwareTracker.estimateTDPFromModel (toLowerCase model)
    = HardwareTracker.estimateTDPFromModel model /\
  HardwareTracker.estimateGPUPower (toUpperCase model)
    = HardwareTracker.estimateGPUPower model /\
  HardwareTracker.estimateGPUPower (toLowerCase model)
    = HardwareTracker.estimateGPUPower model /\
  15 <= HardwareTracker.estimateTDPFromModel model <= 280 /\
  150 <= HardwareTracker.estimateGPUPower model <= 450 /\
  (HardwareTracker.estimateTDPFromModel model == 85 ->
   includes (toLowerCase model) "u" = false /\
   includes (toLowerCase model) "y" = false /\
   includes (toLowerCase model) "h" = false).
Proof.
  unfold HardwareTracker.estimateTDPFromModel at 1 3,
         HardwareTracker.estimateGPUPower at 1 3.
  rewrite toLowerCase_toUpperCase, toLowerCase_idempotent.
  repeat split; try reflexivity;
    try apply estimateTDPFromModel_range; try apply estimateGPUPower_range.
  all: unfold HardwareTracker.estimateTDPFromModel in H;
    repeat match type of H with
           | context [if ?b then _ else _] => destruct b eqn:?
           end; try discriminate H; try reflexivity.
  all: match goal with
       | E : (_ || _)%bool = false |- _ => apply orb_false_elim in E; tauto
       end.
Qed.

(** ** hardware.js: the sampler *)

Lemma ensure_initialized_normal sys h :
  exists h' l, HardwareTracker.ensure_initialized sys h = (Normal tt, h', l).
Proof.
  unfold HardwareTracker.ensure_initialized, bind, gets.
  destruct (HardwareTracker.isInitialized h); cbn.
  - do 2 eexists. reflexivity.
  - destruct (HardwareFacts.initialize_total sys h) as (h' & l & E & _).
    rewrite E. do 2 eexists. reflexivity.
Qed.

Lemma load_scaling t x :
  0 <= t -> 0 <= x <= 100 ->
  t / 2 <= t * ((5 # 10) + x / 100 * (5 # 10)) /\
  t * ((5 # 10) + x / 100 * (5 # 10)) <= t.
Proof.
  intros Ht (Hx0 & Hx1).
  assert (Hx : t * ((5 # 10) + x / 100 * (5 # 10)) == t / 2 + t * x / 200)
    by field.
  rewrite Hx.
  assert (H0 : 0 <= t * x) by (apply Qmult_le_0_compat; assumption).
  assert (H1 : t * x <= t * 100).
  { rewrite (Qmult_comm t x), (Qmult_comm t 100).
    apply Qmult_le_compat_r; assumption. }
  assert (H2 : t * x / 200 == (1 # 200) * (t * x)) by field.
  assert (H3 : t / 2 == (1 # 2) * t) by field.
  rewrite H2, H3. clear Hx H2 H3. set (p := t * x) in *. clearbody p.
  split; lra.
Qed.

(** X5.  [estimateCPUPower()] never throws.  With a load between 0 and
    100 % (or none, when 50 % stands in) the estimate lies between half
    the rated power and the rated power, hence between 7.5 W and 280 W;
    and when the processor is unknown the rating is 15 W, the name
    "Unknown CPU" matching the letter u before the default is reached. *)
Theorem estimateCPUPower_bounds sys h :
  load_is_percentage sys ->
  exists c h' l,
    HardwareTracker.estimateCPUPower sys h = (Normal c, h', l) /\
    HardwareTracker.cp_usage c = observed_load sys /\
    HardwareTracker.cp_tdp c / 2 <= HardwareTracker.cp_power c /\
    HardwareTracker.cp_power c <= HardwareTracker.cp_tdp c /\
    15 / 2 <= HardwareTracker.cp_power c /\
    HardwareTracker.cp_power c <= 280 /\
    (HardwareTracker.cpuInfo h' = None -> HardwareTracker.cp_tdp c = 15).
Proof.
  intros Hload.
  unfold HardwareTracker.estimateCPUPower, HardwareTracker.getCPUInfo.
  unfold bind, get, ret.
  destruct (ensure_initialized_normal sys h) as (h' & l & E). rewrite E. cbn.
  rewrite HardwareFacts.getCPUUsage_total.
  assert (Hl : 0 <= observed_load sys <= 100).
  { unfold observed_load. unfold load_is_percentage in Hload.
    destruct (HardwareTracker.si_currentLoad sys); [assumption|].
    split; discriminate. }
  set (model := match HardwareTracker.cpuInfo h' with
                | Some c => HardwareTracker.brand c
                | None => "Unknown CPU"
                end).
  pose proof (estimateTDPFromModel_range model) as (Hlo & Hhi).
  assert (Hpow :
    forall load, load = observed_load sys ->
      HardwareTracker.estimateTDPFromModel model / 2
        <= HardwareTracker.estimateTDPFromModel model
           * ((5 # 10) + load / 100 * (5 # 10)) /\
      HardwareTracker.estimateTDPFromModel model
        * ((5 # 10) + load / 100 * (5 # 10))
        <= HardwareTracker.estimateTDPFromModel model).
  { intros load ->. apply load_scaling; [lra | exact Hl]. }
  unfold observed_load in *.
  destruct (HardwareTracker.si_currentLoad sys) as [load|e]; cbn;
    do 3 eexists; (split; [reflexivity|]); cbn; fold model;
    (destruct (Hpow _ eq_refl) as (P1 & P2));
    (split; [reflexivity|]); (split; [exact P1|]); (split; [exact P2|]);
    (split; [eapply Qle_trans; [|exact P1];
             apply Qmult_le_compat_r; [exact Hlo|discriminate]|]);
    (split; [eapply Qle_trans; [exact P2|exact Hhi]|]);
    intros Hnone; subst model; rewrite Hnone; reflexivity.
Qed.

Lemma estimateCPUPower_bounds_witness :
  exists c h' l,
    HardwareTracker.estimateCPUPower Scenario.laptop HardwareTracker.new
      = (Normal c, h', l) /\
    HardwareTracker.cp_tdp c / 2 <= HardwareTracker.cp_power c /\
    HardwareTracker.cp_power c <= HardwareTracker.cp_tdp c.
Proof.
  destruct (estimateCPUPower_bounds Scenario.laptop HardwareTracker.new)
    as (c & h' & l & E & _ & Hlo & Hhi & _).
  - vm_compute. split; discriminate.
  - exists c, h', l. repeat split; assumption.
Defined.

(** X6.  When [getRAMInfo()] answers, the memory is the one the sampler
    holds, rounded to whole GiB (within half a GiB), and the power is 5 W
    for each of [max(1, ceil(GiB / 8))] slots: never below 5 W, at least
    5/8 W per GiB and less than that plus 5 W. *)
Theorem getRAMInfo_power sys h r h' l :
  HardwareTracker.getRAMInfo sys h = (Normal r, h', l) ->
  exists m,
    HardwareTracker.memInfo h' = Some m /\
    HardwareTracker.total m / (1024 * 1024 * 1024) - (1 # 2)
      < inject_Z (HardwareTracker.ri_totalGB r) /\
    inject_Z (HardwareTracker.ri_totalGB r)
      <= HardwareTracker.total m / (1024 * 1024 * 1024) + (1 # 2) /\
    HardwareTracker.ri_power r = inject_Z (HardwareTracker.ri_estimatedSlots r) * 5 /\
    (1 <= HardwareTracker.ri_estimatedSlots r)%Z /\
    5 <= HardwareTracker.ri_power r /\
    inject_Z (HardwareTracker.ri_totalGB r) * (5 # 8) <= HardwareTracker.ri_power r /\
    ((1 <= HardwareTracker.ri_totalGB r)%Z ->
     HardwareTracker.ri_power r
       < inject_Z (HardwareTracker.ri_totalGB r) * (5 # 8) + 5).
Proof.
  unfold HardwareTracker.getRAMInfo, bind, get, ret, throw.
  destruct (ensure_initialized_normal sys h) as (h1 & l1 & E). rewrite E.
  cbn -[Math_round Math_ceil Math_max Qdiv Qmult Qplus inject_Z].
  destruct (HardwareTracker.memInfo h1) as [m|] eqn:Em;
    cbn -[Math_round Math_ceil Math_max Qdiv Qmult Qplus inject_Z]; [|discriminate].
  intros [= <- <- _].
  cbn [HardwareTracker.ri_totalGB HardwareTracker.ri_power
       HardwareTracker.ri_estimatedSlots].
  exists m. split; [exact Em|].
  set (x := HardwareTracker.total m / (1024 * 1024 * 1024)).
  set (gb := Math_round x).
  assert (Hgb1 : inject_Z gb <= x + (1 # 2)) by apply Qfloor_le.
  assert (Hgb2 : x + (1 # 2) < inject_Z (gb + 1)) by apply Qlt_floor.
  rewrite inject_Z_plus in Hgb2.
  set (y := inject_Z gb / 8).
  set (slots := Math_max 1 (Math_ceil y)).
  assert (Hy : y == (1 # 8) * inject_Z gb) by (unfold y; field).
  assert (Hc1 : y <= inject_Z (Math_ceil y)) by apply Qle_ceiling.
  assert (Hc2 : inject_Z (Math_ceil y) - 1 < y).
  { pose proof (Qceiling_lt y) as H.
    replace (Qceiling y - 1)%Z with (Math_ceil y + (-1))%Z in H
      by (unfold Math_ceil; lia).
    rewrite inject_Z_plus in H. exact H. }
  assert (Hs1 : (1 <= slots)%Z) by (unfold slots, Math_max; lia).
  assert (Hs2 : (Math_ceil y <= slots)%Z) by (unfold slots, Math_max; lia).
  assert (Hq1 : inject_Z 1 <= inject_Z slots) by now rewrite <- Zle_Qle.
  assert (Hq2 : inject_Z (Math_ceil y) <= inject_Z slots) by now rewrite <- Zle_Qle.
  change (inject_Z 1) with 1 in *.
  assert (Hlast : (1 <= gb)%Z -> slots = Math_ceil y).
  { intros Hge. assert (Hq3 : 1 <= inject_Z gb).
    { change 1 with (inject_Z 1). now rewrite <- Zle_Qle. }
    assert (Hpos : (1 <= Math_ceil y)%Z).
    { apply Z.lt_pred_le. cbn. rewrite Zlt_Qlt.
      apply Qlt_le_trans with y; [|exact Hc1].
      change (inject_Z (Z.pred 1)) with 0. rewrite Hy. clear - Hq3. clearbody gb. lra. }
    unfold slots, Math_max. lia. }
  split; [clear - Hgb2; clearbody gb; clearbody x; lra|].
  split; [clear - Hgb1; clearbody gb; clearbody x; lra|].
  split; [reflexivity|]. split; [exact Hs1|].
  clearbody slots. set (c := Math_ceil y) in *. clearbody c. clearbody y.
  clearbody gb. clearbody x.
  split; [lra|]. split; [lra|].
  intros Hge. rewrite (Hlast Hge). lra.
Qed.

Lemma getRAMInfo_power_witness :
  exists r h' l,
    HardwareTracker.getRAMInfo Scenario.laptop HardwareTracker.new
      = (Normal r, h', l) /\
    HardwareTracker.ri_totalGB r = 16%Z /\
    HardwareTracker.ri_power r == 10.
Proof.
  destruct (HardwareTracker.getRAMInfo Scenario.laptop HardwareTracker.new)
    as [[[r|e] h'] l] eqn:E.
  - destruct (getRAMInfo_power Scenario.laptop HardwareTracker.new r h' l E)
      as (m & _ & _ & _ & Hp & _).
    exists r, h', l. split; [reflexivity|].
    assert (Hr : fst (fst (HardwareTracker.getRAMInfo Scenario.laptop
                             HardwareTracker.new)) = Normal r) by now rewrite E.
    vm_compute in Hr. injection Hr as <-. split; reflexivity.
  - exfalso.
    assert (Hr : fst (fst (HardwareTracker.getRAMInfo Scenario.laptop
                             HardwareTracker.new)) = Thrown e) by now rewrite E.
    vm_compute in Hr. discriminate.
Defined.

(** X7.  On a sampler in a state its class can reach, [getRAMInfo()]
    throws exactly when it holds no memory description and the retried
    initialization cannot supply one, that is when the processor query
    or the memory query rejects (the graphics query plays no part). *)
Theorem getRAMInfo_throws_iff sys h :
  hw_well_formed h ->
  (exists e h' l, HardwareTracker.getRAMInfo sys h = (Thrown e, h', l)) <->
  HardwareTracker.memInfo h = None /\
  ~ (resolved (HardwareTracker.si_cpu sys) /\ resolved (HardwareTracker.si_mem sys)).
Proof.
  intros Hwf. unfold hw_well_formed in Hwf.
  unfold HardwareTracker.getRAMInfo, HardwareTracker.ensure_initialized,
    HardwareTracker.initialize.
  unfold try_catch, bind, get, gets, ret, throw, await, modify, console_error.
  destruct (HardwareTracker.isInitialized h) eqn:Ei;
    cbn -[Math_round Math_ceil Math_max Qdiv Qmult Qplus inject_Z].
  - destruct (HardwareTracker.memInfo h) as [m|] eqn:Em; [|now destruct Hwf].
    cbn -[Math_round Math_ceil Math_max Qdiv Qmult Qplus inject_Z].
    split; [intros (e & h' & l & [=]) | intros ([=] & _)].
  - destruct (HardwareTracker.si_cpu sys) as [c|ec];
      [destruct (HardwareTracker.si_mem sys) as [m|em];
       [destruct (HardwareTracker.si_graphics sys) as [g|eg]|]|];
      cbn -[Math_round Math_ceil Math_max Qdiv Qmult Qplus inject_Z];
      try (split; [intros (e & h' & l & [=]) | intros (_ & Hn); exfalso; apply Hn; split; exact I]).
    + destruct (HardwareTracker.memInfo h) as [m0|] eqn:Em;
        cbn -[Math_round Math_ceil Math_max Qdiv Qmult Qplus inject_Z].
      * split; [intros (e & h' & l & [=]) | intros ([=] & _)].
      * split; [intros _; split; [reflexivity | intros (_ & [])]
               | intros _; do 3 eexists; reflexivity].
    + destruct (HardwareTracker.memInfo h) as [m0|] eqn:Em;
        cbn -[Math_round Math_ceil Math_max Qdiv Qmult Qplus inject_Z].
      * split; [intros (e & h' & l & [=]) | intros ([=] & _)].
      * split; [intros _; split; [reflexivity | intros ([] & _)]
               | intros _; do 3 eexists; reflexivity].
Qed.

Lemma getRAMInfo_throws_iff_witness :
  (exists e h' l,
     HardwareTracker.getRAMInfo
       (Scenario.answers [] (Normal 50)) HardwareTracker.new = (Thrown e, h', l)) <->
  HardwareTracker.memInfo HardwareTracker.new = None /\
  ~ (resolved (HardwareTracker.si_cpu (Scenario.answers [] (Normal 50))) /\
     resolved (HardwareTracker.si_mem (Scenario.answers [] (Normal 50)))).
Proof.
  apply (getRAMInfo_throws_iff (Scenario.answers [] (Normal 50)) HardwareTracker.new).
  discriminate.
Defined.

Lemma gpu_sum_range (gpus : list HardwareTracker.controller) (acc : Q) :
  acc + 150 * inject_Z (Z.of_nat (length gpus))
  <= fold_left
       (fun total gpu =>
          total + HardwareTracker.estimateGPUPower
                    (str_or (HardwareTracker.model gpu) "Unknown GPU"))
       gpus acc /\
  fold_left
    (fun total gpu =>
       total + HardwareTracker.estimateGPUPower
                 (str_or (HardwareTracker.model gpu) "Unknown GPU"))
    gpus acc
  <= acc + 450 * inject_Z (Z.of_nat (length gpus)).
Proof.
  revert acc. induction gpus as [|gpu gpus IH]; intros acc.
  - cbn [fold_left length]. change (inject_Z (Z.of_nat 0)) with 0. split; lra.
  - cbn [fold_left length].
    destruct (IH (acc + HardwareTracker.estimateGPUPower
                          (str_or (HardwareTracker.model gpu) "Unknown GPU")))
      as (L & U).
    destruct (estimateGPUPower_range
                (str_or (HardwareTracker.model gpu) "Unknown GPU")) as (P1 & P2).
    rewrite Nat2Z.inj_succ. unfold Z.succ. rewrite inject_Z_plus.
    change (inject_Z 1) with 1.
    set (n := inject_Z (Z.of_nat (length gpus))) in *. clearbody n.
    set (p := HardwareTracker.estimateGPUPower _) in *. clearbody p.
    set (f := fold_left _ _ _) in *. clearbody f.
    split; lra.
Qed.

Lemma is_discrete_counts gpu :
  HardwareTracker.is_discrete gpu = counts_as_gpu gpu.
Proof.
  unfold HardwareTracker.is_discrete, counts_as_gpu.
  destruct (HardwareTracker.vendor gpu) as [[|c v]|]; reflexivity.
Qed.

Lemma str_or_gpu_name gpu :
  str_or (HardwareTracker.model gpu) "Unknown GPU" = gpu_name gpu.
Proof.
  unfold gpu_name. destruct (HardwareTracker.model gpu) as [[|c m]|]; reflexivity.
Qed.

Lemma gpu_sum_is_sum (gpus : list HardwareTracker.controller) (acc : Q) :
  fold_left
    (fun total gpu =>
       total + HardwareTracker.estimateGPUPower
                 (str_or (HardwareTracker.model gpu) "Unknown GPU"))
    gpus acc
  == acc + sum_list
             (List.map (fun gpu => HardwareTracker.estimateGPUPower (gpu_name gpu))
                gpus).
Proof.
  revert acc. induction gpus as [|gpu gpus IH]; intros acc; cbn [fold_left List.map sum_list].
  - ring.
  - rewrite IH, str_or_gpu_name. ring.
Qed.

(** X8.  [getGPUInfo()] never throws.  It reports the controllers the
    sampler knows whose vendor is given and does not contain "intel"
    (in any case): their models in order ("Unknown GPU" for a missing
    one), their number, and as power the sum of what [estimateGPUPower]
    rates each of them at, hence between 150 W and 450 W apiece and 0 W
    when there is none. *)
Theorem getGPUInfo_counts sys h :
  exists g h' l,
    HardwareTracker.getGPUInfo sys h = (Normal g, h', l) /\
    let gpus := List.filter counts_as_gpu (known_controllers h') in
    HardwareTracker.gi_models g = List.map gpu_name gpus /\
    HardwareTracker.gi_count g = Z.of_nat (length gpus) /\
    HardwareTracker.gi_power g ==
      sum_list
        (List.map (fun gpu => HardwareTracker.estimateGPUPower (gpu_name gpu))
           gpus) /\
    150 * inject_Z (HardwareTracker.gi_count g) <= HardwareTracker.gi_power g /\
    HardwareTracker.gi_power g <= 450 * inject_Z (HardwareTracker.gi_count g).
Proof.
  unfold HardwareTracker.getGPUInfo, bind, get, ret.
  destruct (ensure_initialized_normal sys h) as (h' & l & E). rewrite E. cbn.
  assert (Hf : forall cs,
             List.filter HardwareTracker.is_discrete cs
             = List.filter counts_as_gpu cs).
  { intros cs. apply List.filter_ext. exact is_discrete_counts. }
  destruct (HardwareTracker.gpuInfo h') as [gd|] eqn:Eg; cbn.
  2:{ do 3 eexists. split; [reflexivity|]. unfold known_controllers.
      rewrite Eg. cbn. repeat split; try reflexivity; vm_compute; discriminate. }
  destruct (HardwareTracker.controllers gd) as [[|c0 cs]|] eqn:Ec;
    cbn -[List.filter fold_left].
  1,3: do 3 eexists; (split; [reflexivity|]); unfold known_controllers;
    rewrite Eg, Ec; cbn;
    repeat split; try reflexivity; vm_compute; discriminate.
  rewrite Hf.
  destruct (List.filter counts_as_gpu (c0 :: cs)) as [|g0 gs] eqn:Ef.
  - do 3 eexists. split; [reflexivity|]. unfold known_controllers.
    rewrite Eg, Ec, Ef. cbn.
    repeat split; try reflexivity; vm_compute; discriminate.
  - do 3 eexists. split; [reflexivity|]. unfold known_controllers.
    rewrite Eg, Ec, Ef.
    cbn [HardwareTracker.gi_models HardwareTracker.gi_count
         HardwareTracker.gi_power].
    split; [apply List.map_ext; exact str_or_gpu_name|]. split; [reflexivity|].
    split; [rewrite gpu_sum_is_sum; ring|].
    pose proof (gpu_sum_range (g0 :: gs) 0) as (L & U).
    split; lra.
Qed.

(** X9.  Once the sampler is initialized its descriptions are cached:
    [getCPUInfo()], [getRAMInfo()] and [getGPUInfo()] leave it as it is,
    log nothing, and answer the same whatever the operating system
    would now say (the processor count, which is read each time, being
    equal). *)
Theorem initialized_sampler_is_cached sys sys' h :
  HardwareTracker.isInitialized h = true ->
  HardwareTracker.os_cpus_length sys = HardwareTracker.os_cpus_length sys' ->
  HardwareTracker.getCPUInfo sys h = HardwareTracker.getCPUInfo sys' h /\
  HardwareTracker.getRAMInfo sys h = HardwareTracker.getRAMInfo sys' h /\
  HardwareTracker.getGPUInfo sys h = HardwareTracker.getGPUInfo sys' h /\
  snd (fst (HardwareTracker.getCPUInfo sys h)) = h /\
  snd (fst (HardwareTracker.getRAMInfo sys h)) = h /\
  snd (fst (HardwareTracker.getGPUInfo sys h)) = h /\
  snd (HardwareTracker.getCPUInfo sys h) = [] /\
  snd (HardwareTracker.getRAMInfo sys h) = [] /\
  snd (HardwareTracker.getGPUInfo sys h) = [].
Proof.
  intros Hi Hn.
  unfold HardwareTracker.getCPUInfo, HardwareTracker.getRAMInfo,
    HardwareTracker.getGPUInfo, HardwareTracker.ensure_initialized.
  unfold bind, get, gets, ret, throw. rewrite Hi, Hn.
  cbn -[Math_round Math_ceil Math_max Qdiv Qmult Qplus inject_Z
        List.filter fold_left].
  split; [reflexivity|]. split; [reflexivity|]. split; [reflexivity|].
  split; [reflexivity|].
  destruct (HardwareTracker.memInfo h);
    cbn -[Math_round Math_ceil Math_max Qdiv Qmult Qplus inject_Z
          List.filter fold_left];
    (split; [reflexivity|]);
    (destruct (HardwareTracker.gpuInfo h) as [gd|];
     [destruct (HardwareTracker.controllers gd) as [[|c0 cs]|];
      [| destruct (List.filter HardwareTracker.is_discrete (c0 :: cs)) |] |]);
    cbn -[Math_round Math_ceil Math_max Qdiv Qmult Qplus inject_Z
          List.filter fold_left];
    repeat split; reflexivity.
Qed.

Lemma initialized_sampler_is_cached_witness :
  HardwareTracker.getRAMInfo Scenario.laptop_no_load initialized_workstation
    = HardwareTracker.getRAMInfo Scenario.workstation initialized_workstation /\
  HardwareTracker.getGPUInfo Scenario.laptop_no_load initialized_workstation
    = HardwareTracker.getGPUInfo Scenario.workstation initialized_workstation.
Proof.
  destruct (initialized_sampler_is_cached
              Scenario.laptop_no_load Scenario.workstation initialized_workstation)
    as (_ & Hr & Hg & _).
  - reflexivity.
  - reflexivity.
  - split; assumption.
Defined.

(** X10.  [initialize()] never throws.  It ends initialized exactly when
    the processor, memory and graphics queries all resolve, and then
    holds the three answers and logs nothing; otherwise it logs one
    error and ends uninitialized, keeping the answers that came before
    the first rejection (and whatever it held for the others). *)
Theorem initialize_outcome sys h :
  exists h' l,
    HardwareTracker.initialize sys h = (Normal tt, h', l) /\
    (HardwareTracker.isInitialized h' = true <->
     resolved (HardwareTracker.si_cpu sys) /\
     resolved (HardwareTracker.si_mem sys) /\
     resolved (HardwareTracker.si_graphics sys)) /\
    (HardwareTracker.isInitialized h' = true -> l = []) /\
    (HardwareTracker.isInitialized h' = false ->
     l = [(ERROR, "Failed to initialize hardware detection:")]) /\
    HardwareTracker.cpuInfo h' =
      match HardwareTracker.si_cpu sys with
      | Normal c => Some c
      | Thrown _ => HardwareTracker.cpuInfo h
      end /\
    HardwareTracker.memInfo h' =
      match HardwareTracker.si_cpu sys, HardwareTracker.si_mem sys with
      | Normal _, Normal m => Some m
      | _, _ => HardwareTracker.memInfo h
      end /\
    HardwareTracker.gpuInfo h' =
      match HardwareTracker.si_cpu sys, HardwareTracker.si_mem sys,
            HardwareTracker.si_graphics sys with
      | Normal _, Normal _, Normal g => Some g
      | _, _, _ => HardwareTracker.gpuInfo h
      end.
Proof.
  unfold HardwareTracker.initialize, try_catch, bind, await, modify, console_error.
  destruct (HardwareTracker.si_cpu sys) as [c|ec];
    [destruct (HardwareTracker.si_mem sys) as [m|em];
     [destruct (HardwareTracker.si_graphics sys) as [g|eg]|]|];
    cbn; do 2 eexists; (split; [reflexivity|]); cbn; unfold resolved;
    repeat split; try reflexivity; try discriminate; try tauto; intuition.
Qed.

(** ** geography.js *)

(** What a lookup in one of the hard-coded tables can return. *)
Ltac table_entries H :=
  apply elem_of_list_to_map_2 in H;
  repeat (apply elem_of_cons in H as [H|H]; [injection H as -> -> |]);
  try (apply elem_of_nil in H; destruct H).

Lemma usStates_entry reg v :
  Geography.usStates !! reg = Some v ->
  truthy_str reg = true /\ truthy v = true /\ 250 <= v <= 900.
Proof.
  unfold Geography.usStates. intros H. table_entries H;
    (split; [reflexivity|]); (split; [reflexivity|]); split; discriminate.
Qed.

Lemma canadianProvinces_entry reg v :
  Geography.canadianProvinces !! reg = Some v ->
  truthy_str reg = true /\ truthy v = true /\ 50 <= v <= 700.
Proof.
  unfold Geography.canadianProvinces. intros H. table_entries H;
    (split; [reflexivity|]); (split; [reflexivity|]); split; discriminate.
Qed.

Lemma regional_lookup table region v :
  (forall reg w, table !! reg = Some w -> truthy_str reg = true /\ truthy w = true) ->
  Geography.regional table region = Some v <->
  exists reg, region = Some reg /\ table !! reg = Some v.
Proof.
  intros Htable. unfold Geography.regional, num_or_null. split.
  - destruct region as [reg|]; [|discriminate].
    destruct (truthy_str reg); [|discriminate].
    destruct (table !! reg) as [w|] eqn:E; [|discriminate].
    destruct (truthy w); [|discriminate]. intros [= <-]. eauto.
  - intros (reg & -> & E). destruct (Htable reg v E) as (-> & Hv).
    rewrite E, Hv. reflexivity.
Qed.

Lemma regional_intensity_iff this countryCode region v :
  Geography.getRegionalCarbonIntensity this countryCode region = Some v <->
  exists reg,
    region = Some reg /\
    ((countryCode = "USA" /\ Geography.usStates !! reg = Some v) \/
     (countryCode = "CAN" /\ Geography.canadianProvinces !! reg = Some v)).
Proof.
  unfold Geography.getRegionalCarbonIntensity.
  destruct (String.eqb_spec countryCode "USA") as [->|Husa].
  - change ("USA" =? "CAN")%string with false.
    pose proof (regional_lookup Geography.usStates region v
                  (fun reg w H => let '(conj a (conj b _)) := usStates_entry reg w H
                                  in conj a b)) as Hl.
    destruct (Geography.regional Geography.usStates region) as [w|].
    + split.
      * intros [= <-]. destruct (proj1 Hl eq_refl) as (reg & Hr & Ht). eauto 6.
      * intros (reg & Hr & [(_ & Ht) | (Hc & _)]); [|discriminate Hc].
        apply Hl. eauto.
    + split; [discriminate|].
      intros (reg & Hr & [(_ & Ht) | (Hc & _)]); [|discriminate Hc].
      apply Hl. eauto.
  - destruct (String.eqb_spec countryCode "CAN") as [->|Hcan].
    + pose proof (regional_lookup Geography.canadianProvinces region v
                    (fun reg w H =>
                       let '(conj a (conj b _)) := canadianProvinces_entry reg w H
                       in conj a b)) as Hl.
      destruct (Geography.regional Geography.canadianProvinces region) as [w|].
      * split.
        -- intros [= <-]. destruct (proj1 Hl eq_refl) as (reg & Hr & Ht). eauto 6.
        -- intros (reg & Hr & [(Hc & _) | (_ & Ht)]); [discriminate Hc|].
           apply Hl. eauto.
      * split; [discriminate|].
        intros (reg & Hr & [(Hc & _) | (_ & Ht)]); [discriminate Hc|].
        apply Hl. eauto.
    + split; [discriminate|].
      intros (reg & _ & [(Hc & _) | (Hc & _)]); contradiction.
Qed.

Lemma regional_intensity_range this countryCode region v :
  Geography.getRegionalCarbonIntensity this countryCode region = Some v ->
  50 <= v <= 900.
Proof.
  intros H. apply regional_intensity_iff in H
    as (reg & _ & [(_ & Ht) | (_ & Ht)]).
  - destruct (usStates_entry reg v Ht) as (_ & _ & H1 & H2). split; lra.
  - destruct (canadianProvinces_entry reg v Ht) as (_ & _ & H1 & H2). split; lra.
Qed.

(** X11.  [getRegionalCarbonIntensity] answers with a number exactly
    when the country is USA or CAN and the region is a key of that
    country's table, and the number is then the table's, between 50 and
    900 g/kWh; for any other country, and for a missing, empty or
    unlisted region, it answers [null]. *)
Theorem getRegionalCarbonIntensity_lookup this countryCode region :
  (forall v,
     Geography.getRegionalCarbonIntensity this countryCode region = Some v <->
     exists reg,
       region = Some reg /\
       ((countryCode = "USA" /\ Geography.usStates !! reg = Some v) \/
        (countryCode = "CAN" /\ Geography.canadianProvinces !! reg = Some v))) /\
  (forall v,
     Geography.getRegionalCarbonIntensity this countryCode region = Some v ->
     50 <= v <= 900) /\
  (countryCode <> "USA" -> countryCode <> "CAN" ->
   Geography.getRegionalCarbonIntensity this countryCode region = None) /\
  (region = None \/ region = Some "" ->
   Geography.getRegionalCarbonIntensity this countryCode region = None).
Proof.
  split; [intros v; apply regional_intensity_iff|].
  split; [intros v; apply regional_intensity_range|].
  split.
  - intros Husa Hcan.
    destruct (Geography.getRegionalCarbonIntensity this countryCode region)
      as [v|] eqn:E; [|reflexivity].
    apply regional_intensity_iff in E as (reg & _ & [(Hc & _) | (Hc & _)]);
      contradiction.
  - intros Hr.
    destruct (Geography.getRegionalCarbonIntensity this countryCode region)
      as [v|] eqn:E; [|reflexivity].
    apply regional_intensity_iff in E as (reg & Hreg & [(_ & Ht) | (_ & Ht)]).
    + destruct (usStates_entry reg v Ht) as (Hne & _).
      destruct Hr as [Hr|Hr]; rewrite Hr in Hreg; [discriminate|].
      injection Hreg as <-. discriminate Hne.
    + destruct (canadianProvinces_entry reg v Ht) as (Hne & _).
      destruct Hr as [Hr|Hr]; rewrite Hr in Hreg; [discriminate|].
      injection Hreg as <-. discriminate Hne.
Qed.

Lemma length_toUpperCase s : String.length (toUpperCase s) = String.length s.
Proof. induction s as [|c s IH]; cbn; [reflexivity | now rewrite IH]. Qed.

Lemma countryNames_entry k v :
  Geography.countryNames !! k = Some v ->
  String.length k = 3%nat /\ truthy_str v = true.
Proof.
  unfold Geography.countryNames. intros H. table_entries H; split; reflexivity.
Qed.

Lemma localeMap_entry k v :
  Geography.localeMap !! k = Some v ->
  truthy_str v = true /\ is_Some (Geography.countryNames !! v).
Proof.
  unfold Geography.localeMap. intros H. table_entries H;
    (split; [reflexivity | vm_compute; eauto]).
Qed.

(** X12.  For a locale with a region subtag ([xx-YY...]) that is not
    empty and not three characters long, as the two-letter tags of
    system locales are, [detectLocation()] returns the subtag in upper
    case as the country code and, every key of the name table having
    three letters, the country name "Unknown"; it logs nothing. *)
Theorem detectLocation_region_subtag g locale p0 p1 rest :
  split_dash locale = p0 :: p1 :: rest ->
  p1 <> "" -> String.length p1 <> 3%nat ->
  Geography.detectLocation (Normal locale) g =
    (Normal {| Geography.countryCode := toUpperCase p1;
               Geography.countryName := "Unknown";
               Geography.region := None;
               Geography.latitude := None;
               Geography.longitude := None |}, g, []).
Proof.
  intros Hs Hne Hlen.
  unfold Geography.detectLocation, try_catch, bind, await, get, ret, console_warn.
  unfold Geography.extractCountryFromLocale. rewrite Hs.
  assert (Ht : truthy_str (toUpperCase p1) = true).
  { destruct p1; [contradiction | reflexivity]. }
  rewrite Ht. cbn. unfold Geography.getCountryName.
  destruct (Geography.countryNames !! toUpperCase p1) as [v|] eqn:E; [|reflexivity].
  apply countryNames_entry in E as (Hl & _).
  rewrite length_toUpperCase in Hl. contradiction.
Qed.

Lemma detectLocation_region_subtag_witness :
  Geography.detectLocation (Normal "en-us") Geography.new =
    (Normal {| Geography.countryCode := "US";
               Geography.countryName := "Unknown";
               Geography.region := None;
               Geography.latitude := None;
               Geography.longitude := None |}, Geography.new, []).
Proof.
  apply (detectLocation_region_subtag Geography.new "en-us" "en" "us" []).
  - reflexivity.
  - discriminate.
  - discriminate.
Defined.

(** X13.  When the locale yields no country, [detectLocation()] returns
    the default country code under the fixed name "United States" and
    without region; after [setLocation(code, region)] that is the given
    code, still named "United States", and the given region is not
    returned.  A warning is logged only when reading the locale threw. *)
Theorem setLocation_then_fallback g code region locale :
  no_country locale ->
  let g' := snd (fst (Geography.setLocation code region g)) in
  Geography.defaultCountry g' = code /\
  Geography.defaultRegion g' = region /\
  exists l,
    Geography.detectLocation locale g' =
      (Normal {| Geography.countryCode := code;
                 Geography.countryName := "United States";
                 Geography.region := None;
                 Geography.latitude := None;
                 Geography.longitude := None |}, g', l) /\
    (l = [] <-> resolved locale).
Proof.
  intros Hno g'. cbn in g'. subst g'. split; [reflexivity|]. split; [reflexivity|].
  unfold Geography.detectLocation, try_catch, bind, await, get, ret, console_warn.
  unfold no_country in Hno. destruct locale as [s|e]; cbn.
  - destruct (Geography.extractCountryFromLocale s) as [cc|]; cbn.
    + subst cc. cbn. eexists. split; [reflexivity|]. cbn. tauto.
    + eexists. split; [reflexivity|]. cbn. tauto.
  - eexists. split; [reflexivity|]. cbn. split; [discriminate|tauto].
Qed.

Lemma setLocation_then_fallback_witness :
  exists l,
    Geography.detectLocation (Normal "xx")
      (snd (fst (Geography.setLocation "FRA" (Some "IDF") Geography.new))) =
      (Normal {| Geography.countryCode := "FRA";
                 Geography.countryName := "United States";
                 Geography.region := None;
                 Geography.latitude := None;
                 Geography.longitude := None |},
       snd (fst (Geography.setLocation "FRA" (Some "IDF") Geography.new)), l).
Proof.
  destruct (setLocation_then_fallback Geography.new "FRA" (Some "IDF") (Normal "xx"))
    as (_ & _ & l & E & _).
  - vm_compute. exact I.
  - exists l. exact E.
Defined.

(** X14.  A locale without region subtag resolves only through the
    table of eleven languages: when [extractCountryFromLocale] finds a
    country for it, that country is a three-letter code the name table
    knows, so [detectLocation()] returns it with its proper name. *)
Theorem language_only_locale_is_named g locale :
  split_dash locale = [locale] ->
  forall cc, Geography.extractCountryFromLocale locale = Some cc ->
  Geography.localeMap !! locale = Some cc /\
  exists name,
    Geography.countryNames !! cc = Some name /\
    Geography.detectLocation (Normal locale) g =
      (Normal {| Geography.countryCode := cc;
                 Geography.countryName := name;
                 Geography.region := None;
                 Geography.latitude := None;
                 Geography.longitude := None |}, g, []).
Proof.
  intros Hs cc Hx.
  assert (Hm : Geography.localeMap !! locale = Some cc).
  { unfold Geography.extractCountryFromLocale in Hx. rewrite Hs in Hx.
    unfold str_or_null in Hx.
    destruct (Geography.localeMap !! locale) as [v|]; [|discriminate].
    destruct (truthy_str v); [congruence|discriminate]. }
  split; [exact Hm|].
  destruct (localeMap_entry locale cc Hm) as (Ht & name & Hn).
  exists name. split; [exact Hn|].
  unfold Geography.detectLocation, try_catch, bind, await, get, ret, console_warn.
  rewrite Hx, Ht. cbn. unfold Geography.getCountryName. rewrite Hn.
  destruct (countryNames_entry cc name Hn) as (_ & Htn).
  unfold str_or. rewrite Htn. reflexivity.
Qed.

Lemma language_only_locale_is_named_witness :
  Geography.localeMap !! "de" = Some "DEU" /\
  exists name,
    Geography.countryNames !! "DEU" = Some name /\
    Geography.detectLocation (Normal "de") Geography.new =
      (Normal {| Geography.countryCode := "DEU";
                 Geography.countryName := name;
                 Geography.region := None;
                 Geography.latitude := None;
                 Geography.longitude := None |}, Geography.new, []).
Proof.
  apply (language_only_locale_is_named Geography.new "de").
  - reflexivity.
  - vm_compute. reflexivity.
Defined.

(** ** emissions.js *)

(** X16.  A country the loaded table has an entry for gets that entry's
    intensity and name and no warning, whatever else the table holds
    and whatever the code is called; putting an entry into a table makes
    it the answer for its code and changes the answer for no other
    code.  When the data file cannot be read, one warning is logged at
    construction; every country code then gets the world average of
    475 g/kWh with a warning and the name "Unknown", except the names
    plain objects inherit ([constructor], [toString], ...), for which
    intensity and name are [undefined] and nothing is logged. *)
Theorem carbon_intensity_table data countryCode e other err :
  let this := fst (Emissions.new (Normal (<[countryCode := e]> data))) in
  let before := fst (Emissions.new (Normal data)) in
  let without := Emissions.new (Thrown err) in
  Emissions.getCarbonIntensity this countryCode
    = (Finite (Emissions.carbon_intensity e), []) /\
  Emissions.getCountryName this countryCode = Some (Emissions.country_name e) /\
  (other <> countryCode ->
   Emissions.getCarbonIntensity this other
     = Emissions.getCarbonIntensity before other /\
   Emissions.getCountryName this other = Emissions.getCountryName before other) /\
  snd without = [(WARN, "Could not load carbon intensity data, using defaults")] /\
  (~ In countryCode Object_prototype_keys ->
   Emissions.getCarbonIntensity (fst without) countryCode
     = (Finite 475,
        [(WARN, "No carbon intensity data for ${countryCode}, using world average")]) /\
   Emissions.getCountryName (fst without) countryCode = Some "Unknown") /\
  (In countryCode Object_prototype_keys ->
   Emissions.getCarbonIntensity (fst without) countryCode = (Undefined, []) /\
   Emissions.getCountryName (fst without) countryCode = None).
Proof.
  cbv zeta.
  unfold Emissions.getCarbonIntensity, Emissions.getCountryName, lookup_property.
  cbn -[inherited_key In Object_prototype_keys].
  rewrite lookup_insert_eq, !lookup_empty.
  split; [reflexivity|]. split; [reflexivity|].
  split; [intros Hne; rewrite lookup_insert_ne by congruence; split; reflexivity|].
  split; [reflexivity|]. split; intros Hk.
  - destruct (inherited_key countryCode) eqn:E; [|split; reflexivity].
    apply inherited_key_spec in E. contradiction.
  - apply inherited_key_spec in Hk. rewrite Hk. split; reflexivity.
Qed.

(** ** Sessions, call by call *)

(** X17.  Between the calls of every serialized session of a
    constructed tracker (after each call has completed and before the
    next begins), the tracker is tracking exactly when its timer is
    live; and while it tracks, the timer runs at the configured
    interval, the start time, the location and the system information
    are set, and the log holds at least one measurement. *)
Theorem tracking_iff_timer_live o u1 u2 em es :
  let s := state_after es (new o u1 u2 em) in
  (isTracking s = true <-> measurementInterval s <> None) /\
  (isTracking s = true ->
   measurementInterval s = Some (measurePowerInterval (cfg s)) /\
   startTime s <> None /\ locationInfo s <> None /\ systemInfo s <> None /\
   measurements s <> []).
Proof.
  intros s. destruct (reachable_lifecycle o u1 u2 em es) as (Hon & Hoff).
  fold s in Hon, Hoff. split.
  - split.
    + intros Ht. destruct (Hon Ht) as (_ & -> & _). discriminate.
    + intros Hmi. destruct (isTracking s); [reflexivity|].
      now rewrite Hoff in Hmi.
  - intros Ht. destruct (Hon Ht) as (_ & H1 & H2 & H3 & H4 & H5). auto.
Qed.

(** X18.  [start()] on an idle tracker never throws.  It begins to
    track exactly when the memory of the machine is available and the
    operating-system query resolves.  Otherwise it logs an error and the
    accumulators, the log and the start time stay as they were.  When
    it begins, the accumulators restart from zero and the log holds one
    measurement, taken at once, whose elapsed time is the whole
    configured interval. *)
Theorem start_outcome o u1 u2 em es init first :
  let s := state_after es (new o u1 u2 em) in
  isTracking s = false ->
  exists s' l,
    start init first s = (Normal tt, s', l) /\
    (isTracking s' = true <-> can_start init s) /\
    (~ can_start init s ->
     same_energy s s' /\ startTime s' = startTime s /\ In start_failed l) /\
    (can_start init s ->
     startTime s' = Some (now init) /\
     exists m,
       measurements s' = [m] /\ timestamp m = now first /\
       duration m = measurePowerInterval (cfg s) / 1000 /\
       totalCpuEnergy s' == cpuEnergy m /\
       totalRamEnergy s' == ramEnergy m /\
       totalGpuEnergy s' == gpuEnergy m).
Proof.
  intros s Ht.
  destruct (start_cases init first s Ht (reachable_hw_ok o u1 u2 em es))
    as (s' & l & E & Hc & _ & _ & _ & Hcase).
  exists s', l. split; [exact E|].
  destruct Hcase as [(Hno & Hoff & He & _ & Hst & Hin) |
                     (Hyes & s0 & l0 & Hc0 & Ht0 & Hr0 & Hst0 & _ & Hwf0
                      & Hs0 & _ & _ & E0)].
  - split; [split; [congruence | contradiction]|].
    split; [auto | contradiction].
  - destruct (measure_running first s0 Ht0 Hwf0 Hs0)
      as (s1 & l1 & m & E1 & _ & _ & Hf & Hrec).
    rewrite E0 in E1. injection E1 as <- <-.
    destruct Hf as (_ & Hti & Hstf & _).
    destruct Hr0 as (Z1 & Z2 & Z3 & _ & Z5).
    destruct Hrec as [c h1 k1 r h2 k2 g h3 k3 _ _ _ _ Hm Hts Hd
      _ _ _ _ _ _ _ Htc Htr Htg _ _].
    split; [split; [auto | intros _; congruence]|].
    split; [contradiction|]. intros _.
    split; [congruence|]. exists m.
    rewrite Hm, Z5, Hts, Hd, Htc, Htr, Htg, Z1, Z2, Z3.
    unfold timeSinceLastMeasurement. rewrite Z5, Hc0. cbn.
    repeat split; try reflexivity; ring.
Qed.

Lemma start_outcome_witness :
  exists s' l,
    start (Scenario.at_time Scenario.laptop 0) (Scenario.at_time Scenario.laptop 0)
      (state_after [] Scenario.default_tracker) = (Normal tt, s', l) /\
    (isTracking s' = true <->
     can_start (Scenario.at_time Scenario.laptop 0)
       (state_after [] Scenario.default_tracker)) /\
    (~ can_start (Scenario.at_time Scenario.laptop 0)
         (state_after [] Scenario.default_tracker) ->
     same_energy (state_after [] Scenario.default_tracker) s' /\
     startTime s' = startTime (state_after [] Scenario.default_tracker) /\
     In start_failed l) /\
    (can_start (Scenario.at_time Scenario.laptop 0)
       (state_after [] Scenario.default_tracker) ->
     startTime s' = Some (now (Scenario.at_time Scenario.laptop 0)) /\
     exists m,
       measurements s' = [m] /\
       timestamp m = now (Scenario.at_time Scenario.laptop 0) /\
       duration m =
         measurePowerInterval (cfg (state_after [] Scenario.default_tracker))
         / 1000 /\
       totalCpuEnergy s' == cpuEnergy m /\
       totalRamEnergy s' == ramEnergy m /\
       totalGpuEnergy s' == gpuEnergy m).
Proof.
  apply (start_outcome no_options "run" "experiment" Scenario.no_table []
           (Scenario.at_time Scenario.laptop 0)
           (Scenario.at_time Scenario.laptop 0)).
  reflexivity.
Defined.

(** X19.  In a serialized session of a constructed tracker, while the
    tracker is tracking, every firing of the timer and every [stop()]
    that runs to completion with no other call in between appends
    exactly one measurement to the log: stamped with the clock reading
    of that call, with as elapsed time the difference between that
    reading and the time stamp of the last measurement (there is one),
    in seconds, and with the running total; no measurement is dropped
    or rewritten. *)
Theorem running_event_records o u1 u2 em es e :
  let s := state_after es (new o u1 u2 em) in
  let s' := state_after [e] s in
  isTracking s = true -> not_a_start e ->
  exists p m,
    last (measurements s) = Some p /\
    measurements s' = (measurements s ++ [m])%list /\
    timestamp m = now (world_of e) /\
    duration m = inject_Z (now (world_of e) - timestamp p) / 1000 /\
    m_totalEnergy m = totalEnergy s'.
Proof.
  intros s s' Ht He. subst s'.
  pose proof (reachable_hw_ok o u1 u2 em es) as Hwf.
  destruct (reachable_lifecycle o u1 u2 em es) as (Hon & _).
  fold s in Hwf, Hon. destruct (Hon Ht) as (Hs & Hmi & _ & _ & _ & Hne).
  destruct (last (measurements s)) as [p|] eqn:El;
    [|apply last_None in El; contradiction].
  exists p.
  assert (Hel : forall n, timeSinceLastMeasurement s n
                          = inject_Z (n - timestamp p) / 1000).
  { intros n. unfold timeSinceLastMeasurement. now rewrite El. }
  destruct e as [init first | w | final fin write]; [destruct He| |].
  - rewrite state_after_tick, Hmi.
    destruct (measure_running w s Ht Hwf Hs) as (s1 & l1 & m & E & _ & _ & _ & Hr).
    rewrite E. cbn [fst snd world_of]. exists m.
    destruct Hr as [c h1 k1 r h2 k2 g h3 k3 _ _ _ _ Hm Hts Hd
      _ _ _ _ _ _ _ _ _ _ _ Hmt]. rewrite Hel in Hd. auto.
  - rewrite state_after_stop.
    destruct (stop_tracking final fin write s Ht Hwf)
      as (s1 & l1 & r & lr & s2 & l & v & E1 & _ & E & He2 & _).
    rewrite E. cbn [fst snd world_of].
    set (sc := set_measurementInterval None s) in E1.
    destruct (measure_running final sc Ht Hwf Hs)
      as (s1' & l1' & m & E1' & _ & _ & _ & Hr).
    rewrite E1 in E1'. injection E1' as <- <-.
    apply (recorded_ext final sc s) in Hr; try reflexivity.
    destruct Hr as [c h1 k1 r0 h2 k2 g h3 k3 _ _ _ _ Hm Hts Hd
      _ _ _ _ _ _ _ _ _ _ _ Hmt].
    destruct He2 as (_ & _ & _ & T4 & T5).
    exists m. rewrite T5, T4. rewrite Hel in Hd. auto.
Qed.

Lemma running_event_records_witness :
  exists p m,
    last (measurements started_at_2000) = Some p /\
    measurements
      (state_after [Tick (Scenario.at_time Scenario.laptop 5000)] started_at_2000)
    = (measurements started_at_2000 ++ [m])%list /\
    timestamp m = now (world_of (Tick (Scenario.at_time Scenario.laptop 5000))) /\
    duration m =
      inject_Z (now (world_of (Tick (Scenario.at_time Scenario.laptop 5000)))
                - timestamp p) / 1000 /\
    m_totalEnergy m =
      totalEnergy
        (state_after [Tick (Scenario.at_time Scenario.laptop 5000)]
           started_at_2000).
Proof.
  apply (running_event_records no_options "run" "experiment" Scenario.no_table
           [Start (Scenario.at_time Scenario.laptop 2000)
                  (Scenario.at_time Scenario.laptop 2000)]
           (Tick (Scenario.at_time Scenario.laptop 5000))).
  - vm_compute. reflexivity.
  - exact I.
Defined.

(** X20.  Calls that begin on a tracker that is not tracking change
    nothing: a callback of the timer and [stop()] return at their first
    statement, so any number of them, in any order, each begun after
    the one before has returned, leave every field as it is.  (A
    measurement that began while the tracker was still tracking is not
    such a call.) *)
Theorem idle_tracker_is_frozen s es w :
  isTracking s = false -> Forall not_a_start es ->
  measurePowerAndEnergy w s = (Normal tt, s, []) /\
  state_after es s = s.
Proof.
  intros Ht Hes. split; [exact (measure_not_tracking w s Ht)|].
  induction Hes as [|e es He _ IH]; [reflexivity|].
  rewrite state_after_cons.
  assert (E : state_after [e] s = s).
  { destruct e as [init first | w' | final fin write]; [destruct He| |].
    - rewrite state_after_tick. destruct (measurementInterval s); [|reflexivity].
      now rewrite (measure_not_tracking w' s Ht).
    - rewrite state_after_stop. now rewrite (stop_not_tracking final fin write s Ht). }
  now rewrite E.
Qed.

Lemma idle_tracker_is_frozen_witness :
  measurePowerAndEnergy (Scenario.at_time Scenario.laptop 9000) started_and_stopped
    = (Normal tt, started_and_stopped, []) /\
  state_after late_events started_and_stopped = started_and_stopped.
Proof.
  apply (idle_tracker_is_frozen started_and_stopped late_events
           (Scenario.at_time Scenario.laptop 9000)).
  - vm_compute. reflexivity.
  - repeat constructor.
Defined.

Lemma total_is_last_energy s s' :
  cfg s' = cfg s -> same_energy s s' -> total_is_last s -> total_is_last s'.
Proof.
  unfold total_is_last. intros _ (_ & _ & _ & E4 & E5). now rewrite E4, E5.
Qed.

Lemma total_is_last_reset s : reset_state s -> total_is_last s.
Proof.
  unfold total_is_last. intros (_ & _ & _ & E4 & E5). now rewrite E5.
Qed.

Lemma total_is_last_tick w s s' l :
  isTracking s = true -> cfg s' = cfg s ->
  tick_outcome w s s' l -> total_is_last s -> total_is_last s'.
Proof.
  intros _ Hc Ho Hs. destruct Ho as [He _ | m
    [c h1 l1 r h2 l2 g h3 l3 _ _ _ _ Hm _ _ _ _ _ _ _ _ _ _ _ _ _ Hmt]].
  - eapply total_is_last_energy; eassumption.
  - unfold total_is_last. rewrite Hm, last_snoc. exact Hmt.
Qed.

(** X21.  At every point of every session of a constructed tracker the
    total energy of the tracker is the total its last measurement
    recorded, and is zero while the log is empty. *)
Theorem total_is_the_last_recorded o u1 u2 em es :
  total_is_last (state_after es (new o u1 u2 em)).
Proof.
  apply (session_invariant total_is_last).
  - exact total_is_last_energy.
  - exact total_is_last_reset.
  - exact total_is_last_tick.
Qed.

Lemma chained_snoc ms m :
  chained ms ->
  match last ms with
  | Some p => duration m = inject_Z (timestamp m - timestamp p) / 1000
  | None => True
  end ->
  chained (ms ++ [m]).
Proof.
  induction ms as [|m1 [|m2 rest] IH]; cbn; intros Hc Hl.
  - auto.
  - auto.
  - destruct Hc as (H1 & H2). split; [exact H1|].
    apply IH; [exact H2|]. exact Hl.
Qed.

Lemma log_chained_energy s s' :
  cfg s' = cfg s -> same_energy s s' -> log_chained s -> log_chained s'.
Proof.
  unfold log_chained. intros Hc (_ & _ & _ & _ & E5). now rewrite Hc, E5.
Qed.

Lemma log_chained_reset s : reset_state s -> log_chained s.
Proof.
  unfold log_chained. intros (_ & _ & _ & _ & E5). rewrite E5. cbn. auto.
Qed.

Lemma log_chained_tick w s s' l :
  isTracking s = true -> cfg s' = cfg s ->
  tick_outcome w s s' l -> log_chained s -> log_chained s'.
Proof.
  intros _ Hc Ho Hs. destruct Ho as [He _ | m
    [c h1 l1 r h2 l2 g h3 l3 _ _ _ _ Hm Hts Hd _ _ _ _ _ _ _ _ _ _ _ _]].
  - eapply log_chained_energy; eassumption.
  - destruct Hs as (Hf & Hch). unfold log_chained. rewrite Hm, Hc.
    unfold timeSinceLastMeasurement in Hd. split.
    + destruct (measurements s) as [|m0 ms]; [exact Hd | exact Hf].
    + apply chained_snoc; [exact Hch|].
      destruct (last (measurements s)); [|exact I]. now rewrite Hts.
Qed.

Lemma chained_pairs ms :
  chained ms ->
  forall before m1 m2 rest,
    ms = (before ++ m1 :: m2 :: rest)%list ->
    duration m2 = inject_Z (timestamp m2 - timestamp m1) / 1000.
Proof.
  intros Hc before. revert ms Hc.
  induction before as [|b before IH]; intros ms Hc m1 m2 rest ->.
  - destruct Hc as (Hd & _). exact Hd.
  - destruct Hc as (_ & Hc). exact (IH _ Hc m1 m2 rest eq_refl).
Qed.

(** X22.  In the log of every serialized session of a constructed
    tracker (no measurement begins while another is awaiting the
    sampler) the first measurement records the configured interval, in
    seconds, as its elapsed time, and every later one the difference
    between its time stamp and the time stamp of the measurement just
    before it, in seconds. *)
Theorem log_durations_chained o u1 u2 em es :
  let s := state_after es (new o u1 u2 em) in
  (forall m ms,
     measurements s = m :: ms ->
     duration m = measurePowerInterval (cfg s) / 1000) /\
  (forall before m1 m2 rest,
     measurements s = (before ++ m1 :: m2 :: rest)%list ->
     duration m2 = inject_Z (timestamp m2 - timestamp m1) / 1000).
Proof.
  intros s.
  assert (H : log_chained s).
  { apply (session_invariant log_chained).
    - exact log_chained_energy.
    - exact log_chained_reset.
    - exact log_chained_tick. }
  destruct H as (Hf & Hc). split.
  - intros m ms E. rewrite E in Hf. exact Hf.
  - exact (chained_pairs _ Hc).
Qed.

(** ** [stop()] and the CSV file *)

Lemma saveData_outcome write data h :
  exists l,
    OutputHandler.saveData write data h = (Normal tt, saved write data h, l).
Proof.
  unfold OutputHandler.saveData, saved, try_catch, bind, get, ret, await, modify,
    console_log, console_error.
  cbn. destruct (OutputHandler.saveToFile h), (OutputHandler.csvWriter h);
    cbn; eauto.
  destruct write as [[]|e]; cbn; eauto.
Qed.

Lemma stop_report final fin write s :
  isTracking s = true -> hw_ok s -> sampling s ->
  locationInfo s <> None -> systemInfo s <> None ->
  exists s1 l1 m res lr l,
    measurePowerAndEnergy final (set_measurementInterval None s)
      = (Normal tt, s1, l1) /\
    recorded final s s1 l1 m /\
    same_session (set_measurementInterval None s) s1 /\
    calculateFinalEmissions (finalized fin s1)
      = (Normal res, finalized fin s1, lr) /\
    stop final fin write s =
      (Normal (r_emissions res),
       set_outputHandler (saved write res (outputHandler s)) (finalized fin s1),
       l).
Proof.
  intros H Hwf Hs Hloc Hsys. unfold stop.
  unfold bind at 1. unfold gets at 1. rewrite H. cbn [negb].
  set (sc := set_measurementInterval None s).
  destruct (measure_running final sc H Hwf Hs)
    as (s1 & l1 & m & E1 & _ & _ & Hf & Hr).
  apply (recorded_ext final sc s) in Hr; try reflexivity.
  pose proof Hf as (Hc1 & Ht1 & Hst1 & Het1 & Hmi1 & Ho1 & Hsi1 & Hli1).
  destruct (locationInfo s) as [loc|] eqn:El; [|congruence].
  destruct (systemInfo s) as [info|] eqn:Ei; [|congruence].
  destruct (calculateFinalEmissions_ok (finalized fin s1) loc info)
    as (res & lr & Er & _);
    [cbn; rewrite Hli1; exact El | cbn; rewrite Hsi1; exact Ei |].
  exists s1, l1, m, res, lr.
  unfold try_catch, bind, modify, gets, get, when, ret, console_log,
    console_error, output, zoom.
  cbn -[measurePowerAndEnergy calculateFinalEmissions OutputHandler.saveData
        OutputHandler.logData].
  fold sc. rewrite E1.
  cbn -[measurePowerAndEnergy calculateFinalEmissions OutputHandler.saveData
        OutputHandler.logData].
  change (set_isTracking false (set_endTime (Some fin) s1))
    with (finalized fin s1).
  rewrite Er.
  cbn -[OutputHandler.saveData OutputHandler.logData].
  destruct (String.eqb (logLevel (cfg s1)) "INFO");
    cbn -[OutputHandler.saveData];
    match goal with
    | |- context [OutputHandler.saveData write res ?h] =>
        destruct (saveData_outcome write res h) as (l' & E'); rewrite E'
    end;
    cbn -[saved]; rewrite Ho1; eexists; repeat split; try assumption.
Qed.

Lemma new_output_configured o u1 u2 em : output_configured (new o u1 u2 em).
Proof. split; reflexivity. Qed.

Lemma saved_configured write data h :
  OutputHandler.saveToFile (saved write data h) = OutputHandler.saveToFile h /\
  OutputHandler.csvWriter (saved write data h) = OutputHandler.csvWriter h.
Proof. unfold saved. destruct (_ && _); split; reflexivity. Qed.

Lemma step_output_configured e s :
  hw_ok s -> lifecycle s -> output_configured s ->
  output_configured (state_after [e] s).
Proof.
  intros Hwf Hl (Ho1 & Ho2). unfold output_configured.
  destruct e as [init first | w | final fin write].
  - rewrite state_after_start_any. destruct (isTracking s) eqn:Ht.
    + rewrite (start_running init first s Ht). cbn. split; assumption.
    + destruct (start_cases init first s Ht Hwf)
        as (s' & l & E & Hc & _ & Ho & _).
      rewrite E. cbn. rewrite Ho, Hc. split; assumption.
  - rewrite state_after_tick. destruct (measurementInterval s);
      [|split; assumption].
    destruct (isTracking s) eqn:Ht.
    + destruct (measure_tracking w s Ht)
        as (s' & l & E & (Hc & _ & _ & _ & _ & Ho & _) & _).
      rewrite E. cbn. rewrite Ho, Hc. split; assumption.
    + rewrite (measure_not_tracking w s Ht). cbn. split; assumption.
  - rewrite state_after_stop. destruct (isTracking s) eqn:Ht.
    + destruct Hl as (Hon & _).
      destruct (Hon Ht) as (Hs & _ & _ & Hli & Hsi & _).
      destruct (stop_report final fin write s Ht Hwf Hs Hli Hsi)
        as (s1 & l1 & m & res & lr & l & _ & _ & Hf & _ & E).
      rewrite E. cbn -[saved].
      destruct (saved_configured write res (outputHandler s)) as (-> & ->).
      destruct Hf as (Hc & _). rewrite Hc. split; assumption.
    + rewrite (stop_not_tracking final fin write s Ht). cbn. split; assumption.
Qed.

Lemma output_configured_preserved es :
  forall s, hw_ok s -> lifecycle s -> output_configured s ->
            output_configured (state_after es s).
Proof.
  induction es as [|e es IH]; intros s Hwf Hl Ho; [exact Ho|].
  rewrite state_after_cons.
  destruct (step_lifecycle e s Hwf Hl) as (H1 & H2).
  apply IH; [exact H1 | exact H2 | now apply step_output_configured].
Qed.

Lemma calculateFinalEmissions_parts s loc info :
  locationInfo s = Some loc -> systemInfo s = Some info ->
  exists res l,
    calculateFinalEmissions s = (Normal res, s, l) /\
    r_cpuEnergy res = totalCpuEnergy s /\
    r_ramEnergy res = totalRamEnergy s /\
    r_gpuEnergy res = totalGpuEnergy s /\
    r_pue res = pue (cfg s) /\
    r_averageCpuUsage res = calculateAverageCpuUsage s.
Proof.
  intros Hl Hs. unfold calculateFinalEmissions, bind, get, ret.
  rewrite Hl, Hs.
  destruct (Emissions.calculateEmissions (emissions (cfg s)) (totalEnergy s)
              (Geography.countryCode loc)) as [kg out] eqn:E.
  cbn. do 2 eexists. split; [reflexivity|]. cbn. repeat split.
Qed.

(** X23.  [stop()] on a tracking session of a constructed tracker never
    throws.  It switches tracking off, records the end time and returns
    the emissions of a result whose energy is the tracker's total and
    the sum of its three parts, and which counts the final measurement;
    none of this depends on how the CSV write settles.  The result
    lands in the file exactly when the tracker was built to save and
    the write resolves; a failed write loses the row and nothing else. *)
Theorem stop_reports_and_saves o u1 u2 em es final fin :
  let s := state_after es (new o u1 u2 em) in
  isTracking s = true ->
  exists res,
    r_energyConsumed res = r_cpuEnergy res + r_ramEnergy res + r_gpuEnergy res /\
    r_measurements res = S (length (measurements s)) /\
    r_duration res = inject_Z (fin - time_or_0 (startTime s)) / 1000 /\
    forall write, exists s' l,
      stop final fin write s = (Normal (r_emissions res), s', l) /\
      isTracking s' = false /\ endTime s' = Some fin /\
      totalEnergy s' = r_energyConsumed res /\
      OutputHandler.written (outputHandler s') =
        if saveToFile (cfg s) && settled write
        then (OutputHandler.written (outputHandler s) ++ [res])%list
        else OutputHandler.written (outputHandler s).
Proof.
  intros s Ht.
  pose proof (reachable_hw_ok o u1 u2 em es) as Hwf.
  pose proof (reachable_lifecycle o u1 u2 em es) as Hl.
  assert (Ho : output_configured s).
  { apply output_configured_preserved;
      [apply new_hw_ok | apply new_lifecycle | apply new_output_configured]. }
  fold s in Hwf, Hl. destruct Hl as (Hon & _).
  destruct (Hon Ht) as (Hs & _ & _ & Hli & Hsi & _).
  destruct (stop_report final fin (Normal tt) s Ht Hwf Hs Hli Hsi)
    as (s1 & l1 & m & res & lr & l & E1 & Hr & Hf & Er & _).
  destruct Hf as (Hc1 & Ht1 & Hst1 & _ & Hmi1 & Ho1 & Hsi1 & Hli1).
  destruct (locationInfo s) as [loc|] eqn:El; [|congruence].
  destruct (systemInfo s) as [info|] eqn:Ei; [|congruence].
  destruct (calculateFinalEmissions_ok (finalized fin s1) loc info)
    as (res' & lr' & Er' & _ & Hd & _ & He & Hn & _);
    [cbn; rewrite Hli1; exact El | cbn; rewrite Hsi1; exact Ei |].
  rewrite Er in Er'. injection Er' as <- <-.
  destruct Hr as [c h1 k1 r h2 k2 g h3 k3 _ _ _ _ Hm _ _ _ _ _ _ _ _ _ _ _ _ Htot _].
  exists res. split; [|split; [|split]].
  - destruct (calculateFinalEmissions_parts (finalized fin s1) loc info)
      as (res' & lr' & Er' & P1 & P2 & P3 & _);
      [cbn; rewrite Hli1; exact El | cbn; rewrite Hsi1; exact Ei |].
    rewrite Er in Er'. injection Er' as <- <-.
    rewrite P1, P2, P3, He. exact Htot.
  - rewrite Hn. cbn. rewrite Hm, length_app. cbn. lia.
  - rewrite Hd. cbn. now rewrite Hst1.
  - intros write.
    destruct (stop_report final fin write s Ht Hwf Hs)
      as (s1' & l1' & m' & res2 & lr2 & l2 & E1' & _ & _ & Er2 & E);
      [congruence | congruence |].
    rewrite E1 in E1'. injection E1' as <- <-.
    rewrite Er in Er2. injection Er2 as <- <-.
    do 2 eexists. split; [exact E|]. cbn -[saved].
    repeat split; [now rewrite He|].
    unfold saved. destruct Ho as (-> & ->).
    rewrite andb_diag. destruct (saveToFile (cfg s) && settled write); reflexivity.
Qed.

Lemma stop_reports_and_saves_witness :
  exists res,
    r_energyConsumed res = r_cpuEnergy res + r_ramEnergy res + r_gpuEnergy res /\
    r_measurements res = S (length (measurements saving_tracker_started)) /\
    r_duration res =
      inject_Z (4000 - time_or_0 (startTime saving_tracker_started)) / 1000 /\
    forall write, exists s' l,
      stop (Scenario.at_time Scenario.laptop 4000) 4000 write saving_tracker_started
        = (Normal (r_emissions res), s', l) /\
      isTracking s' = false /\ endTime s' = Some 4000%Z /\
      totalEnergy s' = r_energyConsumed res /\
      OutputHandler.written (outputHandler s') =
        if saveToFile (cfg saving_tracker_started) && settled write
        then (OutputHandler.written (outputHandler saving_tracker_started)
              ++ [res])%list
        else OutputHandler.written (outputHandler saving_tracker_started).
Proof.
  apply (stop_reports_and_saves no_options "run" "experiment" Scenario.no_table
           [Start (Scenario.at_time Scenario.laptop 0)
                  (Scenario.at_time Scenario.laptop 0)]
           (Scenario.at_time Scenario.laptop 4000) 4000).
  vm_compute. reflexivity.
Defined.

(** ** The CSV record *)

Lemma num_or_zero x : num_or (Some x) 0 == x.
Proof.
  unfold num_or, truthy. destruct (Qeq_bool x 0) eqn:E; cbn; [|reflexivity].
  apply Qeq_bool_eq in E. now rewrite E.
Qed.

(** X25.  The record [formatDataForCSV] builds for a result has exactly
    the columns of the header the CSV writer was created with, in the
    header's order, so no value is written under another column's
    title; and its [|| 0] defaults never change a number: the duration,
    power and energy columns hold the values of the result, a zero
    included, and so do the emissions and rate columns, where a result
    that is [NaN] is written as 0.  The [pue] column holds the result's
    pue unless that is 0, which is written as 1. *)
Theorem csv_record_matches_header iso uuid1 uuid2 data h :
  let rec := CsvRecord.formatDataForCSV iso uuid1 uuid2 data h in
  map fst rec = CsvRecord.header /\
  holds rec "duration" (r_duration data) /\
  holds rec "emissions"
    (match r_emissions data with Finite kg => kg | NaN | Undefined => 0 end) /\
  holds rec "emissions_rate"
    (match r_emissionsRate data with Finite r => r | NaN | Undefined => 0 end) /\
  holds rec "cpu_power" (r_cpuPower data) /\
  holds rec "gpu_power" (r_gpuPower data) /\
  holds rec "ram_power" (r_ramPower data) /\
  holds rec "cpu_energy" (r_cpuEnergy data) /\
  holds rec "gpu_energy" (r_gpuEnergy data) /\
  holds rec "ram_energy" (r_ramEnergy data) /\
  holds rec "energy_consumed" (r_energyConsumed data) /\
  holds rec "pue" (if Qeq_bool (r_pue data) 0 then 1 else r_pue data).
Proof.
  intros rec. split; [reflexivity|].
  repeat split; unfold holds; cbn [CsvRecord.column rec CsvRecord.formatDataForCSV
    String.eqb Ascii.eqb Bool.eqb]; try apply num_or_zero.
  - destruct (r_emissions data); [apply num_or_zero | reflexivity | reflexivity].
  - destruct (r_emissionsRate data); [apply num_or_zero | reflexivity | reflexivity].
  - unfold num_or, truthy. destruct (Qeq_bool (r_pue data) 0); reflexivity.
Qed.
